(** * Fintect: the credit scoring engine of [app.py]

    A shallow embedding of [AdvancedMetrics] and [AdvancedCreditScorer]
    (src/app.py) and the properties of its scoring, fraud and drift
    functions.

    Modelling conventions.
    - A Python [dict] with string keys is a [gmap string pyval].
    - A Python [int] is a [Z].  A finite Python [float] is the rational
      (type [Q]) it stands for, extended with [nan] and the two infinities
      where the value comes from the caller ([pyfloat]).  The float
      arithmetic of the fraud score and of the default probability rounds
      to binary64 ([b64], nearest, ties to even), and the float literals
      these are compared with are the binary64 numbers they denote; an
      attribute of a record is compared as the number written, and the
      weighted sum of the three integer scores is taken exactly.  Equality
      of computed floats is [Qeq] ([==]).
    - A function that may raise returns a [result]; the exception is named
      by its Python class.
    - [_ensure_required_fields] writes into the dict it is given, so the
      functions that call it are state transformers over the contents of
      that dict object ([M]).
    - [np.random.uniform(0, 0.2)] is an explicit argument, the draw [U]. *)

From Stdlib Require Import ZArith QArith Qround Qabs Qminmax Qpower Lqa Lia.
From Stdlib Require Import String List.
From Stdlib Require Import Sorted Permutation.
From stdpp Require Import gmap strings pretty.

Local Open Scope Z_scope.
Local Open Scope string_scope.

(** ** Python values *)

Inductive pyfloat :=
| Fnan
| Finf (negative : bool)
| Ffin (q : Q).

Inductive pyval :=
| VNone
| VBool (b : bool)
| VInt (z : Z)
| VFloat (f : pyfloat)
| VStr (s : string).

(** A number whose type is known where it is computed: the [int] or the
    finite [float] that [min], [max] and the arithmetic of the scorer
    produce. *)
Inductive pynum :=
| NInt (z : Z)
| NFloat (q : Q).

Inductive result (A : Type) :=
| Ok (a : A)
| Raise (exn : string).
Arguments Ok {A} a.
Arguments Raise {A} exn.

Definition TypeError : string := "TypeError".
Definition ValueError : string := "ValueError".
Definition OverflowError : string := "OverflowError".

Definition rbind {A B} (r : result A) (k : A -> result B) : result B :=
  match r with
  | Ok a => k a
  | Raise e => Raise e
  end.

Notation "'do' x <~ c ;; k" := (rbind c (fun x => k))
  (at level 10, x name, c at level 99, k at level 200).

(** ** Comparisons *)

Definition Qlt_bool (x y : Q) : bool := negb (Qle_bool y x).

Definition float_ltb (x y : pyfloat) : bool :=
  match x, y with
  | Fnan, _ | _, Fnan => false
  | Finf true, Finf true => false
  | Finf true, _ => true
  | _, Finf true => false
  | Finf false, _ => false
  | Ffin _, Finf false => true
  | Ffin a, Ffin b => Qlt_bool a b
  end.

Definition float_eqb (x y : pyfloat) : bool :=
  match x, y with
  | Ffin a, Ffin b => Qeq_bool a b
  | Finf s, Finf t => Bool.eqb s t
  | _, _ => false
  end.

Definition float_leb (x y : pyfloat) : bool :=
  float_ltb x y || float_eqb x y.

(** [bool] is a subclass of [int], and [int] compares with [float] by
    value. *)
Definition as_num (v : pyval) : option pyfloat :=
  match v with
  | VBool b => Some (Ffin (if b then 1 else 0)%Q)
  | VInt z => Some (Ffin (inject_Z z))
  | VFloat f => Some f
  | VNone | VStr _ => None
  end.

(** [a == b]: never raises on these values. *)
Definition py_eq (a b : pyval) : bool :=
  match as_num a, as_num b with
  | Some x, Some y => float_eqb x y
  | _, _ =>
      match a, b with
      | VStr s, VStr t => String.eqb s t
      | VNone, VNone => true
      | _, _ => false
      end
  end.

(** The ordering operators: numbers with numbers, strings with strings,
    [TypeError] for any other pair. *)
Definition py_order (fnum : pyfloat -> pyfloat -> bool)
    (fstr : string -> string -> bool) (a b : pyval) : result bool :=
  match as_num a, as_num b with
  | Some x, Some y => Ok (fnum x y)
  | _, _ =>
      match a, b with
      | VStr s, VStr t => Ok (fstr s t)
      | _, _ => Raise TypeError
      end
  end.

Definition py_lt : pyval -> pyval -> result bool :=
  py_order float_ltb String.ltb.
Definition py_le : pyval -> pyval -> result bool :=
  py_order float_leb String.leb.
Definition py_gt : pyval -> pyval -> result bool :=
  py_order (fun x y => float_ltb y x) (fun s t => String.ltb t s).
Definition py_ge : pyval -> pyval -> result bool :=
  py_order (fun x y => float_leb y x) (fun s t => String.leb t s).

(** ** Numbers of known type *)

Definition num_val (n : pynum) : Q :=
  match n with
  | NInt z => inject_Z z
  | NFloat q => q
  end.

(** [min(a, b)] and [max(a, b)] return the first argument unless the second
    is strictly smaller (larger). *)
Definition py_min (a b : pynum) : pynum :=
  if Qlt_bool (num_val b) (num_val a) then b else a.
Definition py_max (a b : pynum) : pynum :=
  if Qlt_bool (num_val a) (num_val b) then b else a.

(** [int(x)] truncates a float towards zero. *)
Definition Qtrunc (q : Q) : Z := Z.quot (Qnum q) (Zpos (Qden q)).

Definition py_int (n : pynum) : Z :=
  match n with
  | NInt z => z
  | NFloat q => Qtrunc q
  end.

(** Nearest integer, ties to the even one. *)
Definition Qround_half_even (q : Q) : Z :=
  let f := Qfloor q in
  let r := (q - inject_Z f)%Q in
  if Qlt_bool r (1 # 2) then f
  else if Qlt_bool (1 # 2) r then f + 1
  else if Z.even f then f else f + 1.

(** ** binary64 *)

(** [floor (log2 x)] for [0 < x]. *)
Definition Qfloor_log2 (x : Q) : Z :=
  let k := Z.log2 (Qnum x) - Z.log2 (Zpos (Qden x)) in
  if Qle_bool (2 ^ k) x then k else k - 1.

(** The exponent of the unit in the last place of the binary64 numbers
    around [x]: 53 bits of precision, least exponent -1074. *)
Definition b64_exponent (x : Q) : Z :=
  Z.max (Qfloor_log2 (Qabs x) - 52) (-1074).

(** The binary64 number nearest to [x], ties to the even significand: what
    a float literal denotes and what a float operation returns for the
    exact result [x].  Overflow to infinity is left out: no quantity
    rounded below reaches 2^1024. *)
Definition b64 (x : Q) : Q :=
  let e := b64_exponent x in
  Qred (inject_Z (Qround_half_even (x / 2 ^ e)) * 2 ^ e).

(** [x + y], [x - y], [x * y] and [x / y] on floats. *)
Definition fadd (x y : Q) : Q := b64 (x + y).
Definition fsub (x y : Q) : Q := b64 (x - y).
Definition fmul (x y : Q) : Q := b64 (x * y).
Definition fdiv (x y : Q) : Q := b64 (x / y).

(** [float(n)] of an [int], as in [n * 0.25] or [850 - x]. *)
Definition of_int (n : Z) : Q := b64 (inject_Z n).

Arguments b64 : simpl never.

(** [round(x, ndigits)] for [ndigits >= 0]: an [int] is returned as it is;
    a float is rounded at that decimal place, ties to even, and the result
    is the float nearest to that decimal. *)
Definition py_round (n : pynum) (ndigits : Z) : pynum :=
  match n with
  | NInt z => NInt z
  | NFloat q =>
      let p := inject_Z (10 ^ ndigits) in
      NFloat (b64 (inject_Z (Qround_half_even (q * p)) / p))
  end.

(** ** Dictionaries *)

Abbreviation pydict := (gmap string pyval).

(** [d.get(key, default)] *)
Definition dict_get (d : pydict) (key : string) (default : pyval) : pyval :=
  match d !! key with
  | Some v => v
  | None => default
  end.

(** ** State: the contents of the dict object the caller passed *)

Definition M (A : Type) : Type := pydict -> result A * pydict.

Definition mret {A} (a : A) : M A := fun d => (Ok a, d).

Definition mbind {A B} (m : M A) (k : A -> M B) : M B :=
  fun d =>
    match m d with
    | (Ok a, d') => k a d'
    | (Raise e, d') => (Raise e, d')
    end.

(** Read the object. *)
Definition mget : M pydict := fun d => (Ok d, d).

(** [input_data[key] = v] *)
Definition msetitem (key : string) (v : pyval) : M unit :=
  fun d => (Ok tt, <[key := v]> d).

(** Run a computation that only reads. *)
Definition mlift {A} (r : result A) : M A := fun d => (r, d).

Notation "'do' x <- c ;; k" := (mbind c (fun x => k))
  (at level 10, x name, c at level 99, k at level 200).

(** * AdvancedCreditScorer *)

Module AdvancedCreditScorer.

Definition model_version : string := "Enterprise v5.0".

Record EnsembleWeights := {
  w_behavioral_score : Q;
  w_financial_score : Q;
  w_stability_score : Q
}.

Definition ensemble_weights : EnsembleWeights :=
  {| w_behavioral_score := 0.4;
     w_financial_score := 0.35;
     w_stability_score := 0.25 |}.

(** The table [defaults] of [_ensure_required_fields], in its order. *)
Definition defaults : list (string * pyval) :=
  [ ("age", VInt 35);
    ("income", VInt 500000);
    ("credit_score", VInt 650);
    ("debt_to_income", VFloat (Ffin 0.3));
    ("loan_amount", VInt 500000);
    ("employment_length", VInt 5);
    ("number_of_credit_lines", VInt 5);
    ("late_payments_90d", VInt 0);
    ("credit_utilization", VFloat (Ffin 0.4));
    ("recent_inquiries", VInt 2);
    ("existing_loans", VInt 1);
    ("savings_balance", VInt 100000);
    ("monthly_expenses", VInt 30000);
    ("education_level", VStr "Graduate");
    ("marital_status", VStr "Married");
    ("dependents", VInt 1);
    ("property_ownership", VStr "Owned");
    ("business_owner", VBool false);
    ("credit_history_length", VInt 7);
    ("industry_risk", VStr "Medium");
    ("geographic_risk", VStr "Medium") ].

(** The loop [for field, default_value in defaults.items()]. *)
Fixpoint fill_defaults (items : list (string * pyval)) : M unit :=
  match items with
  | [] => mret tt
  | (field, default_value) :: rest =>
      do input_data <- mget ;;
      do _ <- (match input_data !! field with
            | None => msetitem field default_value
            | Some _ => mret tt
            end) ;;
      fill_defaults rest
  end.

(** [_ensure_required_fields(input_data)]: fills the object in place; the
    value returned is the same object, which is the state. *)
Definition _ensure_required_fields : M unit := fill_defaults defaults.

(** [calculate_behavioral_score(input_data)] *)
Definition calculate_behavioral_score (input_data : pydict) : result Z :=
  let score := 650 in
  (* Payment behavior *)
  let late_payments := dict_get input_data "late_payments_90d" (VInt 0) in
  do score <~ (if py_eq late_payments (VInt 0) then Ok (score + 50)
            else
              (do c <~ py_le late_payments (VInt 2) ;;
               if c then Ok (score + 20)
               else
                  (do c <~ py_gt late_payments (VInt 5) ;;
                   if c then Ok (score - 60) else Ok score))) ;;
  (* Credit utilization *)
  let utilization :=
    dict_get input_data "credit_utilization" (VFloat (Ffin 0.4)) in
  do score <~ (do c <~ py_lt utilization (VFloat (Ffin 0.2)) ;;
            if c then Ok (score + 30)
            else
              (do c <~ py_lt utilization (VFloat (Ffin 0.4)) ;;
               if c then Ok (score + 15)
               else
                  (do c <~ py_gt utilization (VFloat (Ffin 0.8)) ;;
                   if c then Ok (score - 40) else Ok score))) ;;
  Ok (Z.max 300 (Z.min 850 score)).

(** [calculate_financial_score(input_data)] *)
Definition calculate_financial_score (input_data : pydict) : result Z :=
  let score := 650 in
  (* Income stability *)
  let income := dict_get input_data "income" (VInt 500000) in
  do score <~ (do c <~ py_gt income (VInt 1000000) ;;
            if c then Ok (score + 40)
            else
              (do c <~ py_gt income (VInt 750000) ;;
               if c then Ok (score + 20)
               else
                  (do c <~ py_lt income (VInt 300000) ;;
                   if c then Ok (score - 30) else Ok score))) ;;
  (* Debt-to-income *)
  let dti := dict_get input_data "debt_to_income" (VFloat (Ffin 0.3)) in
  do score <~ (do c <~ py_lt dti (VFloat (Ffin 0.2)) ;;
            if c then Ok (score + 35)
            else
              (do c <~ py_lt dti (VFloat (Ffin 0.35)) ;;
               if c then Ok (score + 15)
               else
                  (do c <~ py_gt dti (VFloat (Ffin 0.5)) ;;
                   if c then Ok (score - 40) else Ok score))) ;;
  Ok (Z.max 300 (Z.min 850 score)).

(** [calculate_stability_score(input_data)] *)
Definition calculate_stability_score (input_data : pydict) : result Z :=
  let score := 650 in
  (* Employment stability *)
  let employment_length := dict_get input_data "employment_length" (VInt 5) in
  do score <~ (do c <~ py_gt employment_length (VInt 10) ;;
            if c then Ok (score + 40)
            else
              (do c <~ py_gt employment_length (VInt 5) ;;
               if c then Ok (score + 20)
               else
                  (do c <~ py_lt employment_length (VInt 2) ;;
                   if c then Ok (score - 35) else Ok score))) ;;
  (* Residential stability *)
  let property_owned :=
    py_eq (dict_get input_data "property_ownership" (VStr "Owned"))
          (VStr "Owned") in
  let score := if property_owned then score + 25 else score in
  Ok (Z.max 300 (Z.min 850 score)).

Record ComponentScoreSet := {
  behavioral_score : Z;
  financial_score : Z;
  stability_score : Z;
  ensemble_score : Q;
  final_score : pynum
}.

Record CreditDecision := {
  credit_score : Z;
  risk_level : string;
  default_probability : pynum;
  business_impact : string;
  component_scores : ComponentScoreSet;
  success : bool
}.

(** The block "External risk factors" of [predict_credit_risk]. *)
Definition risk_adjustment_of (industry_risk geographic_risk : pyval) : Z :=
  let risk_adjustment := 0 in
  let risk_adjustment :=
    if py_eq industry_risk (VStr "High") then risk_adjustment - 25
    else if py_eq industry_risk (VStr "Low") then risk_adjustment + 15
    else risk_adjustment in
  let risk_adjustment :=
    if py_eq geographic_risk (VStr "High") then risk_adjustment - 20
    else if py_eq geographic_risk (VStr "Low") then risk_adjustment + 10
    else risk_adjustment in
  risk_adjustment.

(** [(850 - final_score) / d]: true division, always a float.  With an
    [int] final score the difference is an [int] and the quotient of the
    two [int]s is rounded once; with a float final score the difference is
    a float. *)
Definition distance_from_top (final_score : pynum) (d : Z) : pynum :=
  match final_score with
  | NInt z => NFloat (b64 (inject_Z (850 - z) / inject_Z d))
  | NFloat x => NFloat (fdiv (fsub (of_int 850) x) (of_int d))
  end.

(** The block "Risk classification" of [predict_credit_risk]:
    [(risk_level, default_prob, business_impact)]. *)
Definition risk_classification (final_score : pynum)
    : string * pynum * string :=
  let fs := num_val final_score in
  if Qle_bool 750 fs then
    ("Excellent",
     py_max (NInt 1) (py_min (NInt 5) (distance_from_top final_score 20)),
     "Premium Profitability")
  else if Qle_bool 700 fs then
    ("Good",
     py_max (NInt 5) (py_min (NInt 15) (distance_from_top final_score 10)),
     "High Profitability")
  else if Qle_bool 650 fs then
    ("Medium",
     py_max (NInt 15) (py_min (NInt 25) (distance_from_top final_score 6)),
     "Moderate Profitability")
  else if Qle_bool 600 fs then
    ("Watch",
     py_max (NInt 25) (py_min (NInt 35) (distance_from_top final_score 4)),
     "Marginal Profitability")
  else
    ("High",
     py_max (NInt 35) (py_min (NInt 50) (distance_from_top final_score 3)),
     "High Risk - Review Required").

(** [predict_credit_risk(input_data)] *)
Definition predict_credit_risk : M CreditDecision :=
  do _ <- _ensure_required_fields ;;
  do input_data <- mget ;;
  (* Calculate component scores *)
  do behavioral_score <- mlift (calculate_behavioral_score input_data) ;;
  do financial_score <- mlift (calculate_financial_score input_data) ;;
  do stability_score <- mlift (calculate_stability_score input_data) ;;
  (* Ensemble scoring *)
  let ensemble_score :=
    (inject_Z behavioral_score * w_behavioral_score ensemble_weights +
     inject_Z financial_score * w_financial_score ensemble_weights +
     inject_Z stability_score * w_stability_score ensemble_weights)%Q in
  (* External risk factors *)
  let industry_risk := dict_get input_data "industry_risk" (VStr "Medium") in
  let geographic_risk :=
    dict_get input_data "geographic_risk" (VStr "Medium") in
  let risk_adjustment := risk_adjustment_of industry_risk geographic_risk in
  let final_score :=
    py_max (NInt 300)
      (py_min (NInt 850)
         (NFloat (ensemble_score + inject_Z risk_adjustment))) in
  (* Risk classification *)
  let '(risk_level, default_prob, business_impact) :=
    risk_classification final_score in
  mret {| credit_score := py_int final_score;
          risk_level := risk_level;
          default_probability := py_round default_prob 1;
          business_impact := business_impact;
          component_scores :=
            {| behavioral_score := behavioral_score;
               financial_score := financial_score;
               stability_score := stability_score;
               ensemble_score := ensemble_score;
               final_score := final_score |};
          success := true |}.

(** The dict [detect_advanced_fraud] returns; its key [success] is the
    field [fraud_success] here. *)
Record FraudAssessment := {
  is_fraud : bool;
  fraud_score : Q;
  fraud_indicators : Z;
  fraud_patterns : list string;
  confidence : string;
  fraud_success : bool
}.

(** [a and b] on two comparisons: [b] is not evaluated when [a] is false. *)
Definition and_then (a b : result bool) : result bool :=
  do x <~ a ;; if x then b else Ok false.

(** The list [patterns] of [detect_advanced_fraud]: the four conditions are
    evaluated in this order while the list is built. *)
Definition patterns (input_data : pydict) : result (list (bool * string)) :=
  do c1 <~ and_then
             (py_gt (dict_get input_data "income" (VInt 500000))
                    (VInt 2000000))
             (py_lt (dict_get input_data "age" (VInt 35)) (VInt 25)) ;;
  do c2 <~ and_then
             (py_lt (dict_get input_data "employment_length" (VInt 5))
                    (VInt 1))
             (py_gt (dict_get input_data "income" (VInt 500000))
                    (VInt 1000000)) ;;
  do c3 <~ and_then
             (py_gt (dict_get input_data "credit_score" (VInt 650))
                    (VInt 800))
             (py_lt (dict_get input_data "credit_history_length" (VInt 7))
                    (VInt 2)) ;;
  do c4 <~ py_gt (dict_get input_data "recent_inquiries" (VInt 2))
                 (VInt 8) ;;
  Ok [ (c1, "Extreme Income for Age");
       (c2, "High Income with Short Employment");
       (c3, "Perfect Score with Short History");
       (c4, "Excessive Credit Inquiries") ].

(** The loop [for condition, pattern in patterns], on the pair
    [(fraud_indicators, fraud_patterns)]. *)
Fixpoint count_patterns (ps : list (bool * string))
    (acc : Z * list string) : Z * list string :=
  match ps with
  | [] => acc
  | (condition, pattern) :: rest =>
      count_patterns rest
        (if condition then (fst acc + 1, (snd acc ++ [pattern])%list)
         else acc)
  end.

(** [min(1.0, fraud_indicators * 0.25 + U)], in float arithmetic. *)
Definition fraud_score_of (fraud_indicators : Z) (U : Q) : Q :=
  num_val (py_min (NFloat 1.0)
                  (NFloat (fadd (fmul (of_int fraud_indicators) 0.25) U))).

(** [detect_advanced_fraud(input_data)], with [U] the value drawn by
    [np.random.uniform(0, 0.2)].  The literals 0.65, 0.8 and 0.6 are the
    floats [b64 0.65], [b64 0.8] and [b64 0.6]. *)
Definition detect_advanced_fraud (input_data : pydict) (U : Q)
    : result FraudAssessment :=
  do ps <~ patterns input_data ;;
  let '(fraud_indicators, fraud_patterns) := count_patterns ps (0, []) in
  let fraud_score := fraud_score_of fraud_indicators U in
  let is_fraud := Qlt_bool (b64 0.65) fraud_score in
  Ok {| is_fraud := is_fraud;
        fraud_score := num_val (py_round (NFloat fraud_score) 4);
        fraud_indicators := Z.of_nat (length fraud_patterns);
        fraud_patterns := fraud_patterns;
        confidence :=
          if Qlt_bool (b64 0.8) fraud_score then "High"
          else if Qlt_bool (b64 0.6) fraud_score then "Medium"
          else "Low";
        fraud_success := true |}.

End AdvancedCreditScorer.

(** * AdvancedMetrics *)

Module AdvancedMetrics.

(** A row of the data frame [{"y": y_true, "p": y_pred}]. *)
Definition row : Type := Z * Q.

(** [sort_values("p", ascending=False)]: rows by decreasing score.  pandas
    does not fix the order of rows of equal score; this insertion sort keeps
    them in their input order. *)
Fixpoint insert_desc (r : row) (rows : list row) : list row :=
  match rows with
  | [] => [r]
  | r' :: rest =>
      if Qle_bool (snd r') (snd r) then r :: rows
      else r' :: insert_desc r rest
  end.

Definition sort_values_desc (rows : list row) : list row :=
  foldr insert_desc [] rows.

(** [Series.nunique()] *)
Definition nunique (ys : list Z) : nat := length (remove_dups ys).

(** [Series.cumsum()] of a boolean column, from a running total. *)
Fixpoint cumsum_from (acc : Z) (bs : list bool) : list Z :=
  match bs with
  | [] => []
  | b :: rest =>
      let acc' := acc + (if b then 1 else 0) in
      acc' :: cumsum_from acc' rest
  end.

Definition cumsum (bs : list bool) : list Z := cumsum_from 0 bs.

(** [Series.sum()] of a boolean column. *)
Definition bool_sum (bs : list bool) : Z :=
  fold_right (fun (b : bool) n => (if b then 1 else 0) + n) 0 bs.

(** [cumsum() / max(1, sum())] *)
Definition cum_fraction (bs : list bool) : list Q :=
  let denom := Z.max 1 (bool_sum bs) in
  map (fun c => (inject_Z c / inject_Z denom)%Q) (cumsum bs).

Definition Qmax_py (a b : Q) : Q := if Qlt_bool a b then b else a.

(** [Series.max()]: [nan] on an empty series. *)
Definition series_max (xs : list Q) : pyfloat :=
  match xs with
  | [] => Fnan
  | x :: rest => Ffin (fold_left Qmax_py rest x)
  end.

(** The body of the [try] of [ks_statistic] once the frame is built. *)
Definition ks_of_frame (df : list row) : pyfloat :=
  let df := sort_values_desc df in
  let y := map fst df in
  if (nunique y <? 2)%nat then Ffin 0.0
  else
    let cum_pos := cum_fraction (map (fun v => Z.eqb v 1) y) in
    let cum_neg := cum_fraction (map (fun v => Z.eqb v 0) y) in
    series_max (map (fun pn => Qabs (fst pn - snd pn)) (combine cum_pos cum_neg)).

(** [ks_statistic(y_true, y_pred)].  [pd.DataFrame] raises [ValueError] when
    the two columns differ in length; the bare [except] turns it into
    [0.0]. *)
Definition ks_statistic (y_true : list Z) (y_pred : list Q) : pyfloat :=
  if (length y_true =? length y_pred)%nat then
    ks_of_frame (combine y_true y_pred)
  else Ffin 0.0.

Section Psi.

(** Lines 36-44 of [psi_from_scores], the pandas and numpy pipeline
    ([qcut], [cut], [value_counts], [replace], [np.log], [sum]), is taken as
    a parameter: what it returns, or the exception it raises. *)
Variable binned_psi : list Q -> list Q -> Z -> result Q.

(** [psi_from_scores(expected_scores, actual_scores, bins)]: [None] is the
    Python [None]. *)
Definition psi_from_scores (expected_scores actual_scores : list Q)
    (bins : Z) : option Q :=
  if (length expected_scores =? 0)%nat || (length actual_scores =? 0)%nat
  then None
  else
    match binned_psi expected_scores actual_scores bins with
    | Ok v => Some v
    | Raise _ => None
    end.

End Psi.

End AdvancedMetrics.

Import AdvancedCreditScorer AdvancedMetrics.

(** * The callers of the scorer *)

(** [x in [a, b, ...]] on strings. *)
Definition str_in (x : string) (xs : list string) : bool :=
  existsb (String.eqb x) xs.

(** ** AdvancedVisualizations *)

Module AdvancedVisualizations.

(** One turn of the loop of [create_risk_distribution]: the category
    appended for [score]. *)
Definition risk_category (score : Z) : string :=
  if (750 <=? score)%Z then "Excellent"
  else if (700 <=? score)%Z then "Good"
  else if (650 <=? score)%Z then "Medium"
  else if (600 <=? score)%Z then "Watch"
  else "High".

(** The list [risk_categories] that [create_risk_distribution] builds from
    [scores]; the pie chart drawn from it is not modelled. *)
Fixpoint risk_categories_from (risk_categories : list string)
    (scores : list Z) : list string :=
  match scores with
  | [] => risk_categories
  | score :: rest =>
      risk_categories_from (risk_categories ++ [risk_category score])%list rest
  end.

Definition risk_categories (scores : list Z) : list string :=
  risk_categories_from [] scores.

End AdvancedVisualizations.

(** ** AdvancedPDFGenerator *)

Module AdvancedPDFGenerator.

(** The calls made on the [FPDF] object, in order.  [cell] has the
    arguments [w, h, txt, border, ln, align, fill]. *)
Inductive pdf_call :=
| set_fill_color (r g b : Z)
| set_text_color (r g b : Z)
| set_font (family style : string) (size : Z)
| cell (w h : Z) (txt : string) (border ln : Z) (align : string) (fill : Z)
| ln (h : Z).

(** [_add_section_title(pdf, title)] *)
Definition _add_section_title (title : string) : list pdf_call :=
  [ set_fill_color 240 240 240;
    set_text_color 0 0 0;
    set_font "Arial" "B" 12;
    cell 0 10 title 0 1 "L" 1;
    ln 3 ].

(** The list [recommendations] of [_add_strategic_recommendations]. *)
Definition recommendations_of (credit_result : CreditDecision)
    : list string :=
  let recommendations := [] in
  if str_in (risk_level credit_result) ["Excellent"; "Good"] then
    (recommendations ++ ["APPROVE: High profitability potential"]
       ++ ["Consider premium product offerings"])%list
  else if String.eqb (risk_level credit_result) "Medium" then
    (recommendations
       ++ ["CONDITIONAL APPROVAL: Additional verification recommended"])%list
  else
    (recommendations ++ ["DECLINE: High risk profile"]
       ++ ["Suggest secured credit alternatives"])%list.

(** The loop [for i, rec in enumerate(recommendations, 1)]. *)
Fixpoint recommendation_cells (i : nat) (recommendations : list string)
    : list pdf_call :=
  match recommendations with
  | [] => []
  | rec :: rest =>
      cell 0 6 (pretty i ++ ". " ++ rec) 0 1 "" 0
        :: recommendation_cells (S i) rest
  end.

(** [_add_strategic_recommendations(pdf, credit_result, input_data)] *)
Definition _add_strategic_recommendations (credit_result : CreditDecision)
    : list pdf_call :=
  (_add_section_title "STRATEGIC RECOMMENDATIONS"
     ++ [set_font "Arial" "" 10]
     ++ recommendation_cells 1 (recommendations_of credit_result)
     ++ [ln 10])%list.

(** [_add_executive_summary(pdf, credit_result, fraud_result, decision)] *)
Definition _add_executive_summary (credit_result : CreditDecision)
    (fraud_result : FraudAssessment) (decision : string) : list pdf_call :=
  (_add_section_title "EXECUTIVE SUMMARY"
     ++ [ set_font "Arial" "B" 12;
          cell 0 8 ("Credit Decision: " ++ decision) 0 1 "" 0;
          set_font "Arial" "" 10;
          cell 0 6 ("AI Credit Score: " ++ pretty (credit_score credit_result))
               0 1 "" 0;
          cell 0 6 ("Risk Level: " ++ risk_level credit_result) 0 1 "" 0;
          cell 0 6 ("Business Impact: " ++ business_impact credit_result)
               0 1 "" 0;
          cell 0 6 ("Fraud Detected: "
                    ++ (if is_fraud fraud_result then "Yes" else "No"))
               0 1 "" 0;
          ln 5 ])%list.

End AdvancedPDFGenerator.

(** ** The pages *)

(** The expression for [decision] in [show_application_analysis] and in
    the batch loop. *)
Definition application_decision (credit_result : CreditDecision)
    (fraud_result : FraudAssessment) : string :=
  if str_in (risk_level credit_result) ["Excellent"; "Good"]
     && negb (is_fraud fraud_result)
  then "Approved" else "Review Required".

(** "Advanced predictions" of [show_application_analysis]: both calls get
    the same dict, and the second one sees what the first wrote into it.
    [U] is the draw of the fraud detector. *)
Definition analyse_application (U : Q)
    : M (CreditDecision * FraudAssessment * string) :=
  do credit_result <- predict_credit_risk ;;
  do input_data <- mget ;;
  do fraud_result <- mlift (detect_advanced_fraud input_data U) ;;
  mret (credit_result, fraud_result,
        application_decision credit_result fraud_result).

(** A dict appended to [results] by the batch loop. *)
Record BatchResult := {
  predicted_score : Z;
  batch_risk_level : string;
  batch_default_probability : pynum;
  batch_is_fraud : bool;
  batch_decision : string
}.

(** The body of the batch loop for one row: [input_data = dict(row)] is a
    dict of its own; the result is what is appended to [results] and to
    [scores]. *)
Definition process_row (row : pydict) (U : Q) : result (BatchResult * Z) :=
  let input_data := row in
  match predict_credit_risk input_data with
  | (Raise e, _) => Raise e
  | (Ok credit_result, input_data) =>
      do fraud_result <~ detect_advanced_fraud input_data U ;;
      Ok ({| predicted_score := credit_score credit_result;
             batch_risk_level := risk_level credit_result;
             batch_default_probability := default_probability credit_result;
             batch_is_fraud := is_fraud fraud_result;
             batch_decision :=
               application_decision credit_result fraud_result |},
          credit_score credit_result)
  end.

(** The loop [for i, (_, row) in enumerate(df.iterrows())] of
    [show_batch_processing] on [(results, scores)]; [draw i] is the value
    the fraud detector draws in turn [i].  An exception leaves the loop:
    the page reports it and shows no result. *)
Fixpoint batch_loop (draw : nat -> Q) (i : nat) (rows : list pydict)
    (results : list BatchResult) (scores : list Z)
    : result (list BatchResult * list Z) :=
  match rows with
  | [] => Ok (results, scores)
  | row :: rest =>
      do out <~ process_row row (draw i) ;;
      batch_loop draw (S i) rest
        (results ++ [fst out])%list (scores ++ [snd out])%list
  end.

Definition process_batch (draw : nat -> Q) (rows : list pydict)
    : result (list BatchResult * list Z) :=
  batch_loop draw 0 rows [] [].

Import AdvancedVisualizations AdvancedPDFGenerator.

(** * Derived definitions and example inputs *)

(** The decision computed from the three component scores and the
    defaulted record: the body of [predict_credit_risk] after the scorers
    have returned. *)
Definition decision_of (d : pydict) (b f s : Z) : CreditDecision :=
  let ensemble :=
    (inject_Z b * w_behavioral_score ensemble_weights +
     inject_Z f * w_financial_score ensemble_weights +
     inject_Z s * w_stability_score ensemble_weights)%Q in
  let adj :=
    risk_adjustment_of (dict_get d "industry_risk" (VStr "Medium"))
                       (dict_get d "geographic_risk" (VStr "Medium")) in
  let final :=
    py_max (NInt 300) (py_min (NInt 850) (NFloat (ensemble + inject_Z adj))) in
  let cls := risk_classification final in
  {| credit_score := py_int final;
     risk_level := fst (fst cls);
     default_probability := py_round (snd (fst cls)) 1;
     business_impact := snd cls;
     component_scores :=
       {| behavioral_score := b; financial_score := f; stability_score := s;
          ensemble_score := ensemble; final_score := final |};
     success := true |}.

(** A value the ordering operators accept against a number. *)
Definition is_numeric (v : pyval) : bool :=
  match as_num v with
  | Some _ => true
  | None => false
  end.

Definition numeric_or_absent (r : pydict) (key : string) : bool :=
  match r !! key with
  | Some v => is_numeric v
  | None => true
  end.

(** The attributes the three scorers compare with numbers. *)
Definition scorer_fields : list string :=
  [ "late_payments_90d"; "credit_utilization"; "income"; "debt_to_income";
    "employment_length" ].

Definition well_typed (r : pydict) : bool :=
  forallb (numeric_or_absent r) scorer_fields.

(** A record whose [income] is a string. *)
Definition malformed_record : pydict :=
  <["income" := VStr "high"]> (<["age" := VInt 30]> ∅).

(** The risk adjustments as the specification words them: [high] for the
    label High, [low] for the label Low, nothing for any other value. *)
Definition is_label (v : pyval) (label : string) : bool :=
  match v with
  | VStr s => String.eqb s label
  | _ => false
  end.

Definition band_adjustment (v : pyval) (high low : Z) : Z :=
  if is_label v "High" then high
  else if is_label v "Low" then low
  else 0.

(** [clamp(x, lo, hi)] of the specification. *)
Definition clamp (x lo hi : Q) : Q := Qmax lo (Qmin hi x).

(** The risk tier read off a classification. *)
Definition tier_of (final_score : pynum) : string :=
  fst (fst (risk_classification final_score)).

(** An applicant in a high-risk industry and a low-risk region. *)
Definition risky_record : pydict :=
  <["income" := VInt 1200000]>
    (<["industry_risk" := VStr "High"]>
       (<["geographic_risk" := VStr "Low"]> ∅)).

(** A comparison that returned true. *)
Definition holds (c : result bool) : bool :=
  match c with
  | Ok true => true
  | _ => false
  end.

(** The four fraud predicates (a)-(d) as the specification lists them, on
    the attributes of the record with the defaults of [.get]. *)
Definition fraud_predicates (d : pydict) : list bool :=
  let income := dict_get d "income" (VInt 500000) in
  let age := dict_get d "age" (VInt 35) in
  let employment_length := dict_get d "employment_length" (VInt 5) in
  let credit_score := dict_get d "credit_score" (VInt 650) in
  let credit_history_length := dict_get d "credit_history_length" (VInt 7) in
  let recent_inquiries := dict_get d "recent_inquiries" (VInt 2) in
  [ holds (py_gt income (VInt 2000000)) && holds (py_lt age (VInt 25));
    holds (py_lt employment_length (VInt 1))
      && holds (py_gt income (VInt 1000000));
    holds (py_gt credit_score (VInt 800))
      && holds (py_lt credit_history_length (VInt 2));
    holds (py_gt recent_inquiries (VInt 8)) ].

Definition count_true (bs : list bool) : Z :=
  Z.of_nat (length (List.filter (fun b : bool => b) bs)).

(** The number of fraud predicates that are true. *)
Definition indicator_count (d : pydict) : Z :=
  count_true (fraud_predicates d).

(** The attributes the fraud predicates compare with numbers. *)
Definition fraud_fields : list string :=
  [ "income"; "age"; "employment_length"; "credit_score";
    "credit_history_length"; "recent_inquiries" ].

Definition fraud_typed (d : pydict) : bool :=
  forallb (numeric_or_absent d) fraud_fields.

(** Predicates (a) and (b) hold, (c) and (d) do not. *)
Definition young_rich_record : pydict :=
  <["income" := VInt 2500000]>
    (<["age" := VInt 22]>
       (<["employment_length" := VFloat (Ffin 0.5)]> ∅)).

(** Only predicate (d) holds. *)
Definition many_inquiries_record : pydict :=
  <["recent_inquiries" := VInt 9]> ∅.

(** The KS statistic as the specification words it, on the labels in
    ranked order: the number of rows with a given label, the cumulative
    fraction of them up to rank [i], and the gap between the positive
    (label 1) and negative (label 0) fractions at that rank. *)
Definition count_label (label : Z) (ys : list Z) : Z :=
  Z.of_nat (length (List.filter (fun y => Z.eqb y label) ys)).

Definition cumulative_fraction (label : Z) (ys : list Z) (i : nat) : Q :=
  (inject_Z (count_label label (take (S i) ys))
   / inject_Z (Z.max 1 (count_label label ys)))%Q.

Definition gap_at (ys : list Z) (i : nat) : Q :=
  Qabs (cumulative_fraction 1 ys i - cumulative_fraction 0 ys i).

(** Rows by decreasing score. *)
Definition score_ge (a b : row) : Prop := (snd b <= snd a)%Q.

(** The end-to-end example of the specification. *)
Definition example_record : pydict :=
  list_to_map
    [ ("age", VInt 22); ("income", VInt 2500000);
      ("employment_length", VFloat (Ffin 0.5));
      ("industry_risk", VStr "High"); ("geographic_risk", VStr "Low");
      ("late_payments_90d", VInt 0);
      ("credit_utilization", VFloat (Ffin 0.15));
      ("recent_inquiries", VInt 1); ("credit_score", VInt 820);
      ("credit_history_length", VInt 1) ].

(** [v <= w] on two numbers; false when either is not a number, or is
    [nan]. *)
Definition num_le (v w : pyval) : bool :=
  match as_num v, as_num w with
  | Some x, Some y => float_leb x y
  | _, _ => false
  end.

(** The names of the four fraud patterns, in the order of the list
    [patterns]. *)
Definition pattern_names : list string :=
  [ "Extreme Income for Age"; "High Income with Short Employment";
    "Perfect Score with Short History"; "Excessive Credit Inquiries" ].

(** The records on which a comparison of [detect_advanced_fraud] meets a
    value that is not a number: the right operand of [and] is compared only
    when the left one is true. *)
Definition fraud_type_error (d : pydict) : bool :=
  let income := dict_get d "income" (VInt 500000) in
  let age := dict_get d "age" (VInt 35) in
  let employment_length := dict_get d "employment_length" (VInt 5) in
  let credit_score := dict_get d "credit_score" (VInt 650) in
  let credit_history_length := dict_get d "credit_history_length" (VInt 7) in
  let recent_inquiries := dict_get d "recent_inquiries" (VInt 2) in
  negb (is_numeric income)
  || holds (py_gt income (VInt 2000000)) && negb (is_numeric age)
  || negb (is_numeric employment_length)
  || negb (is_numeric credit_score)
  || holds (py_gt credit_score (VInt 800))
     && negb (is_numeric credit_history_length)
  || negb (is_numeric recent_inquiries).

(** [r2] is no worse an applicant than [r1]: its income and employment
    length are at least those of [r1], its debt-to-income ratio, credit
    utilization and late payments are at most those of [r1] (late payments
    not negative), it owns its home if [r1] does, and the two risk labels
    are the same.  Attributes are read as the scorers read them. *)
Definition no_worse (r1 r2 : pydict) : Prop :=
  num_le (dict_get r1 "income" (VInt 500000))
         (dict_get r2 "income" (VInt 500000)) = true /\
  num_le (dict_get r2 "debt_to_income" (VFloat (Ffin 0.3)))
         (dict_get r1 "debt_to_income" (VFloat (Ffin 0.3))) = true /\
  num_le (VInt 0) (dict_get r2 "late_payments_90d" (VInt 0)) = true /\
  num_le (dict_get r2 "late_payments_90d" (VInt 0))
         (dict_get r1 "late_payments_90d" (VInt 0)) = true /\
  num_le (dict_get r2 "credit_utilization" (VFloat (Ffin 0.4)))
         (dict_get r1 "credit_utilization" (VFloat (Ffin 0.4))) = true /\
  num_le (dict_get r1 "employment_length" (VInt 5))
         (dict_get r2 "employment_length" (VInt 5)) = true /\
  (py_eq (dict_get r1 "property_ownership" (VStr "Owned")) (VStr "Owned")
     = true ->
   py_eq (dict_get r2 "property_ownership" (VStr "Owned")) (VStr "Owned")
     = true) /\
  dict_get r1 "industry_risk" (VStr "Medium")
    = dict_get r2 "industry_risk" (VStr "Medium") /\
  dict_get r1 "geographic_risk" (VStr "Medium")
    = dict_get r2 "geographic_risk" (VStr "Medium").

(** [partial_record] with twice the income and no late payment recorded. *)
Definition richer_record : pydict :=
  <["age" := VInt 30]>
    (<["income" := VInt 1200000]> (<["late_payments_90d" := VInt 0]> ∅)).

(** The rows the batch loop gets through: no comparison of the scorers or
    of the fraud detector meets a value that is not a number. *)
Definition row_ok (row : pydict) : bool :=
  well_typed row && negb (fraud_type_error row).

(** A record as the dashboard could build it, without [loan_amount]. *)
Definition partial_record : pydict :=
  <["age" := VInt 30]> (<["income" := VInt 600000]> ∅).

(** A record of the Good tier on which predicates (a) and (d) hold. *)
Definition flagged_good_record : pydict :=
  list_to_map
    [ ("age", VInt 22); ("income", VInt 2500000);
      ("employment_length", VInt 12);
      ("credit_utilization", VFloat (Ffin 0.1));
      ("debt_to_income", VFloat (Ffin 0.1));
      ("recent_inquiries", VInt 9) ].

(** * Properties *)

(** ** Boolean comparisons on rationals *)

Lemma Qlt_bool_iff (x y : Q) : Qlt_bool x y = true <-> (x < y)%Q.
Proof.
  unfold Qlt_bool. rewrite negb_true_iff.
  split.
  - intros H. apply Qnot_le_lt. intros Hle.
    apply Qle_bool_iff in Hle. congruence.
  - intros H. destruct (Qle_bool y x) eqn:E; [|reflexivity].
    apply Qle_bool_iff in E. exfalso. apply (Qlt_not_le _ _ H E).
Qed.

Lemma Qlt_bool_false_iff (x y : Q) : Qlt_bool x y = false <-> (y <= x)%Q.
Proof.
  unfold Qlt_bool. rewrite negb_false_iff. apply Qle_bool_iff.
Qed.

Lemma Qle_bool_false_iff (x y : Q) : Qle_bool x y = false <-> (y < x)%Q.
Proof.
  rewrite <- Qlt_bool_iff. unfold Qlt_bool.
  destruct (Qle_bool x y); simpl; intuition congruence.
Qed.

(** ** binary64 rounding *)

Section Binary64.

Lemma Qround_half_even_le (q : Q) (b : Z) :
  (q <= inject_Z b)%Q -> Qround_half_even q <= b.
Proof.
  intros Hb. unfold Qround_half_even.
  pose proof (Qfloor_le q) as Hf1. pose proof (Qlt_floor q) as Hf2.
  set (f := Qfloor q) in *.
  rewrite inject_Z_plus in Hf2. change (inject_Z 1) with 1%Q in Hf2.
  assert (f <= b) as Hfb by (rewrite Zle_Qle; lra).
  assert ((1 # 2 <= q - inject_Z f)%Q -> f + 1 <= b) as Hup.
  { intros Hr. apply Z.lt_succ_r. unfold Z.succ. apply Zplus_lt_compat_r.
    rewrite Zlt_Qlt. lra. }
  destruct (Qlt_bool (q - inject_Z f) (1 # 2)) eqn:E1; [lia|].
  apply Qlt_bool_false_iff in E1. specialize (Hup E1).
  destruct (Qlt_bool (1 # 2) (q - inject_Z f)); [lia|].
  destruct (Z.even f); lia.
Qed.

Lemma Qround_half_even_ge (q : Q) (a : Z) :
  (inject_Z a <= q)%Q -> a <= Qround_half_even q.
Proof.
  intros Ha. unfold Qround_half_even.
  pose proof (Qfloor_le q) as Hf1. pose proof (Qlt_floor q) as Hf2.
  set (f := Qfloor q) in *.
  rewrite inject_Z_plus in Hf2. change (inject_Z 1) with 1%Q in Hf2.
  assert (a <= f) as Haf.
  { apply Z.lt_succ_r. rewrite Zlt_Qlt. unfold Z.succ.
    rewrite inject_Z_plus. change (inject_Z 1) with 1%Q. lra. }
  destruct (Qlt_bool (q - inject_Z f) (1 # 2)); [lia|].
  destruct (Qlt_bool (1 # 2) (q - inject_Z f)); [lia|].
  destruct (Z.even f); lia.
Qed.

Lemma two_pow_pos (k : Z) : (0 < 2 ^ k)%Q.
Proof. apply Qpower_0_lt. reflexivity. Qed.

Lemma two_pow_plus (a b : Z) : (2 ^ (a + b) == 2 ^ a * 2 ^ b)%Q.
Proof. apply Qpower_plus. discriminate. Qed.

Lemma two_pow_Z (k : Z) : 0 <= k -> (2 ^ k == inject_Z (2 ^ k))%Q.
Proof. intros Hk. symmetry. apply (Zpower_Qpower 2 k Hk). Qed.

Lemma two_pow_le (a b : Z) : a <= b -> (2 ^ a <= 2 ^ b)%Q.
Proof. intros H. apply Qpower_le_compat_l; [exact H|discriminate]. Qed.

Lemma two_pow_lt_inv (a b : Z) : (2 ^ a < 2 ^ b)%Q -> a < b.
Proof. intros H. apply (Qpower_lt_compat_l_inv 2); [exact H|reflexivity]. Qed.

(** [2 ^ floor_log2 x <= x < 2 ^ (floor_log2 x + 1)] *)
Lemma Qfloor_log2_spec (x : Q) :
  (0 < x)%Q ->
  (2 ^ Qfloor_log2 x <= x)%Q /\ (x < 2 ^ (Qfloor_log2 x + 1))%Q.
Proof.
  intros Hx. unfold Qfloor_log2.
  destruct x as [n d]. cbn [Qnum Qden].
  assert (0 < n) as Hn by (unfold Qlt in Hx; cbn in Hx; lia).
  pose proof (Z.log2_spec n Hn) as [Hn1 Hn2].
  pose proof (Z.log2_spec (Z.pos d) ltac:(lia)) as [Hd1 Hd2].
  pose proof (Z.log2_nonneg n) as Ha. pose proof (Z.log2_nonneg (Z.pos d)) as Hb.
  set (a := Z.log2 n) in *. set (b := Z.log2 (Z.pos d)) in *.
  assert (n # d == inject_Z n / inject_Z (Z.pos d))%Q as Hnd
    by (rewrite (Qmake_Qdiv n d); reflexivity).
  assert (0 < inject_Z (Z.pos d))%Q as Hdpos by reflexivity.
  assert (0 < 2 ^ b)%Q as Hbpos by apply two_pow_pos.
  assert (2 ^ (a - b - 1) <= n # d)%Q as Hlow.
  { replace (a - b - 1) with (a - (b + 1)) by lia.
    rewrite Qpower_minus by discriminate. rewrite Hnd.
    rewrite !two_pow_Z by lia.
    apply Qle_shift_div_l; [exact Hdpos|].
    assert (0 < inject_Z (2 ^ (b + 1)))%Q as Hp
      by (rewrite <- two_pow_Z by lia; apply two_pow_pos).
    unfold Qdiv. rewrite <- Qmult_assoc, (Qmult_comm (/ _)), Qmult_assoc.
    apply Qle_shift_div_r; [exact Hp|].
    rewrite <- !inject_Z_mult, <- Zle_Qle.
    unfold Z.succ in *. nia. }
  assert (n # d < 2 ^ (a - b + 1))%Q as Hhigh.
  { replace (a - b + 1) with (a + 1 - b) by lia.
    rewrite Qpower_minus by discriminate. rewrite Hnd.
    rewrite !two_pow_Z by lia.
    assert (0 < inject_Z (2 ^ b))%Q as Hp
      by (rewrite <- two_pow_Z by lia; apply two_pow_pos).
    apply Qlt_shift_div_r; [exact Hdpos|].
    unfold Qdiv. rewrite <- Qmult_assoc, (Qmult_comm (/ _)), Qmult_assoc.
    apply Qlt_shift_div_l; [exact Hp|].
    rewrite <- !inject_Z_mult, <- Zlt_Qlt.
    unfold Z.succ in *. nia. }
  destruct (Qle_bool (2 ^ (a - b)) (n # d)) eqn:E.
  - apply Qle_bool_iff in E. split; [exact E|exact Hhigh].
  - apply Qle_bool_false_iff in E. split; [exact Hlow|].
    replace (a - b - 1 + 1) with (a - b) by lia. exact E.
Qed.

Lemma Qfloor_log2_mono (x y : Q) :
  (0 < x)%Q -> (x <= y)%Q -> Qfloor_log2 x <= Qfloor_log2 y.
Proof.
  intros Hx Hxy.
  destruct (Qfloor_log2_spec x Hx) as [H1 _].
  destruct (Qfloor_log2_spec y ltac:(lra)) as [_ H2].
  assert (2 ^ Qfloor_log2 x < 2 ^ (Qfloor_log2 y + 1))%Q as H by lra.
  apply two_pow_lt_inv in H. lia.
Qed.

Lemma Qabs_pos_eq (x : Q) : (0 < x)%Q -> Qabs x = x.
Proof.
  destruct x as [n d]. unfold Qlt. cbn. intros H.
  unfold Qabs. cbn. rewrite Z.abs_eq by lia. reflexivity.
Qed.

Lemma b64_value (x : Q) :
  (b64 x == inject_Z (Qround_half_even (x / 2 ^ b64_exponent x))
            * 2 ^ b64_exponent x)%Q.
Proof. unfold b64. cbv zeta. apply Qred_correct. Qed.

Lemma b64_nonneg (x : Q) : (0 <= x)%Q -> (0 <= b64 x)%Q.
Proof.
  intros Hx. rewrite b64_value.
  pose proof (two_pow_pos (b64_exponent x)) as Hp.
  apply Qmult_le_0_compat; [|lra].
  change 0%Q with (inject_Z 0). rewrite <- Zle_Qle.
  apply Qround_half_even_ge. change (inject_Z 0) with 0%Q.
  apply Qle_shift_div_l; [exact Hp|]. lra.
Qed.

Lemma Qlt_bool_comp (a b c d : Q) :
  (a == b)%Q -> (c == d)%Q -> Qlt_bool a c = Qlt_bool b d.
Proof.
  intros H1 H2. unfold Qlt_bool. f_equal.
  destruct (Qle_bool c a) eqn:E; symmetry.
  - apply Qle_bool_iff in E. apply Qle_bool_iff. lra.
  - apply Qle_bool_false_iff in E. apply Qle_bool_false_iff. lra.
Qed.

Lemma Qround_half_even_comp (q q' : Q) :
  (q == q')%Q -> Qround_half_even q = Qround_half_even q'.
Proof.
  intros H. unfold Qround_half_even. rewrite (Qfloor_comp _ _ H).
  rewrite (Qlt_bool_comp (q - _) (q' - inject_Z (Qfloor q')) (1 # 2) (1 # 2))
    by (rewrite ?H; reflexivity).
  rewrite (Qlt_bool_comp (1 # 2) (1 # 2) (q - _) (q' - inject_Z (Qfloor q')))
    by (rewrite ?H; reflexivity).
  reflexivity.
Qed.

Lemma Qround_half_even_Z (k : Z) : Qround_half_even (inject_Z k) = k.
Proof.
  apply Z.le_antisymm;
    [apply Qround_half_even_le | apply Qround_half_even_ge]; apply Qle_refl.
Qed.

(** The nearest integer is within one half. *)
Lemma Qround_half_even_near (q : Q) :
  (q - (1 # 2) <= inject_Z (Qround_half_even q))%Q /\
  (inject_Z (Qround_half_even q) <= q + (1 # 2))%Q.
Proof.
  unfold Qround_half_even.
  pose proof (Qfloor_le q) as Hf1. pose proof (Qlt_floor q) as Hf2.
  set (f := Qfloor q) in *.
  rewrite inject_Z_plus in Hf2. change (inject_Z 1) with 1%Q in Hf2.
  destruct (Qlt_bool (q - inject_Z f) (1 # 2)) eqn:E1.
  { apply Qlt_bool_iff in E1. split; lra. }
  apply Qlt_bool_false_iff in E1.
  destruct (Qlt_bool (1 # 2) (q - inject_Z f)) eqn:E2.
  { rewrite inject_Z_plus. change (inject_Z 1) with 1%Q. split; lra. }
  apply Qlt_bool_false_iff in E2.
  destruct (Z.even f);
    rewrite ?inject_Z_plus; change (inject_Z 1) with 1%Q; split; lra.
Qed.

Lemma Qfloor_log2_unique (x : Q) (k : Z) :
  (0 < x)%Q -> (2 ^ k <= x)%Q -> (x < 2 ^ (k + 1))%Q -> Qfloor_log2 x = k.
Proof.
  intros Hx H1 H2. destruct (Qfloor_log2_spec x Hx) as [G1 G2].
  assert (2 ^ k < 2 ^ (Qfloor_log2 x + 1))%Q as A by lra.
  assert (2 ^ Qfloor_log2 x < 2 ^ (k + 1))%Q as B by lra.
  apply two_pow_lt_inv in A, B. lia.
Qed.

Lemma Qfloor_log2_comp (x y : Q) :
  (0 < x)%Q -> (x == y)%Q -> Qfloor_log2 x = Qfloor_log2 y.
Proof.
  intros Hx Hxy. destruct (Qfloor_log2_spec x Hx) as [G1 G2].
  symmetry. apply Qfloor_log2_unique; lra.
Qed.

Lemma Qabs_nonneg_eq (x : Q) : (0 <= x)%Q -> Qabs x = x.
Proof.
  destruct x as [n d]. unfold Qle. cbn. intros H.
  unfold Qabs. cbn. rewrite Z.abs_eq by lia. reflexivity.
Qed.

Lemma b64_zero (x : Q) : (x == 0)%Q -> (b64 x == 0)%Q.
Proof.
  intros Hx. rewrite b64_value.
  assert (x / 2 ^ b64_exponent x == inject_Z 0)%Q as E.
  { unfold Qdiv. transitivity (0 * / 2 ^ b64_exponent x)%Q;
      [apply Qmult_comp; [exact Hx|reflexivity] | apply Qmult_0_l]. }
  rewrite (Qround_half_even_comp _ _ E), Qround_half_even_Z.
  apply Qmult_0_l.
Qed.

Lemma b64_exponent_comp (x y : Q) :
  ~ (x == 0)%Q -> (x == y)%Q -> b64_exponent x = b64_exponent y.
Proof.
  intros Hx Hxy. unfold b64_exponent. f_equal. f_equal.
  apply Qfloor_log2_comp; [|by rewrite Hxy].
  destruct (Qlt_le_dec 0 x) as [H|H].
  - rewrite Qabs_pos; lra.
  - rewrite Qabs_neg by exact H.
    apply Qle_lteq in H as [H|H]; [lra|contradiction].
Qed.

#[global] Instance b64_comp : Proper (Qeq ==> Qeq) b64.
Proof.
  intros x y Hxy.
  destruct (Qeq_dec x 0) as [Hx|Hx].
  - rewrite (b64_zero x Hx), (b64_zero y) by (rewrite <- Hxy; exact Hx).
    reflexivity.
  - rewrite !b64_value. rewrite <- (b64_exponent_comp x y Hx Hxy).
    rewrite (Qround_half_even_comp (x / _) (y / 2 ^ b64_exponent x))
      by (unfold Qdiv; apply Qmult_comp; [exact Hxy|reflexivity]).
    reflexivity.
Qed.

(** A number that is a whole multiple of its unit in the last place is a
    binary64 number. *)
Lemma b64_fix (x : Q) (m : Z) :
  (x / 2 ^ b64_exponent x == inject_Z m)%Q -> (b64 x == x)%Q.
Proof.
  intros Hm. rewrite b64_value.
  rewrite (Qround_half_even_comp _ _ Hm), Qround_half_even_Z, <- Hm.
  pose proof (two_pow_pos (b64_exponent x)). field. lra.
Qed.

(** The integers below 2^53 are binary64 numbers. *)
Lemma b64_small_int (k : Z) :
  0 <= k < 2 ^ 53 -> (b64 (inject_Z k) == inject_Z k)%Q.
Proof.
  intros [H0 H1].
  destruct (Z.eq_dec k 0) as [->|Hk]; [by apply b64_zero|].
  assert (0 < inject_Z k)%Q as Hpos
    by (change 0%Q with (inject_Z 0); rewrite <- Zlt_Qlt; lia).
  destruct (Qfloor_log2_spec _ Hpos) as [G1 _].
  assert (Qfloor_log2 (inject_Z k) < 53) as HL.
  { apply two_pow_lt_inv. eapply Qle_lt_trans; [exact G1|].
    rewrite two_pow_Z by lia. by rewrite <- Zlt_Qlt. }
  assert (0 <= Qfloor_log2 (inject_Z k)) as HL0.
  { assert (2 ^ 0 < 2 ^ (Qfloor_log2 (inject_Z k) + 1))%Q as A.
    { destruct (Qfloor_log2_spec _ Hpos) as [_ G2].
      eapply Qle_lt_trans; [|exact G2].
      change (2 ^ 0)%Q with (inject_Z 1). rewrite <- Zle_Qle. lia. }
    apply two_pow_lt_inv in A. lia. }
  apply (b64_fix _ (k * 2 ^ (52 - Qfloor_log2 (inject_Z k)))).
  unfold b64_exponent. rewrite (Qabs_nonneg_eq _ (Qlt_le_weak _ _ Hpos)).
  rewrite Z.max_l by lia.
  rewrite inject_Z_mult, <- two_pow_Z by lia.
  replace (52 - Qfloor_log2 (inject_Z k))
    with (- (Qfloor_log2 (inject_Z k) - 52)) by lia.
  rewrite Qpower_opp.
  reflexivity.
Qed.

(** Rounding does not cross a binary64 number: below it ... *)
Lemma b64_le (x y : Q) :
  (0 <= x)%Q -> (x <= y)%Q -> (b64 y == y)%Q -> (b64 x <= y)%Q.
Proof.
  intros Hx0 Hxy Hy.
  apply Qle_lteq in Hx0 as [Hx|Hx];
    [|rewrite (b64_zero x) by (symmetry; exact Hx); lra].
  assert (0 < y)%Q as Hy0 by lra.
  rewrite b64_value in Hy. rewrite b64_value.
  assert (b64_exponent x <= b64_exponent y) as He.
  { unfold b64_exponent. rewrite !Qabs_pos_eq by assumption.
    pose proof (Qfloor_log2_mono x y Hx Hxy). lia. }
  set (ex := b64_exponent x) in *. set (ey := b64_exponent y) in *.
  set (M := Qround_half_even (y / 2 ^ ey)) in *.
  pose proof (two_pow_pos ex) as Hpx.
  assert (y / 2 ^ ex == inject_Z (M * 2 ^ (ey - ex)))%Q as HK.
  { rewrite inject_Z_mult, <- two_pow_Z by lia.
    rewrite Qpower_minus by discriminate.
    rewrite <- Hy at 1. field. lra. }
  assert (Qround_half_even (x / 2 ^ ex) <= M * 2 ^ (ey - ex)) as Hr.
  { apply Qround_half_even_le. rewrite <- HK.
    apply Qle_shift_div_l; [exact Hpx|].
    assert (x / 2 ^ ex * 2 ^ ex == x)%Q as -> by (field; lra). exact Hxy. }
  rewrite Zle_Qle in Hr. rewrite <- HK in Hr.
  apply (Qmult_le_r _ _ _ Hpx) in Hr.
  assert (y / 2 ^ ex * 2 ^ ex == y)%Q as E by (field; lra).
  rewrite E in Hr. exact Hr.
Qed.

(** ... and above it. *)
Lemma b64_ge (x y : Q) :
  (0 <= y)%Q -> (y <= x)%Q -> (b64 y == y)%Q -> (y <= b64 x)%Q.
Proof.
  intros Hy00 Hyx Hy.
  apply Qle_lteq in Hy00 as [Hy0|Hy0];
    [|pose proof (b64_nonneg x); lra].
  assert (0 < x)%Q as Hx by lra.
  rewrite b64_value in Hy. rewrite b64_value.
  pose proof (Qfloor_log2_mono y x Hy0 Hyx) as HL.
  pose proof (Qfloor_log2_spec x Hx) as [Hx1 Hx2].
  pose proof (Qfloor_log2_spec y Hy0) as [Hy1 Hy2].
  unfold b64_exponent in *. rewrite !Qabs_pos_eq in * by assumption.
  set (Lx := Qfloor_log2 x) in *. set (Ly := Qfloor_log2 y) in *.
  set (ex := Z.max (Lx - 52) (-1074)) in *.
  set (ey := Z.max (Ly - 52) (-1074)) in *.
  pose proof (two_pow_pos ex) as Hpx.
  destruct (Z.eq_dec ey ex) as [Heq|Hne].
  - rewrite Heq in Hy.
    set (M := Qround_half_even (y / 2 ^ ex)) in *.
    assert (M <= Qround_half_even (x / 2 ^ ex)) as Hr.
    { apply Qround_half_even_ge.
      apply Qle_shift_div_l; [exact Hpx|]. rewrite Hy. exact Hyx. }
    rewrite Zle_Qle in Hr. apply (Qmult_le_r _ _ _ Hpx) in Hr.
    rewrite Hy in Hr. exact Hr.
  - assert (ex = Lx - 52 /\ Ly + 1 <= Lx) as [Hex HLy] by lia.
    assert (2 ^ 52 <= Qround_half_even (x / 2 ^ ex)) as Hr.
    { apply Qround_half_even_ge. rewrite <- two_pow_Z by lia.
      apply Qle_shift_div_l; [exact Hpx|].
      rewrite <- two_pow_plus. replace (52 + ex) with Lx by lia. exact Hx1. }
    rewrite Zle_Qle in Hr. apply (Qmult_le_r _ _ _ Hpx) in Hr.
    rewrite <- two_pow_Z in Hr by lia. rewrite <- two_pow_plus in Hr.
    replace (52 + ex) with Lx in Hr by lia.
    pose proof (two_pow_le (Ly + 1) Lx HLy). lra.
Qed.

(** Below 2 the rounding error is at most 2^-53. *)
Lemma b64_near (x : Q) :
  (0 <= x)%Q -> (x < 2)%Q ->
  (x - 2 ^ (-53) <= b64 x)%Q /\ (b64 x <= x + 2 ^ (-53))%Q.
Proof.
  intros Hx0 Hx2.
  apply Qle_lteq in Hx0 as [Hx|Hx].
  2: { rewrite (b64_zero x) by (symmetry; exact Hx).
       pose proof (two_pow_pos (-53)). lra. }
  rewrite b64_value.
  assert (b64_exponent x <= -52) as He.
  { unfold b64_exponent. rewrite Qabs_pos_eq by exact Hx.
    destruct (Qfloor_log2_spec x Hx) as [G1 _].
    assert (2 ^ Qfloor_log2 x < 2 ^ 1)%Q as A
      by (change (2 ^ 1)%Q with 2%Q; lra).
    apply two_pow_lt_inv in A. lia. }
  set (e := b64_exponent x) in *.
  pose proof (two_pow_pos e) as Hp.
  pose proof (two_pow_le e (-52) He) as Hp52.
  destruct (Qround_half_even_near (x / 2 ^ e)) as [N1 N2].
  set (R := inject_Z (Qround_half_even (x / 2 ^ e))) in *.
  apply (Qmult_le_r _ _ _ Hp) in N1, N2.
  assert ((x / 2 ^ e - (1 # 2)) * 2 ^ e == x - 2 ^ e * (1 # 2))%Q as E1
    by (field; lra).
  assert ((x / 2 ^ e + (1 # 2)) * 2 ^ e == x + 2 ^ e * (1 # 2))%Q as E2
    by (field; lra).
  rewrite E1 in N1. rewrite E2 in N2.
  assert (2 ^ (-52) * (1 # 2) == 2 ^ (-53))%Q as E3 by reflexivity.
  split; lra.
Qed.

End Binary64.

(** ** The field defaulter *)

Section Defaulter.

Implicit Types (d r : pydict) (items : list (string * pyval)).

(** The loop never raises. *)
Lemma fill_defaults_ok items d : fst (fill_defaults items d) = Ok tt.
Proof.
  revert d. induction items as [|[k v] rest IH]; intros d; [reflexivity|].
  cbn [fill_defaults]. unfold mbind, mget.
  destruct (d !! k); cbn; apply IH.
Qed.

(** What the loop leaves in the object: the record first, then the table. *)
Lemma fill_defaults_union items d :
  snd (fill_defaults items d) = d ∪ list_to_map items.
Proof.
  revert d. induction items as [|[k v] rest IH]; intros d.
  - cbn. by rewrite (right_id_L ∅ (∪)).
  - cbn [fill_defaults list_to_map foldr]. unfold mbind, mget.
    destruct (d !! k) as [w|] eqn:E; cbn.
    + rewrite IH. cbn. apply map_eq. intros j.
      rewrite !lookup_union.
      destruct (decide (k = j)) as [<-|Hne].
      * rewrite E. by destruct (list_to_map rest !! k), (<[k:=v]> _ !! k).
      * by rewrite lookup_insert_ne.
    + rewrite IH. cbn. rewrite <- insert_union_l.
      by rewrite insert_union_r.
Qed.

Lemma ensure_required_fields_state r :
  snd (_ensure_required_fields r) = r ∪ list_to_map defaults.
Proof. apply fill_defaults_union. Qed.

Lemma ensure_required_fields_ok r : fst (_ensure_required_fields r) = Ok tt.
Proof. apply fill_defaults_ok. Qed.

End Defaulter.

(** ** [predict_credit_risk] as a function of the defaulted record *)

Section Predict.

Implicit Types (d r : pydict).

Lemma predict_credit_risk_state r :
  snd (predict_credit_risk r) = r ∪ list_to_map defaults.
Proof.
  unfold predict_credit_risk, mbind, mget, mlift, mret.
  pose proof (ensure_required_fields_ok r) as Hok.
  pose proof (ensure_required_fields_state r) as Hst.
  destruct (_ensure_required_fields r) as [[[]|e] d']; cbn in Hok, Hst;
    [|discriminate].
  subst d'.
  destruct (calculate_behavioral_score _); [|reflexivity].
  destruct (calculate_financial_score _); [|reflexivity].
  destruct (calculate_stability_score _); [|reflexivity].
  destruct (risk_classification _) as [[? ?] ?]. reflexivity.
Qed.

Lemma predict_credit_risk_result r :
  let d := r ∪ list_to_map defaults in
  fst (predict_credit_risk r) =
    (do b <~ calculate_behavioral_score d ;;
     do f <~ calculate_financial_score d ;;
     do s <~ calculate_stability_score d ;;
     Ok (decision_of d b f s)).
Proof.
  unfold predict_credit_risk, mbind, mget, mlift, mret.
  pose proof (ensure_required_fields_ok r) as Hok.
  pose proof (ensure_required_fields_state r) as Hst.
  destruct (_ensure_required_fields r) as [[[]|e] d']; cbn in Hok, Hst;
    [|discriminate].
  subst d'. cbn zeta.
  destruct (calculate_behavioral_score _) as [b|]; [|reflexivity].
  destruct (calculate_financial_score _) as [f|]; [|reflexivity].
  destruct (calculate_stability_score _) as [s|]; [|reflexivity].
  cbn [rbind]. unfold decision_of.
  destruct (risk_classification _) as [[? ?] ?]. reflexivity.
Qed.

Lemma predict_credit_risk_ok_inv r res :
  fst (predict_credit_risk r) = Ok res ->
  let d := r ∪ list_to_map defaults in
  exists b f s,
    calculate_behavioral_score d = Ok b /\
    calculate_financial_score d = Ok f /\
    calculate_stability_score d = Ok s /\
    res = decision_of d b f s.
Proof.
  rewrite predict_credit_risk_result. cbn zeta.
  destruct (calculate_behavioral_score _) as [b|]; [|discriminate].
  destruct (calculate_financial_score _) as [f|]; [|discriminate].
  destruct (calculate_stability_score _) as [s|]; [|discriminate].
  cbn [rbind]. intros H. exists b, f, s.
  split; [reflexivity|]. split; [reflexivity|]. split; [reflexivity|].
  symmetry. exact (f_equal (fun c => match c with
                                     | Ok a => a
                                     | Raise _ => res
                                     end) H).
Qed.

End Predict.

(** ** The claims on the field defaulter *)

(** C4. Defaulting is idempotent: run on its own result,
    [_ensure_required_fields] returns without an error and leaves that
    result as it is; and every attribute the record already had keeps the
    value the record gave it. *)
Theorem ensure_required_fields_idempotent (r : pydict) :
  let r1 := snd (_ensure_required_fields r) in
  _ensure_required_fields r1 = (Ok tt, r1) /\
  (forall k v, r !! k = Some v -> r1 !! k = Some v).
Proof.
  cbn zeta. split.
  - apply injective_projections; cbn [fst snd].
    + apply ensure_required_fields_ok.
    + rewrite !ensure_required_fields_state.
      rewrite <- (assoc_L (∪)). by rewrite (idemp_L (∪)).
  - intros k v Hk. rewrite ensure_required_fields_state.
    by apply lookup_union_Some_l.
Qed.

(** C7, as stated, fails: on a record without [loan_amount], both
    [_ensure_required_fields] and [predict_credit_risk] leave the caller's
    dict with a [loan_amount] it did not have. *)
Lemma predict_credit_risk_writes_input :
  partial_record !! "loan_amount" = None /\
  snd (_ensure_required_fields partial_record) !! "loan_amount"
    = Some (VInt 500000) /\
  snd (predict_credit_risk partial_record) !! "loan_amount"
    = Some (VInt 500000).
Proof. vm_compute. auto. Qed.

(** C7, amended. The caller's record after [predict_credit_risk], and after
    [_ensure_required_fields], is the record it was with the default of
    every missing attribute of the table added: attributes that were present
    keep their value, an attribute outside the table is never added, and a
    record that already has every attribute of the table is left as it
    was. *)
Theorem predict_credit_risk_input_frame (r : pydict) :
  let r' := snd (predict_credit_risk r) in
  r' = snd (_ensure_required_fields r) /\
  r' = r ∪ list_to_map defaults /\
  (forall k v, r !! k = Some v -> r' !! k = Some v) /\
  (forall k, k ∉ defaults.*1 -> r' !! k = r !! k) /\
  ((forall k, k ∈ defaults.*1 -> is_Some (r !! k)) -> r' = r).
Proof.
  cbn zeta. rewrite predict_credit_risk_state, ensure_required_fields_state.
  split; [reflexivity|]. split; [reflexivity|].
  split; [|split].
  - intros k v Hk. by apply lookup_union_Some_l.
  - intros k Hk. rewrite lookup_union.
    apply not_elem_of_list_to_map_1 in Hk. rewrite Hk.
    by destruct (r !! k).
  - intros Hall. apply map_eq. intros k. rewrite lookup_union.
    destruct (r !! k) as [v|] eqn:E.
    + by destruct (list_to_map defaults !! k).
    + destruct (list_to_map (M:=gmap string pyval) defaults !! k) as [w|] eqn:E2;
        [|reflexivity].
      apply elem_of_list_to_map_2 in E2.
      assert (k ∈ defaults.*1) as Hin.
      { apply list_elem_of_fmap. by exists (k, w). }
      apply Hall in Hin. rewrite E in Hin. by destruct Hin.
Qed.

(** ** The component scorers: result or [TypeError] *)

Section Scorers.

Implicit Types (d r : pydict) (v : pyval).

Lemma py_order_numeric fnum fstr v w x y :
  as_num v = Some x -> as_num w = Some y ->
  py_order fnum fstr v w = Ok (fnum x y).
Proof. intros Hv Hw. unfold py_order. by rewrite Hv, Hw. Qed.

Lemma py_order_not_numeric fnum fstr v w y :
  as_num v = None -> as_num w = Some y ->
  py_order fnum fstr v w = Raise TypeError.
Proof.
  intros Hv Hw. unfold py_order. rewrite Hv.
  destruct v; try discriminate; destruct w; try discriminate; reflexivity.
Qed.

Lemma py_eq_not_numeric v w y :
  as_num v = None -> as_num w = Some y -> py_eq v w = false.
Proof.
  intros Hv Hw. unfold py_eq. rewrite Hv.
  destruct v; try discriminate; destruct w; try discriminate; reflexivity.
Qed.

Lemma is_numeric_as_num v :
  (is_numeric v = true /\ exists x, as_num v = Some x) \/
  (is_numeric v = false /\ as_num v = None).
Proof. unfold is_numeric. destruct (as_num v); eauto. Qed.

(** Rewrites a comparison of [v] with a numeric constant once [as_num v] is
    known. *)
Ltac compare_known Hv :=
  unfold py_lt, py_le, py_gt, py_ge;
  repeat match type of Hv with
         | as_num ?v = Some ?x =>
             match goal with
             | |- context [py_order ?f ?g v ?w] =>
                 rewrite (py_order_numeric f g v w x _ Hv eq_refl)
             end
         | as_num ?v = None =>
             match goal with
             | |- context [py_order ?f ?g v ?w] =>
                 rewrite (py_order_not_numeric f g v w _ Hv eq_refl)
             | |- context [py_eq v ?w] =>
                 rewrite (py_eq_not_numeric v w _ Hv eq_refl)
             end
         end;
  cbn [rbind].

Ltac split_bands :=
  repeat match goal with
         | |- context [if ?c then _ else _] => destruct c; cbn [rbind]
         end.

Lemma calculate_behavioral_score_cases d :
  let lp := dict_get d "late_payments_90d" (VInt 0) in
  let ut := dict_get d "credit_utilization" (VFloat (Ffin 0.4)) in
  match calculate_behavioral_score d with
  | Ok s => 300 <= s <= 850 /\ is_numeric lp && is_numeric ut = true
  | Raise e => e = TypeError /\ is_numeric lp && is_numeric ut = false
  end.
Proof.
  cbn zeta. unfold calculate_behavioral_score.
  generalize (dict_get d "late_payments_90d" (VInt 0)) as lp.
  generalize (dict_get d "credit_utilization" (VFloat (Ffin 0.4))) as ut.
  intros ut lp.
  destruct (is_numeric_as_num lp) as [[-> [x Hx]]|[-> Hx]];
    destruct (is_numeric_as_num ut) as [[-> [y Hy]]|[-> Hy]];
    compare_known Hx; compare_known Hy; split_bands;
    try (split; [lia | reflexivity]); try (split; reflexivity).
Qed.

Lemma calculate_financial_score_cases d :
  let income := dict_get d "income" (VInt 500000) in
  let dti := dict_get d "debt_to_income" (VFloat (Ffin 0.3)) in
  match calculate_financial_score d with
  | Ok s => 300 <= s <= 850 /\ is_numeric income && is_numeric dti = true
  | Raise e => e = TypeError /\ is_numeric income && is_numeric dti = false
  end.
Proof.
  cbn zeta. unfold calculate_financial_score.
  generalize (dict_get d "income" (VInt 500000)) as income.
  generalize (dict_get d "debt_to_income" (VFloat (Ffin 0.3))) as dti.
  intros dti income.
  destruct (is_numeric_as_num income) as [[-> [x Hx]]|[-> Hx]];
    destruct (is_numeric_as_num dti) as [[-> [y Hy]]|[-> Hy]];
    compare_known Hx; compare_known Hy; split_bands;
    try (split; [lia | reflexivity]); try (split; reflexivity).
Qed.

Lemma calculate_stability_score_cases d :
  let el := dict_get d "employment_length" (VInt 5) in
  match calculate_stability_score d with
  | Ok s => 300 <= s <= 850 /\ is_numeric el = true
  | Raise e => e = TypeError /\ is_numeric el = false
  end.
Proof.
  cbn zeta. unfold calculate_stability_score.
  generalize (dict_get d "employment_length" (VInt 5)) as el.
  intros el.
  destruct (is_numeric_as_num el) as [[-> [x Hx]]|[-> Hx]];
    compare_known Hx; split_bands;
    try (split; [lia | reflexivity]); try (split; reflexivity).
Qed.

End Scorers.

(** ** The clamp and the conversion to [int] *)

Section Clamp.

Lemma clamp_cases (x : Q) :
  let final := py_max (NInt 300) (py_min (NInt 850) (NFloat x)) in
  (final = NInt 300 /\ (x <= 300)%Q) \/
  (final = NInt 850 /\ (850 <= x)%Q) \/
  (final = NFloat x /\ (300 < x)%Q /\ (x < 850)%Q).
Proof.
  cbn zeta. unfold py_min. cbn [num_val].
  destruct (Qlt_bool x (inject_Z 850)) eqn:Hhi.
  - apply Qlt_bool_iff in Hhi. unfold py_max. cbn [num_val].
    destruct (Qlt_bool (inject_Z 300) x) eqn:Hlo.
    + apply Qlt_bool_iff in Hlo. right. right. auto.
    + apply Qlt_bool_false_iff in Hlo. left. auto.
  - apply Qlt_bool_false_iff in Hhi. right. left. auto.
Qed.

Lemma Qtrunc_range (x : Q) (lo hi : Z) :
  0 <= lo -> (inject_Z lo <= x)%Q -> (x <= inject_Z hi)%Q ->
  lo <= Qtrunc x <= hi.
Proof.
  destruct x as [n d]. unfold Qtrunc, Qle. cbn. intros H0 Hlo Hhi.
  assert (0 <= n) by nia.
  rewrite Z.quot_div_nonneg by lia. split.
  - apply Z.div_le_lower_bound; lia.
  - apply Z.div_le_upper_bound; lia.
Qed.

Lemma clamp_value (x : Q) :
  let final := py_max (NInt 300) (py_min (NInt 850) (NFloat x)) in
  (300 <= num_val final)%Q /\ (num_val final <= 850)%Q /\
  300 <= py_int final <= 850.
Proof.
  cbn zeta.
  destruct (clamp_cases x) as [[-> H]|[[-> H]|[-> [H1 H2]]]]; cbn.
  - repeat split; try lia; by vm_compute.
  - repeat split; try lia; by vm_compute.
  - split; [by apply Qlt_le_weak|]. split; [by apply Qlt_le_weak|].
    apply Qtrunc_range; [lia| |]; by apply Qlt_le_weak.
Qed.

End Clamp.

(** ** Which records [predict_credit_risk] accepts *)

Section Typing.

Implicit Types (d r : pydict).

Lemma is_numeric_defaulted r key dflt v0 :
  (list_to_map defaults : pydict) !! key = Some v0 ->
  is_numeric v0 = true ->
  is_numeric (dict_get (r ∪ list_to_map defaults) key dflt)
    = numeric_or_absent r key.
Proof.
  intros Hk Hv. unfold dict_get, numeric_or_absent.
  rewrite lookup_union, Hk. by destruct (r !! key).
Qed.

(** The table gives each scored attribute a number. *)
Lemma defaults_scorer_fields :
  let table : pydict := list_to_map defaults in
  table !! "late_payments_90d" = Some (VInt 0) /\
  table !! "credit_utilization" = Some (VFloat (Ffin 0.4)) /\
  table !! "income" = Some (VInt 500000) /\
  table !! "debt_to_income" = Some (VFloat (Ffin 0.3)) /\
  table !! "employment_length" = Some (VInt 5).
Proof. vm_compute. repeat split. Qed.

Lemma predict_credit_risk_typing r :
  match fst (predict_credit_risk r) with
  | Ok _ => well_typed r = true
  | Raise e => e = TypeError /\ well_typed r = false
  end.
Proof.
  rewrite predict_credit_risk_result. cbn zeta.
  set (d := r ∪ list_to_map defaults).
  pose proof (calculate_behavioral_score_cases d) as Hb.
  pose proof (calculate_financial_score_cases d) as Hf.
  pose proof (calculate_stability_score_cases d) as Hs.
  cbn zeta in Hb, Hf, Hs. subst d.
  destruct defaults_scorer_fields as (Dlp & Dut & Dinc & Ddti & Del).
  rewrite (is_numeric_defaulted r _ _ _ Dlp eq_refl),
          (is_numeric_defaulted r _ _ _ Dut eq_refl) in Hb.
  rewrite (is_numeric_defaulted r _ _ _ Dinc eq_refl),
          (is_numeric_defaulted r _ _ _ Ddti eq_refl) in Hf.
  rewrite (is_numeric_defaulted r _ _ _ Del eq_refl) in Hs.
  unfold well_typed, scorer_fields. cbn [forallb].
  destruct (calculate_behavioral_score _) as [b|e]; cbn [rbind].
  2: { destruct Hb as [-> Hb]. split; [reflexivity|].
       rewrite andb_assoc, Hb. reflexivity. }
  destruct Hb as [_ Hb]. rewrite andb_assoc, Hb. cbn [andb].
  destruct (calculate_financial_score _) as [f|e]; cbn [rbind].
  2: { destruct Hf as [-> Hf]. split; [reflexivity|].
       rewrite andb_assoc, Hf. reflexivity. }
  destruct Hf as [_ Hf]. rewrite andb_assoc, Hf. cbn [andb].
  destruct (calculate_stability_score _) as [s|e]; cbn [rbind].
  2: { destruct Hs as [-> Hs]. split; [reflexivity|].
       rewrite Hs. reflexivity. }
  destruct Hs as [_ Hs]. rewrite Hs. reflexivity.
Qed.

Lemma predict_credit_risk_total r :
  well_typed r = true -> exists res, fst (predict_credit_risk r) = Ok res.
Proof.
  intros Hwt. pose proof (predict_credit_risk_typing r) as H.
  destruct (fst (predict_credit_risk r)) as [res|e]; [by exists res|].
  destruct H as [_ H]. congruence.
Qed.

End Typing.

(** ** The claims on [predict_credit_risk] *)

(** C6, as stated, fails: a record whose [income] is a string makes
    [predict_credit_risk] raise the built-in [TypeError], which is not a
    [ScoringError]. *)
Lemma predict_credit_risk_raises_builtin :
  fst (predict_credit_risk malformed_record) = Raise "TypeError" /\
  String.eqb "TypeError" "ScoringError" = false.
Proof. vm_compute. auto. Qed.

(** C6, amended. When one of the attributes the scorers compare with
    numbers ([late_payments_90d], [credit_utilization], [income],
    [debt_to_income], [employment_length]) is present and is not a number,
    [predict_credit_risk] raises Python's [TypeError], and the caller
    receives it: nothing in the function masks it.  On every other record
    it returns a decision. *)
Theorem predict_credit_risk_type_error (r : pydict) :
  (well_typed r = false -> fst (predict_credit_risk r) = Raise TypeError) /\
  (well_typed r = true -> exists res, fst (predict_credit_risk r) = Ok res).
Proof.
  split; [|apply predict_credit_risk_total].
  intros Hwt. pose proof (predict_credit_risk_typing r) as H.
  destruct (fst (predict_credit_risk r)) as [res|e]; [congruence|].
  destruct H as [-> _]. reflexivity.
Qed.

(** C1. Every decision [predict_credit_risk] returns has a [credit_score]
    that is an integer between 300 and 850, and component scores
    [behavioral_score], [financial_score] and [stability_score] that are
    integers between 300 and 850; a decision is returned for every record
    whose scored attributes are numbers or missing.  Each scorer alone also
    returns an integer between 300 and 850. *)
Theorem predict_credit_risk_score_range (r : pydict) :
  (well_typed r = true -> exists res, fst (predict_credit_risk r) = Ok res) /\
  (forall res, fst (predict_credit_risk r) = Ok res ->
     300 <= credit_score res <= 850 /\
     300 <= behavioral_score (component_scores res) <= 850 /\
     300 <= financial_score (component_scores res) <= 850 /\
     300 <= stability_score (component_scores res) <= 850) /\
  (forall s, calculate_behavioral_score r = Ok s -> 300 <= s <= 850) /\
  (forall s, calculate_financial_score r = Ok s -> 300 <= s <= 850) /\
  (forall s, calculate_stability_score r = Ok s -> 300 <= s <= 850).
Proof.
  split; [apply predict_credit_risk_total|].
  assert (forall d s, calculate_behavioral_score d = Ok s -> 300 <= s <= 850)
    as Hb.
  { intros d s Hs. pose proof (calculate_behavioral_score_cases d) as H.
    cbn zeta in H. rewrite Hs in H. tauto. }
  assert (forall d s, calculate_financial_score d = Ok s -> 300 <= s <= 850)
    as Hf.
  { intros d s Hs. pose proof (calculate_financial_score_cases d) as H.
    cbn zeta in H. rewrite Hs in H. tauto. }
  assert (forall d s, calculate_stability_score d = Ok s -> 300 <= s <= 850)
    as Hs.
  { intros d s Hs. pose proof (calculate_stability_score_cases d) as H.
    cbn zeta in H. rewrite Hs in H. tauto. }
  split; [|split; [apply Hb|split; [apply Hf|apply Hs]]].
  intros res Hres.
  apply predict_credit_risk_ok_inv in Hres. cbn zeta in Hres.
  destruct Hres as (b & f & s & Eb & Ef & Es & ->).
  unfold decision_of. cbn [credit_score component_scores behavioral_score
    financial_score stability_score].
  specialize (Hb _ _ Eb). specialize (Hf _ _ Ef). specialize (Hs _ _ Es).
  match goal with
  | |- _ <= py_int (py_max _ (py_min _ (NFloat ?x))) <= _ /\ _ =>
      destruct (clamp_value x) as (_ & _ & Hint)
  end.
  tauto.
Qed.

(** C2. Every final score gets exactly one of the five risk levels, by the
    ordered thresholds 750, 700, 650 and 600; 750 is Excellent and 749 is
    Good; and the [risk_level] of a decision is the level of its
    [final_score]. *)
Theorem risk_level_thresholds (final_score : pynum) :
  let v := num_val final_score in
  let lvl := tier_of final_score in
  ((750 <= v)%Q <-> lvl = "Excellent") /\
  ((700 <= v)%Q /\ (v < 750)%Q <-> lvl = "Good") /\
  ((650 <= v)%Q /\ (v < 700)%Q <-> lvl = "Medium") /\
  ((600 <= v)%Q /\ (v < 650)%Q <-> lvl = "Watch") /\
  ((v < 600)%Q <-> lvl = "High") /\
  tier_of (NInt 750) = "Excellent" /\
  tier_of (NInt 749) = "Good" /\
  (forall r res, fst (predict_credit_risk r) = Ok res ->
     risk_level res = tier_of (AdvancedCreditScorer.final_score
                                 (component_scores res))).
Proof.
  cbn zeta.
  assert (tier_of (NInt 750) = "Excellent" /\ tier_of (NInt 749) = "Good")
    as [H750 H749] by (vm_compute; auto).
  assert (forall r res, fst (predict_credit_risk r) = Ok res ->
            risk_level res = tier_of (AdvancedCreditScorer.final_score
                                        (component_scores res))) as Hlink.
  { intros r res Hres. apply predict_credit_risk_ok_inv in Hres.
    destruct Hres as (b & f & s & _ & _ & _ & ->). reflexivity. }
  split_and!; try assumption; unfold tier_of, risk_classification;
    generalize (num_val final_score); intros v;
    repeat match goal with
           | |- context [Qle_bool ?a ?b] =>
               let E := fresh "E" in
               destruct (Qle_bool a b) eqn:E;
               [apply Qle_bool_iff in E | apply Qle_bool_false_iff in E]
           end;
    cbn [fst snd];
    (split; intros H;
     [ try reflexivity; try lra; try (destruct H; lra)
     | try discriminate H; try lra; try (split; lra) ]).
Qed.

(** ** The ensemble, the risk adjustment and the clamp *)

Section Ensemble.

Lemma py_eq_label (v : pyval) (label : string) :
  py_eq v (VStr label) = is_label v label.
Proof. by destruct v. Qed.

Lemma risk_adjustment_of_bands (ind geo : pyval) :
  risk_adjustment_of ind geo
    = band_adjustment ind (-25) 15 + band_adjustment geo (-20) 10.
Proof.
  unfold risk_adjustment_of, band_adjustment. rewrite !py_eq_label.
  destruct (is_label ind "High"), (is_label ind "Low"),
    (is_label geo "High"), (is_label geo "Low"); reflexivity.
Qed.

Lemma clamp_num_val (x : Q) :
  (num_val (py_max (NInt 300) (py_min (NInt 850) (NFloat x)))
     == clamp x 300 850)%Q.
Proof.
  unfold clamp.
  destruct (clamp_cases x) as [[-> H]|[[-> H]|[-> [H1 H2]]]]; cbn [num_val].
  - rewrite (Q.min_r 850 x) by lra. rewrite Q.max_l by lra. reflexivity.
  - rewrite (Q.min_l 850 x) by lra. rewrite Q.max_r by lra. reflexivity.
  - rewrite (Q.min_r 850 x) by lra. rewrite Q.max_r by lra. reflexivity.
Qed.

(** After defaulting, the two risk attributes are in the record. *)
Lemma defaulted_risk_fields (r : pydict) :
  let d := r ∪ list_to_map defaults in
  d !! "industry_risk" = Some (dict_get d "industry_risk" (VStr "Medium")) /\
  d !! "geographic_risk" = Some (dict_get d "geographic_risk" (VStr "Medium")).
Proof.
  cbn zeta. unfold dict_get. rewrite !lookup_union.
  assert ((list_to_map defaults : pydict) !! "industry_risk"
            = Some (VStr "Medium")) as -> by (by vm_compute).
  assert ((list_to_map defaults : pydict) !! "geographic_risk"
            = Some (VStr "Medium")) as -> by (by vm_compute).
  by destruct (r !! "industry_risk"), (r !! "geographic_risk").
Qed.

End Ensemble.

(** C3. In every decision, [ensemble_score] is 0.40, 0.35 and 0.25 times
    the behavioral, financial and stability scores, summed; the risk
    adjustment adds -25 for an [industry_risk] of High and +15 for Low, and
    -20 for a [geographic_risk] of High and +10 for Low, nothing for any
    other value; and [final_score] is the sum of the two clamped to
    [300, 850].  The two risk attributes are read from the defaulted
    record. *)
Theorem predict_credit_risk_final_score (r : pydict) (res : CreditDecision) :
  fst (predict_credit_risk r) = Ok res ->
  let d := snd (predict_credit_risk r) in
  let cs := component_scores res in
  (ensemble_score cs ==
     0.40 * inject_Z (behavioral_score cs)
     + 0.35 * inject_Z (financial_score cs)
     + 0.25 * inject_Z (stability_score cs))%Q /\
  exists industry_risk geographic_risk,
    d !! "industry_risk" = Some industry_risk /\
    d !! "geographic_risk" = Some geographic_risk /\
    let risk_adjustment :=
      band_adjustment industry_risk (-25) 15
      + band_adjustment geographic_risk (-20) 10 in
    (num_val (final_score cs)
       == clamp (ensemble_score cs + inject_Z risk_adjustment) 300 850)%Q.
Proof.
  intros Hres. cbn zeta. rewrite predict_credit_risk_state.
  apply predict_credit_risk_ok_inv in Hres. cbn zeta in Hres.
  destruct Hres as (b & f & s & _ & _ & _ & ->).
  unfold decision_of.
  cbn [component_scores ensemble_score behavioral_score financial_score
       stability_score final_score ensemble_weights w_behavioral_score
       w_financial_score w_stability_score].
  split; [ring|].
  destruct (defaulted_risk_fields r) as [Hi Hg]. cbn zeta in Hi, Hg.
  eexists _, _. split; [exact Hi|]. split; [exact Hg|].
  rewrite clamp_num_val, risk_adjustment_of_bands. reflexivity.
Qed.

Lemma predict_credit_risk_final_score_witness :
  exists res,
    fst (predict_credit_risk risky_record) = Ok res /\
    (num_val (final_score (component_scores res)) == 680.5)%Q /\
    (ensemble_score (component_scores res) ==
       0.40 * inject_Z (behavioral_score (component_scores res))
       + 0.35 * inject_Z (financial_score (component_scores res))
       + 0.25 * inject_Z (stability_score (component_scores res)))%Q.
Proof.
  eexists. split; [vm_compute; reflexivity|].
  split; [vm_compute; reflexivity|].
  apply (predict_credit_risk_final_score risky_record).
  vm_compute. reflexivity.
Defined.

(** ** The fraud detector *)

Section Fraud.

Implicit Types (d : pydict) (ps : list (bool * string)).

Lemma and_then_holds (a b : result bool) (c : bool) :
  and_then a b = Ok c -> c = holds a && holds b.
Proof.
  destruct a as [[|]|ea], b as [[|]|eb]; cbn; intros [=]; auto.
Qed.

Lemma rbind_ok_inv {A B} (c : result A) (k : A -> result B) (b : B) :
  rbind c k = Ok b -> exists a, c = Ok a /\ k a = Ok b.
Proof. destruct c as [a|e]; [by exists a | discriminate]. Qed.

Lemma patterns_conditions d ps :
  patterns d = Ok ps -> map fst ps = fraud_predicates d.
Proof.
  unfold patterns, fraud_predicates. intros H.
  apply rbind_ok_inv in H as (c1 & E1 & H).
  apply rbind_ok_inv in H as (c2 & E2 & H).
  apply rbind_ok_inv in H as (c3 & E3 & H).
  apply rbind_ok_inv in H as (c4 & E4 & H).
  injection H as <-. cbn [map fst].
  apply and_then_holds in E1, E2, E3. subst c1 c2 c3.
  rewrite E4. by destruct c4.
Qed.

Lemma count_patterns_acc ps n (l : list string) :
  count_patterns ps (n, l)
    = (n + count_true (map fst ps),
       (l ++ map snd (List.filter fst ps))%list).
Proof.
  revert n l. induction ps as [|[c name] rest IH]; intros n l.
  - cbn. f_equal; [unfold count_true; cbn; lia | by rewrite app_nil_r].
  - cbn [count_patterns]. destruct c; cbn [fst snd].
    + rewrite IH. unfold count_true. cbn [map fst List.filter length snd].
      f_equal; [lia | by rewrite <- app_assoc].
    + rewrite IH. reflexivity.
Qed.

Lemma length_true_names ps :
  Z.of_nat (length (map snd (List.filter fst ps))) = count_true (map fst ps).
Proof.
  unfold count_true. f_equal. rewrite length_map.
  induction ps as [|[[|] name] rest IH]; cbn; congruence.
Qed.

(** What a returned assessment holds, in terms of the number of true
    predicates and the draw. *)
Lemma detect_advanced_fraud_ok_inv d U res :
  detect_advanced_fraud d U = Ok res ->
  let n := indicator_count d in
  let score := fraud_score_of n U in
  is_fraud res = Qlt_bool (b64 0.65) score /\
  fraud_score res = num_val (py_round (NFloat score) 4) /\
  fraud_indicators res = n /\
  confidence res =
    (if Qlt_bool (b64 0.8) score then "High"
     else if Qlt_bool (b64 0.6) score then "Medium" else "Low").
Proof.
  unfold detect_advanced_fraud, indicator_count.
  destruct (patterns d) as [ps|] eqn:Hps; [|discriminate]. cbn [rbind].
  apply patterns_conditions in Hps. rewrite <- Hps.
  rewrite count_patterns_acc. cbn [app]. rewrite Z.add_0_l.
  intros H.
  pose proof (f_equal (fun c => match c with
                                | Ok a => a
                                | Raise _ => res
                                end) H) as <-.
  cbn [is_fraud fraud_score fraud_indicators confidence].
  rewrite length_true_names. auto.
Qed.

Lemma indicator_count_range d : 0 <= indicator_count d <= 4.
Proof.
  unfold indicator_count, count_true.
  pose proof (filter_length_le (fun b : bool => b) (fraud_predicates d)) as H.
  cbn [fraud_predicates length] in H. lia.
Qed.

(** A count of at most four times 0.25 is a float, so the only rounding
    is that of the sum; [min(1.0, x)] is the smaller of the two. *)
Lemma fraud_score_of_min (n : Z) (U : Q) :
  0 <= n <= 4 ->
  (fraud_score_of n U == Qmin 1 (b64 (inject_Z n * 0.25 + U)))%Q.
Proof.
  intros Hn. unfold fraud_score_of, py_min, fadd. cbn [num_val].
  assert (fmul (of_int n) 0.25 == inject_Z n * 0.25)%Q as E.
  { assert (n = 0 \/ n = 1 \/ n = 2 \/ n = 3 \/ n = 4) as H by lia.
    destruct_or!; subst n; by vm_compute. }
  assert (b64 (fmul (of_int n) 0.25 + U) == b64 (inject_Z n * 0.25 + U))%Q
    as Es by (by rewrite E).
  set (s := b64 (fmul (of_int n) 0.25 + U)) in *.
  set (t := b64 (inject_Z n * 0.25 + U)) in *.
  destruct (Qlt_bool s 1.0) eqn:Elt.
  - apply Qlt_bool_iff in Elt. rewrite Q.min_r by lra. exact Es.
  - apply Qlt_bool_false_iff in Elt. rewrite Q.min_l by lra. reflexivity.
Qed.

(** The float score is the exact one up to the rounding of the sum. *)
Lemma fraud_score_of_near (n : Z) (U : Q) :
  0 <= n <= 4 -> (0 <= U)%Q -> (U < 0.2)%Q ->
  let score := Qmin 1 (b64 (inject_Z n * 0.25 + U)) in
  let exact := Qmin 1 (inject_Z n * 0.25 + U) in
  (score - 2 ^ (-53) <= exact)%Q /\ (exact <= score + 2 ^ (-53))%Q.
Proof.
  intros Hn HU0 HU1. cbn zeta.
  assert (0 <= inject_Z n)%Q as Hn0
    by (change 0%Q with (inject_Z 0); rewrite <- Zle_Qle; lia).
  assert (inject_Z n <= 4)%Q as Hn4
    by (change 4%Q with (inject_Z 4); rewrite <- Zle_Qle; lia).
  destruct (b64_near (inject_Z n * 0.25 + U)) as [N1 N2]; [lra|lra|].
  set (x := (inject_Z n * 0.25 + U)%Q) in *. set (bx := b64 x) in *.
  pose proof (two_pow_pos (-53)) as He. set (eps := (2 ^ (-53))%Q) in *.
  destruct (Q.min_spec 1 bx) as [[A ->]|[A ->]];
    destruct (Q.min_spec 1 x) as [[B ->]|[B ->]]; split; lra.
Qed.

Lemma fraud_score_of_range (n : Z) (U : Q) :
  0 <= n <= 4 -> (0 <= U)%Q ->
  (0 <= fraud_score_of n U)%Q /\ (fraud_score_of n U <= 1)%Q.
Proof.
  intros Hn HU. rewrite fraud_score_of_min by exact Hn.
  assert (0 <= inject_Z n)%Q as Hq
    by (change 0%Q with (inject_Z 0); rewrite <- Zle_Qle; lia).
  split.
  - apply Q.min_glb; [by vm_compute|]. apply b64_nonneg. lra.
  - apply Q.le_min_l.
Qed.

(** Bounds on the exact sum that are floats bound the float score. *)
Lemma fraud_score_of_ge (n : Z) (U lo : Q) :
  0 <= n <= 4 -> (0 <= lo)%Q -> (lo <= 1)%Q -> (b64 lo == lo)%Q ->
  (lo <= inject_Z n * 0.25 + U)%Q -> (lo <= fraud_score_of n U)%Q.
Proof.
  intros Hn Hlo0 Hlo1 Hlo H. rewrite fraud_score_of_min by exact Hn.
  pose proof (b64_ge _ lo Hlo0 H Hlo) as G.
  apply Q.min_glb; lra.
Qed.

Lemma fraud_score_of_le (n : Z) (U hi : Q) :
  0 <= n <= 4 -> (0 <= U)%Q -> (b64 hi == hi)%Q ->
  (inject_Z n * 0.25 + U <= hi)%Q -> (fraud_score_of n U <= hi)%Q.
Proof.
  intros Hn HU Hhi H. rewrite fraud_score_of_min by exact Hn.
  assert (0 <= inject_Z n)%Q as Hq
    by (change 0%Q with (inject_Z 0); rewrite <- Zle_Qle; lia).
  assert (0 <= inject_Z n * 0.25 + U)%Q as H0 by lra.
  pose proof (b64_le _ hi H0 H Hhi) as G.
  eapply Qle_trans; [apply Q.le_min_r|exact G].
Qed.

End Fraud.

Section FraudTyping.

Implicit Types (d : pydict).

Lemma numeric_field d key dflt :
  numeric_or_absent d key = true -> is_numeric dflt = true ->
  exists x, as_num (dict_get d key dflt) = Some x.
Proof.
  unfold numeric_or_absent, dict_get, is_numeric.
  destruct (d !! key) as [v|]; intros Hv Hd.
  - destruct (as_num v) as [x|]; [by exists x | discriminate].
  - destruct (as_num dflt) as [x|]; [by exists x | discriminate].
Qed.

Lemma patterns_total d :
  fraud_typed d = true -> exists ps, patterns d = Ok ps.
Proof.
  unfold fraud_typed, fraud_fields. cbn [forallb].
  rewrite !andb_true_iff. intros (Hi & Ha & He & Hc & Hh & Hq & _).
  destruct (numeric_field _ _ (VInt 500000) Hi eq_refl) as [xi Ei].
  destruct (numeric_field _ _ (VInt 35) Ha eq_refl) as [xa Ea].
  destruct (numeric_field _ _ (VInt 5) He eq_refl) as [xe Ee].
  destruct (numeric_field _ _ (VInt 650) Hc eq_refl) as [xc Ec].
  destruct (numeric_field _ _ (VInt 7) Hh eq_refl) as [xh Eh].
  destruct (numeric_field _ _ (VInt 2) Hq eq_refl) as [xq Eq].
  unfold patterns, py_gt, py_lt.
  rewrite (py_order_numeric _ _ _ (VInt 2000000) _ _ Ei eq_refl).
  rewrite (py_order_numeric _ _ _ (VInt 1000000) _ _ Ei eq_refl).
  rewrite (py_order_numeric _ _ _ (VInt 25) _ _ Ea eq_refl).
  rewrite (py_order_numeric _ _ _ (VInt 1) _ _ Ee eq_refl).
  rewrite (py_order_numeric _ _ _ (VInt 800) _ _ Ec eq_refl).
  rewrite (py_order_numeric _ _ _ (VInt 2) _ _ Eh eq_refl).
  rewrite (py_order_numeric _ _ _ (VInt 8) _ _ Eq eq_refl).
  unfold and_then. cbn [rbind].
  repeat match goal with
         | |- context [if ?c then _ else _] => destruct c; cbn [rbind]
         end; eauto.
Qed.

Lemma detect_advanced_fraud_total d U :
  fraud_typed d = true -> exists res, detect_advanced_fraud d U = Ok res.
Proof.
  intros Ht. destruct (patterns_total d Ht) as [ps Hps].
  unfold detect_advanced_fraud. rewrite Hps. cbn [rbind].
  destruct (count_patterns ps (0, [])) as [n l]. eauto.
Qed.

End FraudTyping.

(** ** The claims on [detect_advanced_fraud] *)

(** C5. For a draw [U] in [0, 0.2), an assessment that
    [detect_advanced_fraud] returns counts the true fraud predicates in
    [fraud_indicators]; its fraud score is the smaller of 1.0 and the float
    sum of that count times 0.25 and [U], which is the float nearest to the
    exact sum and so within 2^-53 of the smaller of 1 and the exact sum
    (the field [fraud_score] is this score rounded to four decimals);
    [is_fraud] is true exactly when the score exceeds the float 0.65;
    [confidence] is High above the float 0.8, Medium above the float 0.6
    and Low otherwise.  Whenever the exact sum is at least 2^-52 away from
    a threshold, the flag and the confidence are those the exact sum and
    the exact thresholds give.  An assessment is returned for every record
    whose compared attributes are numbers or missing. *)
Theorem detect_advanced_fraud_score (d : pydict) (U : Q) :
  (0 <= U)%Q -> (U < 0.2)%Q ->
  (fraud_typed d = true -> exists res, detect_advanced_fraud d U = Ok res) /\
  (forall res, detect_advanced_fraud d U = Ok res ->
     let n := indicator_count d in
     let score := Qmin 1 (b64 (inject_Z n * 0.25 + U)) in
     let exact := Qmin 1 (inject_Z n * 0.25 + U) in
     fraud_indicators res = n /\
     (fraud_score_of n U == score)%Q /\
     ((score - 2 ^ (-53) <= exact)%Q /\ (exact <= score + 2 ^ (-53))%Q) /\
     fraud_score res = num_val (py_round (NFloat (fraud_score_of n U)) 4) /\
     (is_fraud res = true <-> (b64 0.65 < score)%Q) /\
     ((b64 0.8 < score)%Q <-> confidence res = "High") /\
     ((b64 0.6 < score)%Q /\ (score <= b64 0.8)%Q
        <-> confidence res = "Medium") /\
     ((score <= b64 0.6)%Q <-> confidence res = "Low") /\
     ((0.65 + 2 ^ (-52) <= exact)%Q -> is_fraud res = true) /\
     ((exact <= 0.65 - 2 ^ (-52))%Q -> is_fraud res = false) /\
     ((0.8 + 2 ^ (-52) <= exact)%Q -> confidence res = "High") /\
     ((0.6 + 2 ^ (-52) <= exact)%Q /\ (exact <= 0.8 - 2 ^ (-52))%Q ->
        confidence res = "Medium") /\
     ((exact <= 0.6 - 2 ^ (-52))%Q -> confidence res = "Low")).
Proof.
  intros HU0 HU1. split; [apply detect_advanced_fraud_total|].
  intros res Hres. cbn zeta.
  apply detect_advanced_fraud_ok_inv in Hres. cbn zeta in Hres.
  destruct Hres as (Hfraud & Hscore & Hind & Hconf).
  pose proof (indicator_count_range d) as Hn.
  pose proof (fraud_score_of_min (indicator_count d) U Hn) as Hmin.
  pose proof (fraud_score_of_near (indicator_count d) U Hn HU0 HU1) as Hnear.
  cbn zeta in Hnear. destruct Hnear as [N1 N2].
  rewrite Hfraud, Hconf.
  set (fs := fraud_score_of (indicator_count d) U) in *.
  set (score := Qmin 1 (b64 _)) in *.
  set (exact := Qmin 1 _) in *.
  assert (b64 0.65 == 5854679515581645 # 9007199254740992)%Q as T65
    by (by vm_compute).
  assert (b64 0.8 == 3602879701896397 # 4503599627370496)%Q as T8
    by (by vm_compute).
  assert (b64 0.6 == 5404319552844595 # 9007199254740992)%Q as T6
    by (by vm_compute).
  assert (2 ^ (-53) == 1 # 9007199254740992)%Q as E53 by reflexivity.
  assert (2 ^ (-52) == 1 # 4503599627370496)%Q as E52 by reflexivity.
  set (t65 := b64 0.65) in *. set (t8 := b64 0.8) in *.
  set (t6 := b64 0.6) in *.
  set (e53 := (2 ^ (-53))%Q) in *. set (e52 := (2 ^ (-52))%Q) in *.
  split; [exact Hind|]. split; [exact Hmin|]. split; [by split|].
  split; [exact Hscore|].
  split; [rewrite Qlt_bool_iff; split; lra|].
  destruct (Qlt_bool t65 fs) eqn:E65;
    [apply Qlt_bool_iff in E65 | apply Qlt_bool_false_iff in E65];
    (destruct (Qlt_bool t8 fs) eqn:E8;
     [apply Qlt_bool_iff in E8 | apply Qlt_bool_false_iff in E8]);
    (destruct (Qlt_bool t6 fs) eqn:E6;
     [apply Qlt_bool_iff in E6 | apply Qlt_bool_false_iff in E6]);
    split_and!;
    try (split; intros H;
         [ try reflexivity; try lra; try (destruct H; lra)
         | try discriminate H; try lra; try (split; lra) ]);
    try (intros H; try reflexivity; try lra; try (destruct H; lra)).
Qed.

Lemma detect_advanced_fraud_score_witness :
  (0 <= 0.19)%Q /\ (0.19 < 0.2)%Q /\
  exists res,
    detect_advanced_fraud young_rich_record 0.19 = Ok res /\
    fraud_indicators res = 2 /\ is_fraud res = true /\
    confidence res = "Medium".
Proof.
  assert ((0 <= 0.19)%Q) as H0 by (by vm_compute).
  assert ((0.19 < 0.2)%Q) as H1 by (by vm_compute).
  split; [exact H0|]. split; [exact H1|].
  destruct (detect_advanced_fraud_score young_rich_record 0.19 H0 H1)
    as [Htot Hspec].
  destruct (Htot eq_refl) as [res Hres]. exists res.
  split; [exact Hres|].
  destruct (Hspec res Hres) as (Hn & _ & _ & _ & Hf & _ & Hm & _).
  split; [exact Hn|]. split.
  - apply Hf. by vm_compute.
  - apply Hm. split; by vm_compute.
Defined.

(** C10. For a draw [U] in [0, 0.2), a record with at most one true fraud
    predicate is never flagged: the score is at most 0.25 + [U], below
    0.65.  A flagged assessment therefore has at least two indicators. *)
Theorem detect_advanced_fraud_needs_two (d : pydict) (U : Q)
    (res : FraudAssessment) :
  (0 <= U)%Q -> (U < 0.2)%Q ->
  detect_advanced_fraud d U = Ok res ->
  (indicator_count d <= 1 -> is_fraud res = false) /\
  (is_fraud res = true -> 2 <= fraud_indicators res).
Proof.
  intros HU0 HU1 Hres.
  apply detect_advanced_fraud_ok_inv in Hres. cbn zeta in Hres.
  destruct Hres as (Hfraud & _ & Hind & _).
  pose proof (indicator_count_range d) as Hn.
  assert (indicator_count d <= 1 -> is_fraud res = false) as Hone.
  { intros Hle. rewrite Hfraud. apply Qlt_bool_false_iff.
    assert (inject_Z (indicator_count d) <= 1)%Q as Hq.
    { change 1%Q with (inject_Z 1). by rewrite <- Zle_Qle. }
    assert (0 <= inject_Z (indicator_count d))%Q as Hq0.
    { change 0%Q with (inject_Z 0). rewrite <- Zle_Qle. lia. }
    eapply Qle_trans;
      [apply (fraud_score_of_le _ U (1 # 2) Hn HU0); [by vm_compute|lra]|].
    by vm_compute. }
  split; [exact Hone|].
  intros Htrue. rewrite Hind.
  destruct (Z_le_gt_dec (indicator_count d) 1) as [Hle|Hgt]; [|lia].
  rewrite (Hone Hle) in Htrue. discriminate.
Qed.

Lemma detect_advanced_fraud_needs_two_witness :
  (0 <= 0.19)%Q /\ (0.19 < 0.2)%Q /\
  exists res,
    detect_advanced_fraud many_inquiries_record 0.19 = Ok res /\
    indicator_count many_inquiries_record = 1 /\
    is_fraud res = false.
Proof.
  assert ((0 <= 0.19)%Q) as H0 by (by vm_compute).
  assert ((0.19 < 0.2)%Q) as H1 by (by vm_compute).
  split; [exact H0|]. split; [exact H1|].
  eexists. split; [vm_compute; reflexivity|].
  split; [by vm_compute|].
  eapply (detect_advanced_fraud_needs_two many_inquiries_record 0.19 _ H0 H1).
  - vm_compute. reflexivity.
  - by vm_compute.
Defined.

(** ** The drift metrics *)

Section Sorting.

Implicit Types (r : row) (rows : list row).

Lemma insert_desc_perm r rows : Permutation (insert_desc r rows) (r :: rows).
Proof.
  induction rows as [|r' rest IH]; cbn; [reflexivity|].
  destruct (Qle_bool (snd r') (snd r)); [reflexivity|].
  rewrite IH. apply perm_swap.
Qed.

Lemma sort_values_desc_perm rows : Permutation (sort_values_desc rows) rows.
Proof.
  induction rows as [|r rest IH]; cbn; [reflexivity|].
  rewrite insert_desc_perm. by constructor.
Qed.

Lemma insert_desc_hd r r' rows :
  score_ge r' r -> HdRel score_ge r' rows ->
  HdRel score_ge r' (insert_desc r rows).
Proof.
  intros Hr Hhd. destruct rows as [|r'' rest]; cbn.
  - by constructor.
  - destruct (Qle_bool (snd r'') (snd r)); constructor; [done|].
    by inversion Hhd.
Qed.

Lemma insert_desc_sorted r rows :
  Sorted score_ge rows -> Sorted score_ge (insert_desc r rows).
Proof.
  induction 1 as [|r' rest Hs IH Hhd]; cbn.
  - by repeat constructor.
  - destruct (Qle_bool (snd r') (snd r)) eqn:E.
    + apply Qle_bool_iff in E. constructor; [by constructor|].
      by constructor.
    + apply Qle_bool_false_iff in E. constructor; [exact IH|].
      apply insert_desc_hd; [|exact Hhd].
      unfold score_ge. by apply Qlt_le_weak.
Qed.

Lemma sort_values_desc_sorted rows : Sorted score_ge (sort_values_desc rows).
Proof.
  induction rows as [|r rest IH]; cbn; [constructor|].
  by apply insert_desc_sorted.
Qed.

End Sorting.

Section Cumulative.

Implicit Types (bs : list bool) (ys : list Z).

Lemma bool_sum_count (label : Z) ys :
  bool_sum (map (fun y => Z.eqb y label) ys) = count_label label ys.
Proof.
  unfold count_label. induction ys as [|y rest IH]; [reflexivity|].
  cbn [map bool_sum fold_right List.filter]. fold (bool_sum (map (fun y => Z.eqb y label) rest)).
  rewrite IH. destruct (Z.eqb y label); cbn [length]; lia.
Qed.

(** The running total at rank [i] is the sum of the first [i + 1] entries. *)
Lemma cumsum_from_ranks (acc : Z) bs :
  cumsum_from acc bs
    = map (fun i => acc + bool_sum (take (S i) bs)) (seq 0 (length bs)).
Proof.
  revert acc. induction bs as [|b rest IH]; intros acc; [reflexivity|].
  cbn [cumsum_from length seq map]. f_equal.
  - rewrite firstn_cons, take_0. cbn. destruct b; lia.
  - rewrite IH, <- seq_shift, map_map. apply map_ext. intros i.
    rewrite (firstn_cons (S i) b rest). cbn [bool_sum fold_right].
    fold (bool_sum (take (S i) rest)). destruct b; lia.
Qed.

Lemma cum_fraction_ranks (label : Z) ys :
  cum_fraction (map (fun y => Z.eqb y label) ys)
    = map (cumulative_fraction label ys) (seq 0 (length ys)).
Proof.
  unfold cum_fraction, cumsum. rewrite cumsum_from_ranks, map_map.
  rewrite length_map, bool_sum_count. apply map_ext. intros i.
  unfold cumulative_fraction.
  rewrite firstn_map, bool_sum_count, Z.add_0_l. reflexivity.
Qed.

Lemma combine_map_same {A B C} (f : A -> B) (g : A -> C) (l : list A) :
  combine (map f l) (map g l) = map (fun a => (f a, g a)) l.
Proof. induction l as [|a rest IH]; cbn; congruence. Qed.

(** The column of gaps that [ks_of_frame] takes the maximum of. *)
Lemma gaps_ranks ys :
  map (fun pn : Q * Q => Qabs (fst pn - snd pn))
      (combine (cum_fraction (map (fun v => Z.eqb v 1) ys))
               (cum_fraction (map (fun v => Z.eqb v 0) ys)))
    = map (gap_at ys) (seq 0 (length ys)).
Proof.
  rewrite !cum_fraction_ranks, combine_map_same, map_map. reflexivity.
Qed.

Lemma count_label_take (label : Z) ys (k : nat) :
  0 <= count_label label (take k ys) <= count_label label ys.
Proof.
  unfold count_label. split; [lia|].
  rewrite <- (firstn_skipn k ys) at 2.
  rewrite List.filter_app, length_app. lia.
Qed.

Lemma unit_fraction (a b : Z) :
  0 <= a <= b -> (0 <= inject_Z a / inject_Z (Z.max 1 b) <= 1)%Q.
Proof.
  intros [Ha Hb].
  assert (0 < inject_Z (Z.max 1 b))%Q as Hpos.
  { change 0%Q with (inject_Z 0). rewrite <- Zlt_Qlt. lia. }
  split.
  - apply Qle_shift_div_l; [exact Hpos|]. rewrite Qmult_0_l.
    change 0%Q with (inject_Z 0). rewrite <- Zle_Qle. lia.
  - apply Qle_shift_div_r; [exact Hpos|]. rewrite Qmult_1_l.
    rewrite <- Zle_Qle. lia.
Qed.

Lemma gap_at_range ys (i : nat) : (0 <= gap_at ys i <= 1)%Q.
Proof.
  unfold gap_at, cumulative_fraction.
  pose proof (unit_fraction _ _ (count_label_take 1 ys (S i))) as [H1 H2].
  pose proof (unit_fraction _ _ (count_label_take 0 ys (S i))) as [H3 H4].
  split; [apply Qabs_nonneg|].
  apply Qabs_Qle_condition. split; lra.
Qed.

End Cumulative.

Section SeriesMax.

Lemma Qmax_py_cases (a b : Q) :
  (Qmax_py a b = a /\ (b <= a)%Q) \/ (Qmax_py a b = b /\ (a < b)%Q).
Proof.
  unfold Qmax_py. destruct (Qlt_bool a b) eqn:E.
  - apply Qlt_bool_iff in E. auto.
  - apply Qlt_bool_false_iff in E. auto.
Qed.

(** The running maximum is an element of the series and bounds it. *)
Lemma fold_max_spec (xs : list Q) (x : Q) :
  let m := fold_left Qmax_py xs x in
  In m (x :: xs) /\ (forall y, In y (x :: xs) -> (y <= m)%Q).
Proof.
  revert x. induction xs as [|a rest IH]; intros x; cbn zeta.
  - cbn. split; [auto|]. intros y [<-|[]]. apply Qle_refl.
  - cbn [fold_left]. destruct (IH (Qmax_py x a)) as [Hin Hub].
    destruct (Qmax_py_cases x a) as [[E Hle]|[E Hlt]]; rewrite E in *.
    + split.
      * destruct Hin as [<-|Hin]; [by left | right; by right].
      * intros y [<-|[<-|Hy]].
        -- apply Hub. by left.
        -- eapply Qle_trans; [exact Hle|]. apply Hub. by left.
        -- apply Hub. by right.
    + split.
      * right. exact Hin.
      * intros y [<-|[<-|Hy]].
        -- eapply Qle_trans; [apply Qlt_le_weak, Hlt|]. apply Hub. by left.
        -- apply Hub. by left.
        -- apply Hub. by right.
Qed.

End SeriesMax.

Section Labels.

Lemma nunique_perm (l k : list Z) : Permutation l k -> nunique l = nunique k.
Proof.
  intros Hp. unfold nunique. apply Permutation_length.
  apply NoDup_Permutation; try apply NoDup_remove_dups.
  intros x. rewrite !elem_of_remove_dups. by rewrite Hp.
Qed.

Lemma map_fst_combine (ys : list Z) (ps : list Q) :
  length ys = length ps -> map fst (combine ys ps) = ys.
Proof.
  revert ps. induction ys as [|y rest IH]; intros [|p ps] Hlen;
    cbn in *; try discriminate; [reflexivity|].
  f_equal. apply IH. congruence.
Qed.

(** The labels of the sorted frame are those of [y_true], reordered. *)
Lemma sorted_labels_perm (y_true : list Z) (y_pred : list Q) :
  length y_true = length y_pred ->
  Permutation (map fst (sort_values_desc (combine y_true y_pred))) y_true.
Proof.
  intros Hlen. rewrite sort_values_desc_perm. by rewrite map_fst_combine.
Qed.

Lemma nunique_length (ys : list Z) : (nunique ys <= length ys)%nat.
Proof.
  unfold nunique. induction ys as [|y rest IH]; cbn; [lia|].
  destruct (decide_rel _ _ _); cbn; lia.
Qed.

End Labels.

(** ** The claims on the drift metrics *)

(** C8. [ks_statistic] always returns a number [ks] with [0 <= ks <= 1],
    and 0.0 when the labels have fewer than two distinct values.  When the
    two columns have the same length and there are two classes, [ks] is the
    largest gap between the cumulative positive and negative fractions over
    the rows in decreasing order of score: the rows are a reordering of the
    input, sorted by decreasing score, [ks] is the gap at some rank and no
    rank has a larger gap. *)
Theorem ks_statistic_range (y_true : list Z) (y_pred : list Q) :
  exists ks : Q,
    ks_statistic y_true y_pred = Ffin ks /\
    (0 <= ks)%Q /\ (ks <= 1)%Q /\
    ((nunique y_true < 2)%nat -> ks = 0.0%Q) /\
    (length y_true = length y_pred -> (2 <= nunique y_true)%nat ->
       let rows := sort_values_desc (combine y_true y_pred) in
       let y := map fst rows in
       Permutation rows (combine y_true y_pred) /\
       Sorted score_ge rows /\
       (exists i, (i < length y)%nat /\ ks = gap_at y i) /\
       (forall i, (i < length y)%nat -> (gap_at y i <= ks)%Q)).
Proof.
  unfold ks_statistic.
  destruct (Nat.eqb_spec (length y_true) (length y_pred)) as [Hlen|Hlen].
  2: { exists 0.0%Q. split; [reflexivity|]. split; [by vm_compute|].
       split; [by vm_compute|]. split; [reflexivity|]. intros H. by destruct Hlen. }
  unfold ks_of_frame.
  set (rows := sort_values_desc (combine y_true y_pred)).
  set (y := map fst rows).
  assert (nunique y = nunique y_true) as Hnu
    by (apply nunique_perm, sorted_labels_perm, Hlen).
  rewrite Hnu.
  destruct (Nat.ltb_spec (nunique y_true) 2) as [Hlt|Hge].
  { exists 0.0%Q. split; [reflexivity|]. split; [by vm_compute|].
    split; [by vm_compute|]. split; [reflexivity|]. intros _ H. lia. }
  rewrite gaps_ranks.
  pose proof (nunique_length y) as Hny.
  destruct (length y) as [|n] eqn:Hy; [lia|].
  cbn [seq map series_max].
  set (gaps := map (gap_at y) (seq 1 n)).
  destruct (fold_max_spec gaps (gap_at y 0)) as [Hin Hub]. cbn zeta in Hin, Hub.
  set (ks := fold_left Qmax_py gaps (gap_at y 0)) in *.
  assert (forall g, In g (gap_at y 0 :: gaps) <->
                    exists i, (i < S n)%nat /\ g = gap_at y i) as Hgaps.
  { intros g. change (gap_at y 0 :: gaps) with (map (gap_at y) (seq 0 (S n))).
    rewrite in_map_iff. split.
    - intros (i & <- & Hi). apply in_seq in Hi. exists i. split; [lia|done].
    - intros (i & Hi & ->). exists i. split; [done|]. apply in_seq. lia. }
  exists ks. split; [reflexivity|].
  apply Hgaps in Hin as Hks. destruct Hks as (i & Hi & Hks).
  pose proof (gap_at_range y i) as [H0 H1]. rewrite <- Hks in H0, H1.
  split; [exact H0|]. split; [exact H1|].
  split; [intros H; lia|].
  intros _ _. cbn zeta.
  split; [apply sort_values_desc_perm|].
  split; [apply sort_values_desc_sorted|].
  split; [by exists i|].
  intros j Hj. apply Hub, Hgaps. by exists j.
Qed.

(** C9. [psi_from_scores] returns [None], not a number and not an
    exception, whenever the expected or the actual distribution is empty,
    whatever the binning pipeline would do. *)
Theorem psi_from_scores_empty
    (binned_psi : list Q -> list Q -> Z -> result Q)
    (expected_scores actual_scores : list Q) (bins : Z) :
  expected_scores = [] \/ actual_scores = [] ->
  psi_from_scores binned_psi expected_scores actual_scores bins = None.
Proof.
  unfold psi_from_scores. intros [-> | ->]; cbn [length Nat.eqb orb].
  - reflexivity.
  - by rewrite orb_true_r.
Qed.

Lemma psi_from_scores_empty_witness :
  psi_from_scores (fun _ _ _ => Ok 0%Q) [] [0.5%Q; 0.7%Q] 10 = None /\
  psi_from_scores (fun _ _ _ => Ok 0%Q) [0.5%Q; 0.7%Q] [] 10 = None.
Proof.
  split.
  - apply (psi_from_scores_empty (fun _ _ _ => Ok 0%Q) [] [0.5%Q; 0.7%Q] 10).
    left. reflexivity.
  - apply (psi_from_scores_empty (fun _ _ _ => Ok 0%Q) [0.5%Q; 0.7%Q] [] 10).
    right. reflexivity.
Defined.

(** ** The examples of the specification, evaluated *)

(** Predicate (d) alone: one indicator, named. *)
Example many_inquiries_pattern :
  exists res,
    detect_advanced_fraud many_inquiries_record 0.1 = Ok res /\
    fraud_indicators res = 1 /\
    fraud_patterns res = ["Excessive Credit Inquiries"].
Proof. eexists. split; [vm_compute; reflexivity|]. by vm_compute. Qed.

(** The end-to-end example: predicates (a), (b) and (c) hold; the
    behavioral score is 730; the adjustment is -25 + 10 on an ensemble of
    698.75, so the final score is 683.75, the credit score 683 and the
    level Medium. *)
Example example_record_assessment :
  exists res,
    detect_advanced_fraud example_record 0.1 = Ok res /\
    fraud_indicators res = 3 /\
    fraud_patterns res =
      [ "Extreme Income for Age"; "High Income with Short Employment";
        "Perfect Score with Short History" ] /\
    is_fraud res = true /\ confidence res = "High".
Proof. eexists. split; [vm_compute; reflexivity|]. by vm_compute. Qed.

Example example_record_decision :
  exists res,
    fst (predict_credit_risk example_record) = Ok res /\
    behavioral_score (component_scores res) = 730 /\
    financial_score (component_scores res) = 705 /\
    stability_score (component_scores res) = 640 /\
    credit_score res = 683 /\ risk_level res = "Medium".
Proof. eexists. split; [vm_compute; reflexivity|]. by vm_compute. Qed.

(** * Further properties *)

(** ** Defaulting and the defaults of [.get] *)

Section Defaulting.

Implicit Types (d r : pydict).

(** A [.get] whose default is the one of the table reads the same from the
    record and from the defaulted record. *)
Lemma dict_get_defaulted r key dflt :
  (list_to_map defaults : pydict) !! key = Some dflt ->
  dict_get (r ∪ list_to_map defaults) key dflt = dict_get r key dflt.
Proof.
  intros Hk. unfold dict_get. rewrite lookup_union, Hk.
  by destruct (r !! key).
Qed.

(** The defaults of the table for the attributes read with [.get]. *)
Lemma defaults_read_fields :
  let table : pydict := list_to_map defaults in
  table !! "age" = Some (VInt 35) /\
  table !! "credit_score" = Some (VInt 650) /\
  table !! "credit_history_length" = Some (VInt 7) /\
  table !! "recent_inquiries" = Some (VInt 2) /\
  table !! "property_ownership" = Some (VStr "Owned") /\
  table !! "industry_risk" = Some (VStr "Medium") /\
  table !! "geographic_risk" = Some (VStr "Medium").
Proof. vm_compute. repeat split. Qed.

Lemma calculate_behavioral_score_defaulted r :
  calculate_behavioral_score (r ∪ list_to_map defaults)
    = calculate_behavioral_score r.
Proof.
  destruct defaults_scorer_fields as (Dlp & Dut & _).
  unfold calculate_behavioral_score.
  by rewrite (dict_get_defaulted r _ _ Dlp), (dict_get_defaulted r _ _ Dut).
Qed.

Lemma calculate_financial_score_defaulted r :
  calculate_financial_score (r ∪ list_to_map defaults)
    = calculate_financial_score r.
Proof.
  destruct defaults_scorer_fields as (_ & _ & Dinc & Ddti & _).
  unfold calculate_financial_score.
  by rewrite (dict_get_defaulted r _ _ Dinc), (dict_get_defaulted r _ _ Ddti).
Qed.

Lemma calculate_stability_score_defaulted r :
  calculate_stability_score (r ∪ list_to_map defaults)
    = calculate_stability_score r.
Proof.
  destruct defaults_scorer_fields as (_ & _ & _ & _ & Del).
  destruct defaults_read_fields as (_ & _ & _ & _ & Dpo & _).
  unfold calculate_stability_score.
  by rewrite (dict_get_defaulted r _ _ Del), (dict_get_defaulted r _ _ Dpo).
Qed.

Lemma decision_of_defaulted r b f s :
  decision_of (r ∪ list_to_map defaults) b f s = decision_of r b f s.
Proof.
  destruct defaults_read_fields as (_ & _ & _ & _ & _ & Dir & Dgr).
  unfold decision_of.
  by rewrite (dict_get_defaulted r _ _ Dir), (dict_get_defaulted r _ _ Dgr).
Qed.

(** The decision as a function of the record the caller passed. *)
Lemma predict_credit_risk_raw r :
  fst (predict_credit_risk r) =
    (do b <~ calculate_behavioral_score r ;;
     do f <~ calculate_financial_score r ;;
     do s <~ calculate_stability_score r ;;
     Ok (decision_of r b f s)).
Proof.
  rewrite predict_credit_risk_result. cbn zeta.
  rewrite calculate_behavioral_score_defaulted,
    calculate_financial_score_defaulted, calculate_stability_score_defaulted.
  destruct (calculate_behavioral_score r) as [b|]; [|reflexivity].
  destruct (calculate_financial_score r) as [f|]; [|reflexivity].
  destruct (calculate_stability_score r) as [s|]; [|reflexivity].
  cbn [rbind]. by rewrite decision_of_defaulted.
Qed.

Lemma predict_credit_risk_raw_inv r res :
  fst (predict_credit_risk r) = Ok res ->
  exists b f s,
    calculate_behavioral_score r = Ok b /\
    calculate_financial_score r = Ok f /\
    calculate_stability_score r = Ok s /\
    res = decision_of r b f s.
Proof.
  rewrite predict_credit_risk_raw. intros H.
  apply rbind_ok_inv in H as (b & Eb & H).
  apply rbind_ok_inv in H as (f & Ef & H).
  apply rbind_ok_inv in H as (s & Es & H).
  injection H as <-. by exists b, f, s.
Qed.

Lemma patterns_defaulted r :
  patterns (r ∪ list_to_map defaults) = patterns r.
Proof.
  destruct defaults_scorer_fields as (_ & _ & Dinc & _ & Del).
  destruct defaults_read_fields as (Dage & Dcs & Dchl & Dri & _).
  unfold patterns.
  by rewrite !(dict_get_defaulted r _ _ Dinc), (dict_get_defaulted r _ _ Dage),
    (dict_get_defaulted r _ _ Del), (dict_get_defaulted r _ _ Dcs),
    (dict_get_defaulted r _ _ Dchl), (dict_get_defaulted r _ _ Dri).
Qed.

Lemma detect_advanced_fraud_defaulted r U :
  detect_advanced_fraud (r ∪ list_to_map defaults) U
    = detect_advanced_fraud r U.
Proof. unfold detect_advanced_fraud. by rewrite patterns_defaulted. Qed.

End Defaulting.

(** X1. After [_ensure_required_fields] the record has every attribute of
    the table of defaults: its keys are those of the input together with
    the 21 of the table, so it has at least 21 attributes. *)
Theorem ensure_required_fields_complete (r : pydict) :
  let r' := snd (_ensure_required_fields r) in
  (forall key, key ∈ defaults.*1 -> is_Some (r' !! key)) /\
  dom r' = dom r ∪ list_to_set defaults.*1 /\
  (21 <= size r')%nat.
Proof.
  cbn zeta. rewrite ensure_required_fields_state.
  assert (dom (r ∪ list_to_map defaults) = dom r ∪ list_to_set defaults.*1)
    as Hdom by (by rewrite dom_union_L, dom_list_to_map_L).
  split; [|split; [exact Hdom|]].
  - intros key Hkey. apply elem_of_dom. rewrite Hdom.
    apply elem_of_union_r. by apply elem_of_list_to_set.
  - rewrite <- size_dom, Hdom.
    assert (size (list_to_set (C:=gset string) defaults.*1) = 21%nat) as <-
      by (by vm_compute).
    apply subseteq_size. apply union_subseteq_r.
Qed.

(** X2. The default each scorer and the fraud detector pass to [.get] is
    the default of the table, so each of them returns the same on a record
    and on the defaulted record. *)
Theorem scorers_ignore_defaulting (r : pydict) (U : Q) :
  let r' := snd (_ensure_required_fields r) in
  calculate_behavioral_score r' = calculate_behavioral_score r /\
  calculate_financial_score r' = calculate_financial_score r /\
  calculate_stability_score r' = calculate_stability_score r /\
  detect_advanced_fraud r' U = detect_advanced_fraud r U.
Proof.
  cbn zeta. rewrite ensure_required_fields_state.
  split; [apply calculate_behavioral_score_defaulted|].
  split; [apply calculate_financial_score_defaulted|].
  split; [apply calculate_stability_score_defaulted|].
  apply detect_advanced_fraud_defaulted.
Qed.

(** X3. A second call of [predict_credit_risk] on the dict the first call
    left returns the same decision, or raises the same exception, and
    leaves the dict as it is. *)
Theorem predict_credit_risk_repeatable (r : pydict) :
  let r' := snd (predict_credit_risk r) in
  predict_credit_risk r' = (fst (predict_credit_risk r), r').
Proof.
  cbn zeta. apply injective_projections; cbn [fst snd].
  - rewrite (predict_credit_risk_result (snd _)), predict_credit_risk_result.
    cbn zeta. rewrite predict_credit_risk_state.
    by rewrite <- (assoc_L (∪)), (idemp_L (∪)).
  - rewrite !predict_credit_risk_state.
    by rewrite <- (assoc_L (∪)), (idemp_L (∪)).
Qed.

(** ** The values the scorers can return *)

(** Rewrites the comparisons of a value with a numeric constant once
    [as_num] of the value is known. *)
Ltac order_known Hv :=
  unfold py_lt, py_le, py_gt, py_ge in *;
  repeat match type of Hv with
         | as_num ?v = Some ?x =>
             match goal with
             | |- context [py_order ?f ?g v ?w] =>
                 rewrite (py_order_numeric f g v w x _ Hv eq_refl)
             | H : context [py_order ?f ?g v ?w] |- _ =>
                 rewrite (py_order_numeric f g v w x _ Hv eq_refl) in H
             end
         | as_num ?v = None =>
             match goal with
             | |- context [py_order ?f ?g v ?w] =>
                 rewrite (py_order_not_numeric f g v w _ Hv eq_refl)
             | |- context [py_eq v ?w] =>
                 rewrite (py_eq_not_numeric v w _ Hv eq_refl)
             | H : context [py_order ?f ?g v ?w] |- _ =>
                 rewrite (py_order_not_numeric f g v w _ Hv eq_refl) in H
             | H : context [py_eq v ?w] |- _ =>
                 rewrite (py_eq_not_numeric v w _ Hv eq_refl) in H
             end
         end;
  cbn [rbind] in *.

Ltac split_ifs :=
  repeat match goal with
         | |- context [if ?c then _ else _] => destruct c; cbn [rbind]
         end.

Section TightRanges.

Implicit Types (d r : pydict).

Lemma calculate_behavioral_score_tight d s :
  calculate_behavioral_score d = Ok s -> 550 <= s <= 730.
Proof.
  unfold calculate_behavioral_score.
  generalize (dict_get d "late_payments_90d" (VInt 0)) as lp.
  generalize (dict_get d "credit_utilization" (VFloat (Ffin 0.4))) as ut.
  intros ut lp.
  destruct (is_numeric_as_num lp) as [[_ [x Hx]]|[_ Hx]];
    destruct (is_numeric_as_num ut) as [[_ [y Hy]]|[_ Hy]];
    order_known Hx; order_known Hy; split_ifs;
    intros [= <-]; lia.
Qed.

Lemma calculate_financial_score_tight d s :
  calculate_financial_score d = Ok s -> 580 <= s <= 725.
Proof.
  unfold calculate_financial_score.
  generalize (dict_get d "income" (VInt 500000)) as income.
  generalize (dict_get d "debt_to_income" (VFloat (Ffin 0.3))) as dti.
  intros dti income.
  destruct (is_numeric_as_num income) as [[_ [x Hx]]|[_ Hx]];
    destruct (is_numeric_as_num dti) as [[_ [y Hy]]|[_ Hy]];
    order_known Hx; order_known Hy; split_ifs;
    intros [= <-]; lia.
Qed.

Lemma calculate_stability_score_tight d s :
  calculate_stability_score d = Ok s -> 615 <= s <= 715.
Proof.
  unfold calculate_stability_score.
  generalize (dict_get d "employment_length" (VInt 5)) as el.
  intros el.
  destruct (is_numeric_as_num el) as [[_ [x Hx]]|[_ Hx]];
    order_known Hx; split_ifs; intros [= <-]; lia.
Qed.

Lemma risk_adjustment_of_range (ind geo : pyval) :
  -45 <= risk_adjustment_of ind geo <= 25.
Proof.
  unfold risk_adjustment_of.
  destruct (py_eq ind (VStr "High")), (py_eq ind (VStr "Low")),
    (py_eq geo (VStr "High")), (py_eq geo (VStr "Low")); lia.
Qed.

Lemma Qtrunc_lt (x : Q) (hi : Z) :
  (0 <= x)%Q -> (x < inject_Z hi)%Q -> Qtrunc x < hi.
Proof.
  destruct x as [n d]. unfold Qtrunc, Qle, Qlt. cbn. intros H0 Hhi.
  rewrite Z.quot_div_nonneg by lia.
  apply Z.div_lt_upper_bound; lia.
Qed.

Lemma inject_Z_between (lo hi z : Z) :
  lo <= z <= hi -> (lo # 1 <= inject_Z z)%Q /\ (inject_Z z <= hi # 1)%Q.
Proof.
  intros [H1 H2]. change (lo # 1) with (inject_Z lo).
  change (hi # 1) with (inject_Z hi). by rewrite <- !Zle_Qle.
Qed.

(** The final score of a decision, before and after the clamp. *)
Lemma decision_of_final d b f s :
  550 <= b <= 730 -> 580 <= f <= 725 -> 615 <= s <= 715 ->
  let cs := component_scores (decision_of d b f s) in
  exists x : Q,
    final_score cs = NFloat x /\
    (531.75 <= x)%Q /\ (x <= 749.5)%Q /\
    credit_score (decision_of d b f s) = Qtrunc x.
Proof.
  intros Hb Hf Hs. cbn zeta. unfold decision_of.
  cbn [component_scores final_score credit_score ensemble_weights
       w_behavioral_score w_financial_score w_stability_score].
  set (adj := risk_adjustment_of _ _).
  pose proof (risk_adjustment_of_range
                (dict_get d "industry_risk" (VStr "Medium"))
                (dict_get d "geographic_risk" (VStr "Medium"))) as Hadj.
  fold adj in Hadj.
  set (x := (inject_Z b * 0.4 + inject_Z f * 0.35 + inject_Z s * 0.25
             + inject_Z adj)%Q).
  assert ((531.75 <= x)%Q /\ (x <= 749.5)%Q) as [Hlo Hhi].
  { apply inject_Z_between in Hb as [Hb1 Hb2], Hf as [Hf1 Hf2],
      Hs as [Hs1 Hs2], Hadj as [Ha1 Ha2].
    subst x. split; lra. }
  destruct (clamp_cases x) as [[_ H]|[[_ H]|[E _]]]; [lra|lra|].
  cbn zeta in E. rewrite E. exists x. auto.
Qed.

End TightRanges.

(** X4. The clamp of a component scorer never applies: the behavioral
    score is between 550 and 730, the financial score between 580 and 725,
    the stability score between 615 and 715. *)
Theorem component_scores_tight (d : pydict) :
  (forall s, calculate_behavioral_score d = Ok s -> 550 <= s <= 730) /\
  (forall s, calculate_financial_score d = Ok s -> 580 <= s <= 725) /\
  (forall s, calculate_stability_score d = Ok s -> 615 <= s <= 715).
Proof.
  split; [apply calculate_behavioral_score_tight|].
  split; [apply calculate_financial_score_tight
         |apply calculate_stability_score_tight].
Qed.

(** X5. No decision is Excellent: the final score of every decision is the
    unclamped float [ensemble_score + risk_adjustment], between 531.75 and
    749.5, so [credit_score] is between 531 and 749 and [risk_level] is
    Good, Medium, Watch or High. *)
Theorem predict_credit_risk_never_excellent (r : pydict)
    (res : CreditDecision) :
  fst (predict_credit_risk r) = Ok res ->
  (exists x : Q,
     final_score (component_scores res) = NFloat x /\
     (531.75 <= x)%Q /\ (x <= 749.5)%Q) /\
  531 <= credit_score res <= 749 /\
  In (risk_level res) ["Good"; "Medium"; "Watch"; "High"].
Proof.
  intros Hres. apply predict_credit_risk_raw_inv in Hres.
  destruct Hres as (b & f & s & Eb & Ef & Es & ->).
  apply calculate_behavioral_score_tight in Eb.
  apply calculate_financial_score_tight in Ef.
  apply calculate_stability_score_tight in Es.
  destruct (decision_of_final r b f s Eb Ef Es) as (x & Hx & Hlo & Hhi & Hcs).
  split; [by exists x|]. split.
  - rewrite Hcs.
    pose proof (Qtrunc_range x 531 749) as Hr.
    pose proof (Qtrunc_lt x 750) as Hl.
    assert (Qtrunc x < 750) by (apply Hl; [lra | by apply (Qle_lt_trans _ 749.5)]).
    assert (531 <= Qtrunc x <= 750) as [? ?].
    { apply Qtrunc_range; [lia | |]; [by apply (Qle_trans _ 531.75) |].
      by apply (Qle_trans _ 749.5). }
    lia.
  - unfold decision_of in Hx |- *. cbn [component_scores final_score] in Hx.
    cbn [risk_level]. rewrite Hx. unfold risk_classification. cbn [num_val].
    destruct (Qle_bool 750 x) eqn:E1.
    { apply Qle_bool_iff in E1. exfalso. lra. }
    destruct (Qle_bool 700 x); [cbn; auto|].
    destruct (Qle_bool 650 x); [cbn; auto|].
    destruct (Qle_bool 600 x); cbn; auto.
Qed.

Lemma predict_credit_risk_never_excellent_witness :
  exists res,
    fst (predict_credit_risk risky_record) = Ok res /\
    531 <= credit_score res <= 749 /\
    In (risk_level res) ["Good"; "Medium"; "Watch"; "High"].
Proof.
  eexists. split; [vm_compute; reflexivity|].
  apply (predict_credit_risk_never_excellent risky_record).
  vm_compute. reflexivity.
Defined.

(** ** The default probability *)

Section DefaultProbability.

Lemma Qround_half_even_between (q : Q) (a b : Z) :
  (inject_Z a <= q)%Q -> (q <= inject_Z b)%Q ->
  a <= Qround_half_even q <= b.
Proof.
  intros Ha Hb. unfold Qround_half_even.
  pose proof (Qfloor_le q) as Hf1. pose proof (Qlt_floor q) as Hf2.
  set (f := Qfloor q) in *.
  rewrite inject_Z_plus in Hf2. change (inject_Z 1) with 1%Q in Hf2.
  assert (a <= f) as Haf.
  { apply Z.lt_succ_r. rewrite Zlt_Qlt. unfold Z.succ.
    rewrite inject_Z_plus. change (inject_Z 1) with 1%Q. lra. }
  assert (f <= b) as Hfb by (rewrite Zle_Qle; lra).
  assert ((1 # 2 <= q - inject_Z f)%Q -> f + 1 <= b) as Hup.
  { intros Hr. apply Z.lt_succ_r. unfold Z.succ. apply Zplus_lt_compat_r.
    rewrite Zlt_Qlt. lra. }
  destruct (Qlt_bool (q - inject_Z f) (1 # 2)) eqn:E1; [lia|].
  apply Qlt_bool_false_iff in E1. specialize (Hup E1).
  destruct (Qlt_bool (1 # 2) (q - inject_Z f)); [lia|].
  destruct (Z.even f); lia.
Qed.

(** [round(x, ndigits)] of a float stays between two integer bounds. *)
Lemma py_round_between (q : Q) (ndigits a b : Z) :
  0 <= ndigits -> 0 <= a -> b < 2 ^ 53 ->
  (inject_Z a <= q)%Q -> (q <= inject_Z b)%Q ->
  (inject_Z a <= num_val (py_round (NFloat q) ndigits))%Q /\
  (num_val (py_round (NFloat q) ndigits) <= inject_Z b)%Q.
Proof.
  intros Hnd Ha Hb H1 H2. unfold py_round. cbn [num_val].
  assert (0 < 10 ^ ndigits) as Hp by (apply Z.pow_pos_nonneg; lia).
  assert (0 < inject_Z (10 ^ ndigits))%Q as Hpq
    by (change 0%Q with (inject_Z 0); by rewrite <- Zlt_Qlt).
  set (p := 10 ^ ndigits) in *.
  destruct (Qround_half_even_between (q * inject_Z p) (a * p) (b * p))
    as [G1 G2].
  { rewrite inject_Z_mult. by apply Qmult_le_compat_r; [|apply Qlt_le_weak]. }
  { rewrite inject_Z_mult. by apply Qmult_le_compat_r; [|apply Qlt_le_weak]. }
  rewrite Zle_Qle, inject_Z_mult in G1. rewrite Zle_Qle, inject_Z_mult in G2.
  set (R := inject_Z (Qround_half_even (q * inject_Z p))) in *.
  assert (0 <= inject_Z a)%Q as Ha0
    by (change 0%Q with (inject_Z 0); by rewrite <- Zle_Qle).
  assert (inject_Z a <= R / inject_Z p)%Q as L1
    by (apply Qle_shift_div_l; assumption).
  assert (R / inject_Z p <= inject_Z b)%Q as L2
    by (apply Qle_shift_div_r; assumption).
  assert (a <= b) as Hab by (rewrite Zle_Qle; lra).
  split.
  - apply b64_ge; [exact Ha0|exact L1|]. apply b64_small_int. lia.
  - apply b64_le; [lra|exact L2|]. apply b64_small_int. lia.
Qed.

(** Integer bounds on the quotient [(850 - final_score) / d]. *)
Lemma distance_from_top_ge (final_score : pynum) (d lo : Z) :
  0 < d < 2 ^ 53 -> 0 <= lo -> lo * d < 2 ^ 53 ->
  (inject_Z (lo * d) <= 850 - num_val final_score)%Q ->
  (inject_Z lo <= num_val (distance_from_top final_score d))%Q.
Proof.
  intros Hd Hlo Hlod H.
  assert (0 < inject_Z d)%Q as Hdq
    by (change 0%Q with (inject_Z 0); rewrite <- Zlt_Qlt; lia).
  assert (0 <= inject_Z lo)%Q as Hlo0
    by (change 0%Q with (inject_Z 0); by rewrite <- Zle_Qle).
  assert (0 <= inject_Z (lo * d))%Q as Hlod0
    by (change 0%Q with (inject_Z 0); rewrite <- Zle_Qle; nia).
  assert (lo < 2 ^ 53) as Hlo53 by nia.
  rewrite inject_Z_mult in H.
  destruct final_score as [z|x]; unfold distance_from_top; cbn [num_val] in *.
  - apply b64_ge; [exact Hlo0| |apply b64_small_int; lia].
    apply Qle_shift_div_l; [exact Hdq|].
    unfold Z.sub. rewrite inject_Z_plus, inject_Z_opp. exact H.
  - unfold fdiv, fsub, of_int.
    rewrite (b64_small_int 850) by lia. rewrite (b64_small_int d) by lia.
    apply b64_ge; [exact Hlo0| |apply b64_small_int; lia].
    apply Qle_shift_div_l; [exact Hdq|].
    rewrite <- inject_Z_mult.
    apply b64_ge; [rewrite inject_Z_mult; nra| |apply b64_small_int; nia].
    rewrite inject_Z_mult. exact H.
Qed.

Lemma distance_from_top_le (final_score : pynum) (d hi : Z) :
  0 < d < 2 ^ 53 -> 0 <= hi -> hi * d < 2 ^ 53 ->
  (0 <= 850 - num_val final_score)%Q ->
  (850 - num_val final_score <= inject_Z (hi * d))%Q ->
  (num_val (distance_from_top final_score d) <= inject_Z hi)%Q.
Proof.
  intros Hd Hhi Hhid H0 H.
  assert (0 < inject_Z d)%Q as Hdq
    by (change 0%Q with (inject_Z 0); rewrite <- Zlt_Qlt; lia).
  assert (hi < 2 ^ 53) as Hhi53 by nia.
  rewrite inject_Z_mult in H.
  destruct final_score as [z|x]; unfold distance_from_top; cbn [num_val] in *.
  - unfold Z.sub. rewrite inject_Z_plus, inject_Z_opp.
    apply b64_le; [|apply Qle_shift_div_r|apply b64_small_int; lia];
      [|exact Hdq|exact H].
    apply Qle_shift_div_l; [exact Hdq|].
    rewrite Qmult_0_l. change (inject_Z 850) with 850%Q. exact H0.
  - unfold fdiv, fsub, of_int.
    rewrite (b64_small_int 850) by lia. rewrite (b64_small_int d) by lia.
    pose proof (b64_nonneg _ H0) as B0.
    assert (b64 (inject_Z 850 - x) <= inject_Z (hi * d))%Q as B1.
    { apply b64_le; [exact H0| |apply b64_small_int; nia].
      rewrite inject_Z_mult. exact H. }
    rewrite inject_Z_mult in B1.
    apply b64_le; [|apply Qle_shift_div_r|apply b64_small_int; lia];
      [|exact Hdq|exact B1].
    apply Qle_shift_div_l; [exact Hdq|]. rewrite Qmult_0_l. exact B0.
Qed.

(** Medium, Watch and High: the quotient exceeds the upper bound of the
    tier, so the default probability is that bound. *)
Lemma risk_classification_saturated (final_score : pynum) :
  let v := num_val final_score in
  let dp := snd (fst (risk_classification final_score)) in
  ((650 <= v)%Q -> (v < 700)%Q -> dp = NInt 25) /\
  ((600 <= v)%Q -> (v < 650)%Q -> dp = NInt 35) /\
  ((v < 600)%Q -> dp = NInt 50).
Proof.
  cbn zeta. unfold risk_classification.
  assert (forall (c k : Z) (lo : pynum),
            0 < c < 2 ^ 53 -> 0 <= k -> k * c < 2 ^ 53 ->
            (inject_Z (k * c) <= 850 - num_val final_score)%Q ->
            Qlt_bool (num_val lo) (inject_Z k) = true ->
            py_max lo (py_min (NInt k) (distance_from_top final_score c))
              = NInt k) as Hsat.
  { intros c k lo Hc Hk0 Hkc Hk Hlo. unfold py_min. cbn [num_val].
    pose proof (distance_from_top_ge final_score c k Hc Hk0 Hkc Hk) as G.
    assert (Qlt_bool (num_val (distance_from_top final_score c)) (inject_Z k)
            = false) as -> by (by apply Qlt_bool_false_iff).
    unfold py_max. cbn [num_val]. by rewrite Hlo. }
  set (v := num_val final_score) in *.
  split; [|split].
  - intros H1 H2.
    destruct (Qle_bool 750 v) eqn:E1; [apply Qle_bool_iff in E1; lra|].
    destruct (Qle_bool 700 v) eqn:E2; [apply Qle_bool_iff in E2; lra|].
    destruct (Qle_bool 650 v) eqn:E3;
      [|apply Qle_bool_false_iff in E3; lra].
    cbn [fst snd]. apply Hsat; [lia|lia|lia| |reflexivity].
    change (inject_Z (25 * 6))%Q with 150%Q. lra.
  - intros H1 H2.
    destruct (Qle_bool 750 v) eqn:E1; [apply Qle_bool_iff in E1; lra|].
    destruct (Qle_bool 700 v) eqn:E2; [apply Qle_bool_iff in E2; lra|].
    destruct (Qle_bool 650 v) eqn:E3; [apply Qle_bool_iff in E3; lra|].
    destruct (Qle_bool 600 v) eqn:E4;
      [|apply Qle_bool_false_iff in E4; lra].
    cbn [fst snd]. apply Hsat; [lia|lia|lia| |reflexivity].
    change (inject_Z (35 * 4))%Q with 140%Q. lra.
  - intros H1.
    destruct (Qle_bool 750 v) eqn:E1; [apply Qle_bool_iff in E1; lra|].
    destruct (Qle_bool 700 v) eqn:E2; [apply Qle_bool_iff in E2; lra|].
    destruct (Qle_bool 650 v) eqn:E3; [apply Qle_bool_iff in E3; lra|].
    destruct (Qle_bool 600 v) eqn:E4; [apply Qle_bool_iff in E4; lra|].
    cbn [fst snd]. apply Hsat; [lia|lia|lia| |reflexivity].
    change (inject_Z (50 * 3))%Q with 150%Q. lra.
Qed.

(** Good: the quotient stays inside the bounds of the tier. *)
Lemma risk_classification_good (x : Q) :
  (700 <= x)%Q -> (x <= 749.5)%Q ->
  let dp := snd (fst (risk_classification (NFloat x))) in
  dp = NInt 15 \/
  exists q, dp = NFloat q /\ (10 <= q)%Q /\ (q <= 15)%Q.
Proof.
  intros H1 H2. cbn zeta. unfold risk_classification.
  cbn [num_val].
  destruct (Qle_bool 750 x) eqn:E1; [apply Qle_bool_iff in E1; lra|].
  destruct (Qle_bool 700 x) eqn:E2; [|apply Qle_bool_false_iff in E2; lra].
  cbn [fst snd].
  pose proof (distance_from_top_ge (NFloat x) 10 10) as G1.
  pose proof (distance_from_top_le (NFloat x) 10 15) as G2.
  cbn [num_val] in G1, G2.
  change (inject_Z (10 * 10)) with 100%Q in G1.
  change (inject_Z (15 * 10)) with 150%Q in G2.
  change (inject_Z 10) with 10%Q in G1. change (inject_Z 15) with 15%Q in G2.
  specialize (G1 ltac:(lia) ltac:(lia) ltac:(lia) ltac:(lra)).
  specialize (G2 ltac:(lia) ltac:(lia) ltac:(lia) ltac:(lra) ltac:(lra)).
  destruct (distance_from_top (NFloat x) 10) as [z|q] eqn:Eq;
    [unfold distance_from_top in Eq; discriminate|].
  cbn [num_val] in G1, G2.
  unfold py_min. cbn [num_val]. change (inject_Z 15) with 15%Q.
  destruct (Qlt_bool q 15) eqn:E.
  - right. exists q. split; [|by split].
    unfold py_max. cbn [num_val]. change (inject_Z 5) with 5%Q.
    assert (Qlt_bool 5 q = true) as ->; [|reflexivity].
    apply Qlt_bool_iff. lra.
  - left. reflexivity.
Qed.

End DefaultProbability.

(** X6. The default probability of a decision is the constant 25 for
    Medium, 35 for Watch and 50 for High, whatever the score; for Good it
    is between 10 and 15; so it is never below 10 nor above 50. *)
Theorem default_probability_values (r : pydict) (res : CreditDecision) :
  fst (predict_credit_risk r) = Ok res ->
  (risk_level res = "Medium" -> default_probability res = NInt 25) /\
  (risk_level res = "Watch" -> default_probability res = NInt 35) /\
  (risk_level res = "High" -> default_probability res = NInt 50) /\
  (risk_level res = "Good" ->
     (10 <= num_val (default_probability res))%Q /\
     (num_val (default_probability res) <= 15)%Q) /\
  (10 <= num_val (default_probability res))%Q /\
  (num_val (default_probability res) <= 50)%Q.
Proof.
  intros Hres. apply predict_credit_risk_raw_inv in Hres.
  destruct Hres as (b & f & s & Eb & Ef & Es & ->).
  apply calculate_behavioral_score_tight in Eb.
  apply calculate_financial_score_tight in Ef.
  apply calculate_stability_score_tight in Es.
  destruct (decision_of_final r b f s Eb Ef Es) as (x & Hx & Hlo & Hhi & _).
  unfold decision_of in Hx |- *. cbn [component_scores final_score] in Hx.
  cbn [risk_level default_probability]. rewrite Hx. clear Hx.
  destruct (risk_classification_saturated (NFloat x)) as (Hm & Hw & Hh).
  cbn zeta in Hm, Hw, Hh. cbn [num_val] in Hm, Hw, Hh.
  pose proof (risk_classification_good x) as Hg. cbn zeta in Hg.
  assert (Hcases :
    (risk_classification (NFloat x)).1.1 = "Good" /\ (700 <= x)%Q \/
    (risk_classification (NFloat x)).1.1 = "Medium"
      /\ (650 <= x)%Q /\ (x < 700)%Q \/
    (risk_classification (NFloat x)).1.1 = "Watch"
      /\ (600 <= x)%Q /\ (x < 650)%Q \/
    (risk_classification (NFloat x)).1.1 = "High" /\ (x < 600)%Q).
  { unfold risk_classification. cbn [num_val].
    destruct (Qle_bool 750 x) eqn:E1; [apply Qle_bool_iff in E1; lra|].
    apply Qle_bool_false_iff in E1.
    destruct (Qle_bool 700 x) eqn:E2;
      [apply Qle_bool_iff in E2; cbn; auto|].
    apply Qle_bool_false_iff in E2.
    destruct (Qle_bool 650 x) eqn:E3;
      [apply Qle_bool_iff in E3; cbn; auto|].
    apply Qle_bool_false_iff in E3.
    destruct (Qle_bool 600 x) eqn:E4;
      [apply Qle_bool_iff in E4; cbn; auto 6|].
    apply Qle_bool_false_iff in E4. cbn. auto 6. }
  assert (Hgood : (700 <= x)%Q ->
    (10 <= num_val (py_round (risk_classification (NFloat x)).1.2 1))%Q /\
    (num_val (py_round (risk_classification (NFloat x)).1.2 1) <= 15)%Q).
  { intros H7. destruct (Hg H7 Hhi) as [->|(q & -> & Hq1 & Hq2)].
    - cbn. split; by vm_compute.
    - destruct (py_round_between q 1 10 15) as [G1 G2];
        [lia|lia|lia|exact Hq1|exact Hq2|].
      by split. }
  destruct Hcases as [[-> H7]|[[-> [H1 H2]]|[[-> [H1 H2]]|[-> H1]]]].
  - specialize (Hgood H7). destruct Hgood as [G1 G2].
    split_and!; try discriminate; try (intros _; by split); try done.
    by apply (Qle_trans _ 15).
  - rewrite (Hm H1 H2). cbn [py_round num_val].
    split_and!; try discriminate; try reflexivity; by vm_compute.
  - rewrite (Hw H1 H2). cbn [py_round num_val].
    split_and!; try discriminate; try reflexivity; by vm_compute.
  - rewrite (Hh H1). cbn [py_round num_val].
    split_and!; try discriminate; try reflexivity; by vm_compute.
Qed.

Lemma default_probability_values_witness :
  exists res,
    fst (predict_credit_risk example_record) = Ok res /\
    risk_level res = "Medium" /\ default_probability res = NInt 25.
Proof.
  eexists. split; [vm_compute; reflexivity|].
  split; [vm_compute; reflexivity|].
  apply (default_probability_values example_record); vm_compute; reflexivity.
Defined.

(** ** More on the fraud detector *)

Section FraudBounds.

Implicit Types (d : pydict) (ps : list (bool * string)).

Lemma patterns_names d ps : patterns d = Ok ps -> map snd ps = pattern_names.
Proof.
  unfold patterns. intros H.
  apply rbind_ok_inv in H as (c1 & _ & H).
  apply rbind_ok_inv in H as (c2 & _ & H).
  apply rbind_ok_inv in H as (c3 & _ & H).
  apply rbind_ok_inv in H as (c4 & _ & H).
  by injection H as <-.
Qed.

Lemma detect_advanced_fraud_patterns_inv d U res :
  detect_advanced_fraud d U = Ok res ->
  exists ps,
    patterns d = Ok ps /\
    fraud_patterns res = map snd (List.filter fst ps).
Proof.
  unfold detect_advanced_fraud.
  destruct (patterns d) as [ps|]; [|discriminate]. cbn [rbind].
  rewrite count_patterns_acc. cbn [app]. intros H.
  pose proof (f_equal (fun c => match c with
                                | Ok a => a
                                | Raise _ => res
                                end) H) as <-.
  exists ps. split; reflexivity.
Qed.

Lemma true_names_sublist ps :
  sublist (map snd (List.filter fst ps)) (map snd ps).
Proof.
  induction ps as [|[[|] name] rest IH]; cbn.
  - constructor.
  - by constructor.
  - by constructor.
Qed.

(** [round(x, 4)] of a float between 0 and 1 is between 0 and 1. *)
Lemma py_round4_unit (q : Q) :
  (0 <= q)%Q -> (q <= 1)%Q ->
  (0 <= num_val (py_round (NFloat q) 4))%Q /\
  (num_val (py_round (NFloat q) 4) <= 1)%Q.
Proof.
  intros H0 H1. apply (py_round_between q 4 0 1); try lia; assumption.
Qed.

Lemma py_round4_one (q : Q) :
  (q == 1)%Q -> (num_val (py_round (NFloat q) 4) == 1)%Q.
Proof.
  intros Hq.
  destruct (py_round_between q 4 1 1) as [G1 G2]; try lia;
    try (change (inject_Z 1) with 1%Q; lra).
  change (inject_Z 1) with 1%Q in G1, G2. lra.
Qed.

End FraudBounds.

(** X7. An assessment has between 0 and 4 indicators, as many as it has
    patterns; its patterns are names of the list [patterns], in the order
    of that list; and for a draw that is not negative its [fraud_score] is
    between 0 and 1. *)
Theorem detect_advanced_fraud_bounds (d : pydict) (U : Q)
    (res : FraudAssessment) :
  (0 <= U)%Q ->
  detect_advanced_fraud d U = Ok res ->
  0 <= fraud_indicators res <= 4 /\
  fraud_indicators res = Z.of_nat (length (fraud_patterns res)) /\
  sublist (fraud_patterns res) pattern_names /\
  (0 <= fraud_score res)%Q /\ (fraud_score res <= 1)%Q.
Proof.
  intros HU Hres.
  destruct (detect_advanced_fraud_patterns_inv d U res Hres)
    as (ps & Hps & Hnames).
  apply detect_advanced_fraud_ok_inv in Hres. cbn zeta in Hres.
  destruct Hres as (_ & Hscore & Hind & _).
  pose proof (indicator_count_range d) as Hrange.
  split; [by rewrite Hind|]. split.
  - rewrite Hind, Hnames, length_true_names.
    unfold indicator_count. by rewrite (patterns_conditions d ps Hps).
  - split.
    + rewrite Hnames, <- (patterns_names d ps Hps). apply true_names_sublist.
    + rewrite Hscore. apply py_round4_unit;
        apply fraud_score_of_range; (lia || done).
Qed.

Lemma detect_advanced_fraud_bounds_witness :
  exists res,
    detect_advanced_fraud example_record 0.1 = Ok res /\
    0 <= fraud_indicators res <= 4 /\
    sublist (fraud_patterns res) pattern_names.
Proof.
  eexists. split; [vm_compute; reflexivity|].
  assert ((0 <= 0.1)%Q) as H0 by (by vm_compute).
  destruct (detect_advanced_fraud_bounds example_record 0.1 _ H0 eq_refl)
    as (H1 & _ & H2 & _).
  split; [exact H1|exact H2].
Defined.

(** X8. For a draw in [0, 0.2) the number of indicators decides the flag
    except at two: three or four indicators always flag; two indicators
    never flag for a draw of at most 0.15 and always flag for a draw of at
    least 0.15 + 2^-52 (between the two the rounding of the float sum
    decides); High confidence needs at least three indicators; four
    indicators give High confidence and the score 1; and a flagged
    assessment never has Low confidence. *)
Theorem detect_advanced_fraud_by_count (d : pydict) (U : Q)
    (res : FraudAssessment) :
  (0 <= U)%Q -> (U < 0.2)%Q ->
  detect_advanced_fraud d U = Ok res ->
  (3 <= fraud_indicators res -> is_fraud res = true) /\
  (fraud_indicators res = 2 ->
     ((U <= 0.15)%Q -> is_fraud res = false) /\
     ((0.15 + 2 ^ (-52) <= U)%Q -> is_fraud res = true)) /\
  (confidence res = "High" -> 3 <= fraud_indicators res) /\
  (fraud_indicators res = 4 ->
     confidence res = "High" /\ (fraud_score res == 1)%Q) /\
  (is_fraud res = true -> confidence res = "Medium" \/ confidence res = "High").
Proof.
  intros HU0 HU1 Hres.
  apply detect_advanced_fraud_ok_inv in Hres. cbn zeta in Hres.
  destruct Hres as (Hfraud & Hscore & Hind & Hconf).
  pose proof (indicator_count_range d) as Hrange.
  pose proof (fraud_score_of_range _ U Hrange HU0) as [R0 R1].
  pose proof (fraud_score_of_near _ U Hrange HU0 HU1) as Hnear.
  cbn zeta in Hnear.
  rewrite <- (fraud_score_of_min _ U Hrange) in Hnear.
  destruct Hnear as [_ N2].
  pose proof (fun hi => fraud_score_of_le _ U hi Hrange HU0) as Hle.
  pose proof (fun lo => fraud_score_of_ge _ U lo Hrange) as Hge.
  rewrite Hind, Hfraud, Hconf, Hscore. clear Hfraud Hconf Hind Hscore.
  set (n := indicator_count d) in *. clearbody n.
  set (fs := fraud_score_of n U) in *. clearbody fs.
  assert (b64 0.65 == 5854679515581645 # 9007199254740992)%Q as T65
    by (by vm_compute).
  assert (b64 0.8 == 3602879701896397 # 4503599627370496)%Q as T8
    by (by vm_compute).
  assert (b64 0.6 == 5404319552844595 # 9007199254740992)%Q as T6
    by (by vm_compute).
  assert (b64 (b64 0.65) == b64 0.65)%Q as F65 by (by vm_compute).
  assert (2 ^ (-53) == 1 # 9007199254740992)%Q as E53 by reflexivity.
  assert (2 ^ (-52) == 1 # 4503599627370496)%Q as E52 by reflexivity.
  set (t65 := b64 0.65) in *. set (t8 := b64 0.8) in *.
  set (t6 := b64 0.6) in *.
  set (e53 := (2 ^ (-53))%Q) in *. set (e52 := (2 ^ (-52))%Q) in *.
  assert (3 <= n -> ((3 # 4) <= fs)%Q) as H3.
  { intros Hn. apply Hge; [lra|lra|by vm_compute|].
    assert (3 <= inject_Z n)%Q
      by (change 3%Q with (inject_Z 3); by rewrite <- Zle_Qle).
    lra. }
  assert (n <= 2 -> (fs <= (3 # 4))%Q) as H2.
  { intros Hn. apply Hle; [by vm_compute|].
    assert (inject_Z n <= 2)%Q
      by (change 2%Q with (inject_Z 2); by rewrite <- Zle_Qle).
    lra. }
  assert (n = 4 -> (1 <= fs)%Q) as H4.
  { intros ->. apply Hge; [lra|lra|by vm_compute|].
    unfold inject_Z. lra. }
  assert (n = 2 -> (U <= 0.15)%Q -> (fs <= t65)%Q) as HA.
  { intros -> HU. apply Hle; [exact F65|]. unfold inject_Z. lra. }
  assert (n = 2 -> (0.15 + e52 <= U)%Q -> (t65 < fs)%Q) as HB.
  { intros -> HU. unfold inject_Z in N2.
    destruct (Q.min_spec 1 (2 * 0.25 + U)) as [[Hc Hm]|[Hc Hm]];
      rewrite Hm in N2; lra. }
  clear Hle Hge N2.
  split.
  { intros Hn. apply Qlt_bool_iff. specialize (H3 Hn). lra. }
  split.
  { intros Hn. split; intros HU.
    - apply Qlt_bool_false_iff. exact (HA Hn HU).
    - apply Qlt_bool_iff. exact (HB Hn HU). }
  split.
  { intros Hhigh. destruct (Z_le_gt_dec n 2) as [Hl|Hg]; [|lia].
    exfalso. specialize (H2 Hl).
    destruct (Qlt_bool t8 fs) eqn:E8; [apply Qlt_bool_iff in E8; lra|].
    destruct (Qlt_bool t6 fs); discriminate. }
  split.
  { intros Hn. specialize (H4 Hn). split.
    - assert (Qlt_bool t8 fs = true) as -> by (apply Qlt_bool_iff; lra).
      reflexivity.
    - apply py_round4_one. lra. }
  intros Hf. apply Qlt_bool_iff in Hf.
  destruct (Qlt_bool t8 fs); [by right|].
  assert (Qlt_bool t6 fs = true) as -> by (apply Qlt_bool_iff; lra).
  by left.
Qed.

Lemma detect_advanced_fraud_by_count_witness :
  exists res,
    detect_advanced_fraud example_record 0.1 = Ok res /\
    fraud_indicators res = 3 /\ is_fraud res = true.
Proof.
  eexists. split; [vm_compute; reflexivity|].
  split; [vm_compute; reflexivity|].
  assert ((0 <= 0.1)%Q) as H0 by (by vm_compute).
  assert ((0.1 < 0.2)%Q) as H1 by (by vm_compute).
  destruct (detect_advanced_fraud_by_count example_record 0.1 _ H0 H1 eq_refl)
    as (H3 & _).
  apply H3. by vm_compute.
Defined.


Section FraudErrors.

Implicit Types (d : pydict).

Lemma patterns_typing d :
  match patterns d with
  | Ok _ => fraud_type_error d = false
  | Raise e => e = TypeError /\ fraud_type_error d = true
  end.
Proof.
  unfold patterns, fraud_type_error, and_then.
  generalize (dict_get d "income" (VInt 500000)) as income.
  generalize (dict_get d "age" (VInt 35)) as age.
  generalize (dict_get d "employment_length" (VInt 5)) as el.
  generalize (dict_get d "credit_score" (VInt 650)) as cs.
  generalize (dict_get d "credit_history_length" (VInt 7)) as chl.
  generalize (dict_get d "recent_inquiries" (VInt 2)) as ri.
  intros ri chl cs el age income.
  destruct (is_numeric_as_num income) as [[-> [xi Hi]]|[-> Hi]];
    order_known Hi; cbn [negb orb andb holds].
  2: by split.
  destruct (float_ltb (Ffin (inject_Z 2000000)) xi) eqn:E1;
    cbn [rbind negb orb andb holds].
  - destruct (is_numeric_as_num age) as [[-> [xa Ha]]|[-> Ha]];
      order_known Ha; cbn [negb orb andb holds rbind].
    2: by split.
    destruct (is_numeric_as_num el) as [[-> [xe He]]|[-> He]];
      order_known He; cbn [negb orb andb holds rbind].
    2: by split.
    destruct (is_numeric_as_num cs) as [[-> [xc Hc]]|[-> Hc]];
      order_known Hc; cbn [negb orb andb holds rbind].
    2: { split_ifs; by split. }
    destruct (float_ltb (Ffin (inject_Z 800)) xc) eqn:E3;
      cbn [rbind negb orb andb holds].
    + destruct (is_numeric_as_num chl) as [[-> [xh Hh]]|[-> Hh]];
        order_known Hh; cbn [negb orb andb holds rbind].
      2: { split_ifs; by split. }
      destruct (is_numeric_as_num ri) as [[-> [xr Hr]]|[-> Hr]];
        order_known Hr; cbn [negb orb andb holds rbind];
        split_ifs; (reflexivity || by split).
    + destruct (is_numeric_as_num ri) as [[-> [xr Hr]]|[-> Hr]];
        order_known Hr; cbn [negb orb andb holds rbind];
        destruct (is_numeric chl);
        split_ifs; (reflexivity || by split).
  - destruct (is_numeric_as_num el) as [[-> [xe He]]|[-> He]];
      order_known He; cbn [negb orb andb holds rbind].
    2: { destruct (is_numeric age); by split. }
    destruct (is_numeric_as_num cs) as [[-> [xc Hc]]|[-> Hc]];
      order_known Hc; cbn [negb orb andb holds rbind].
    2: { destruct (is_numeric age); split_ifs; by split. }
    destruct (float_ltb (Ffin (inject_Z 800)) xc) eqn:E3;
      cbn [rbind negb orb andb holds].
    + destruct (is_numeric_as_num chl) as [[-> [xh Hh]]|[-> Hh]];
        order_known Hh; cbn [negb orb andb holds rbind].
      2: { destruct (is_numeric age); split_ifs; by split. }
      destruct (is_numeric_as_num ri) as [[-> [xr Hr]]|[-> Hr]];
        order_known Hr; cbn [negb orb andb holds rbind];
        destruct (is_numeric age);
        split_ifs; (reflexivity || by split).
    + destruct (is_numeric_as_num ri) as [[-> [xr Hr]]|[-> Hr]];
        order_known Hr; cbn [negb orb andb holds rbind];
        destruct (is_numeric age), (is_numeric chl);
        split_ifs; (reflexivity || by split).
Qed.

End FraudErrors.

(** X9. [detect_advanced_fraud] raises [TypeError], and nothing else,
    exactly on the records where a comparison it makes meets a value that
    is not a number; [age] is compared only when [income] exceeds
    2,000,000 and [credit_history_length] only when [credit_score] exceeds
    800, so a malformed value there goes unnoticed otherwise. *)
Theorem detect_advanced_fraud_type_error (d : pydict) (U : Q) :
  (fraud_type_error d = true -> detect_advanced_fraud d U = Raise TypeError) /\
  (fraud_type_error d = false ->
     exists res, detect_advanced_fraud d U = Ok res).
Proof.
  pose proof (patterns_typing d) as H. unfold detect_advanced_fraud.
  destruct (patterns d) as [ps|e]; cbn [rbind].
  - split; [intros E; congruence|]. intros _.
    destruct (count_patterns ps (0, [])) as [n l]. eauto.
  - destruct H as [-> H]. split; [reflexivity|]. intros E. congruence.
Qed.

(** ** The decision of the pages *)

Section Pages.

Implicit Types (d r : pydict).

Lemma Qtrunc_ge_iff (x : Q) (k : Z) :
  (0 <= x)%Q -> k <= Qtrunc x <-> (inject_Z k <= x)%Q.
Proof.
  destruct x as [n p]. unfold Qtrunc, Qle. cbn. intros H0.
  rewrite Z.quot_div_nonneg by lia. split.
  - intros Hk. pose proof (Z.mul_div_le n (Z.pos p) ltac:(lia)). nia.
  - intros Hk. apply Z.div_le_lower_bound; lia.
Qed.

(** The category of the truncated score is the tier of the score. *)
Lemma risk_category_trunc (x : Q) :
  (0 <= x)%Q -> risk_category (Qtrunc x) = tier_of (NFloat x).
Proof.
  intros H0. unfold risk_category, tier_of, risk_classification.
  cbn [num_val].
  assert (forall k : Z, (k <=? Qtrunc x)%Z = Qle_bool (inject_Z k) x) as Hk.
  { intros k. apply eq_true_iff_eq.
    by rewrite Z.leb_le, Qle_bool_iff, Qtrunc_ge_iff. }
  rewrite !Hk.
  change (inject_Z 750) with 750%Q. change (inject_Z 700) with 700%Q.
  change (inject_Z 650) with 650%Q. change (inject_Z 600) with 600%Q.
  destruct (Qle_bool 750 x); [reflexivity|].
  destruct (Qle_bool 700 x); [reflexivity|].
  destruct (Qle_bool 650 x); [reflexivity|].
  destruct (Qle_bool 600 x); reflexivity.
Qed.

(** What a decision holds, by its final score. *)
Lemma predict_credit_risk_final_inv r res :
  fst (predict_credit_risk r) = Ok res ->
  exists x : Q,
    (531.75 <= x)%Q /\ (x <= 749.5)%Q /\
    credit_score res = Qtrunc x /\
    risk_level res = tier_of (NFloat x).
Proof.
  intros Hres. apply predict_credit_risk_raw_inv in Hres.
  destruct Hres as (b & f & s & Eb & Ef & Es & ->).
  apply calculate_behavioral_score_tight in Eb.
  apply calculate_financial_score_tight in Ef.
  apply calculate_stability_score_tight in Es.
  destruct (decision_of_final r b f s Eb Ef Es) as (x & Hx & Hlo & Hhi & Hcs).
  exists x. split; [exact Hlo|]. split; [exact Hhi|]. split; [exact Hcs|].
  unfold decision_of in Hx |- *. cbn [component_scores final_score] in Hx.
  cbn [risk_level]. by rewrite Hx.
Qed.

Lemma three_indicators_flag (n : Z) (U : Q) :
  3 <= n <= 4 -> (0 <= U)%Q ->
  Qlt_bool (b64 0.65) (fraud_score_of n U) = true.
Proof.
  intros Hn HU. apply Qlt_bool_iff.
  assert (3 <= inject_Z n)%Q
    by (change 3%Q with (inject_Z 3); rewrite <- Zle_Qle; lia).
  eapply Qlt_le_trans;
    [|apply (fraud_score_of_ge n U (3 # 4));
      [lia|lra|lra|by vm_compute|lra]].
  by vm_compute.
Qed.

Lemma analyse_application_state r U :
  snd (analyse_application U r) = r ∪ list_to_map defaults.
Proof.
  unfold analyse_application, mbind, mget, mlift, mret.
  pose proof (predict_credit_risk_state r) as Hst.
  destruct (predict_credit_risk r) as [[c|e] d']; cbn [snd] in Hst;
    subst d'; [|reflexivity].
  by destruct (detect_advanced_fraud _ U).
Qed.

Lemma analyse_application_result r U :
  fst (analyse_application U r) =
    (do credit_result <~ fst (predict_credit_risk r) ;;
     do fraud_result <~ detect_advanced_fraud r U ;;
     Ok (credit_result, fraud_result,
         application_decision credit_result fraud_result)).
Proof.
  unfold analyse_application, mbind, mget, mlift, mret.
  pose proof (predict_credit_risk_state r) as Hst.
  destruct (predict_credit_risk r) as [[c|e] d']; cbn [fst snd] in *;
    subst d'; [|reflexivity].
  rewrite detect_advanced_fraud_defaulted.
  by destruct (detect_advanced_fraud r U).
Qed.

Lemma application_decision_cases credit_result fraud_result :
  (application_decision credit_result fraud_result = "Approved" /\
   (risk_level credit_result = "Excellent"
    \/ risk_level credit_result = "Good") /\
   is_fraud fraud_result = false) \/
  (application_decision credit_result fraud_result = "Review Required" /\
   ((risk_level credit_result <> "Excellent"
     /\ risk_level credit_result <> "Good")
    \/ is_fraud fraud_result = true)).
Proof.
  unfold application_decision, str_in. cbn [existsb].
  destruct (String.eqb_spec (risk_level credit_result) "Excellent") as [E1|E1];
    destruct (String.eqb_spec (risk_level credit_result) "Good") as [E2|E2];
    destruct (is_fraud fraud_result); cbn; auto 6.
Qed.

End Pages.

(** X10. In [show_application_analysis] the fraud detector runs on the dict
    that [predict_credit_risk] has filled, and returns what it returns on
    the record as it was passed.  The decision is Approved exactly when the
    risk level is Good and no fraud is flagged, and is Review Required
    otherwise; an approved application has a credit score between 700 and
    749 and at most two fraud indicators. *)
Theorem analyse_application_decision (r : pydict) (U : Q)
    (credit_result : CreditDecision) (fraud_result : FraudAssessment)
    (decision : string) :
  (0 <= U)%Q ->
  fst (analyse_application U r) = Ok (credit_result, fraud_result, decision) ->
  fst (predict_credit_risk r) = Ok credit_result /\
  detect_advanced_fraud r U = Ok fraud_result /\
  (decision = "Approved" <->
     risk_level credit_result = "Good" /\ is_fraud fraud_result = false) /\
  (decision = "Approved" \/ decision = "Review Required") /\
  (decision = "Approved" ->
     700 <= credit_score credit_result <= 749 /\
     fraud_indicators fraud_result <= 2).
Proof.
  intros HU H. rewrite analyse_application_result in H.
  apply rbind_ok_inv in H as (c & Hc & H).
  apply rbind_ok_inv in H as (f & Hf & H).
  injection H as -> -> <-.
  split; [exact Hc|]. split; [exact Hf|].
  destruct (predict_credit_risk_final_inv r _ Hc) as (x & Hlo & Hhi & Hcs & Hrl).
  assert (risk_level credit_result <> "Excellent") as Hne.
  { rewrite Hrl. unfold tier_of, risk_classification. cbn [num_val].
    destruct (Qle_bool 750 x) eqn:E; [apply Qle_bool_iff in E; lra|].
    destruct (Qle_bool 700 x); [discriminate|].
    destruct (Qle_bool 650 x); [discriminate|].
    destruct (Qle_bool 600 x); discriminate. }
  assert (risk_level credit_result = "Good" -> (700 <= x)%Q) as Hgood.
  { rewrite Hrl. unfold tier_of, risk_classification. cbn [num_val].
    destruct (Qle_bool 750 x) eqn:E; [apply Qle_bool_iff in E; lra|].
    destruct (Qle_bool 700 x) eqn:E7; [by apply Qle_bool_iff in E7|].
    destruct (Qle_bool 650 x); [discriminate|].
    destruct (Qle_bool 600 x); discriminate. }
  assert (is_fraud fraud_result = false -> fraud_indicators fraud_result <= 2)
    as Hind.
  { intros Hnf. apply detect_advanced_fraud_ok_inv in Hf. cbn zeta in Hf.
    destruct Hf as (Hfr & _ & Hi & _). rewrite Hi.
    destruct (Z_le_gt_dec (indicator_count r) 2) as [|Hgt]; [done|].
    pose proof (indicator_count_range r) as Hrange.
    rewrite Hfr, three_indicators_flag in Hnf by (lia || done).
    discriminate. }
  destruct (application_decision_cases credit_result fraud_result)
    as [(-> & [E|E] & Hnf)|(-> & Hrev)]; [by destruct Hne| |].
  - split; [by split|]. split; [by left|]. intros _.
    split; [|by apply Hind]. rewrite Hcs.
    assert (700 <= Qtrunc x) by (apply Qtrunc_ge_iff; [lra|by apply Hgood]).
    assert (Qtrunc x < 750)
      by (apply Qtrunc_lt; [lra | by apply (Qle_lt_trans _ 749.5)]).
    lia.
  - split; [|split; [by right|discriminate]].
    split; [discriminate|]. intros [Eg Enf].
    destruct Hrev as [[_ Hng]|Hfr]; [by destruct Hng | congruence].
Qed.

Lemma analyse_application_decision_witness :
  exists credit_result fraud_result,
    fst (analyse_application 0.1 example_record)
      = Ok (credit_result, fraud_result, "Review Required") /\
    detect_advanced_fraud example_record 0.1 = Ok fraud_result.
Proof.
  eexists _, _. split; [vm_compute; reflexivity|].
  assert ((0 <= 0.1)%Q) as H0 by (by vm_compute).
  eapply (analyse_application_decision example_record 0.1 _ _ _ H0).
  vm_compute. reflexivity.
Defined.

(** X11. The category [create_risk_distribution] gives to the credit score
    of a decision is the risk level of that decision: truncating the final
    score to an integer never moves it across a threshold.  The list of
    categories has one entry per score, in order. *)
Theorem risk_category_of_decision (scores : list Z) :
  risk_categories scores = map risk_category scores /\
  length (risk_categories scores) = length scores /\
  (forall r res, fst (predict_credit_risk r) = Ok res ->
     risk_category (credit_score res) = risk_level res).
Proof.
  assert (forall acc l, risk_categories_from acc l
                        = (acc ++ map risk_category l)%list) as Hloop.
  { intros acc l. revert acc. induction l as [|z rest IH]; intros acc; cbn.
    - by rewrite app_nil_r.
    - by rewrite IH, <- app_assoc. }
  unfold risk_categories. rewrite Hloop. cbn [app].
  split; [reflexivity|]. split; [apply length_map|].
  intros r res Hres.
  destruct (predict_credit_risk_final_inv r res Hres)
    as (x & Hlo & Hhi & -> & ->).
  apply risk_category_trunc. lra.
Qed.

(** ** The batch loop *)

Section Batch.

Implicit Types (row : pydict) (rows : list pydict) (draw : nat -> Q).

(** A row goes through, or raises [TypeError]. *)
Lemma process_row_typing row U :
  match process_row row U with
  | Ok _ => row_ok row = true
  | Raise e => e = TypeError /\ row_ok row = false
  end.
Proof.
  unfold process_row, row_ok.
  pose proof (predict_credit_risk_typing row) as Hp.
  pose proof (predict_credit_risk_state row) as Hst.
  destruct (predict_credit_risk row) as [[c|e] d']; cbn [fst snd] in *.
  2: { destruct Hp as [-> ->]. by split. }
  subst d'. rewrite Hp, detect_advanced_fraud_defaulted. cbn [andb].
  pose proof (patterns_typing row) as Hf. unfold detect_advanced_fraud.
  destruct (patterns row) as [ps|e]; cbn [rbind].
  - rewrite Hf. by destruct (count_patterns ps (0, [])).
  - destruct Hf as [-> ->]. by split.
Qed.



Lemma batch_loop_typing draw rows : forall i results scores,
  match batch_loop draw i rows results scores with
  | Ok _ => forallb row_ok rows = true
  | Raise e => e = TypeError /\ forallb row_ok rows = false
  end.
Proof.
  induction rows as [|row rest IH]; intros i results scores; [reflexivity|].
  cbn [batch_loop forallb].
  pose proof (process_row_typing row (draw i)) as Hrow.
  destruct (process_row row (draw i)) as [o|e]; cbn [rbind].
  - rewrite Hrow. cbn [andb]. apply IH.
  - destruct Hrow as [-> ->]. by split.
Qed.

End Batch.



(** X13. The batch is all or nothing: if in some row a value that a scorer
    or the fraud detector compares is not a number, the loop raises
    [TypeError] and no result is produced, also for the rows before it;
    otherwise it produces the results of all rows. *)
Theorem process_batch_all_or_nothing (draw : nat -> Q) (rows : list pydict) :
  (forallb row_ok rows = true ->
     exists results scores, process_batch draw rows = Ok (results, scores)) /\
  (forallb row_ok rows = false -> process_batch draw rows = Raise TypeError).
Proof.
  unfold process_batch.
  pose proof (batch_loop_typing draw rows 0 [] []) as H.
  destruct (batch_loop draw 0 rows [] []) as [[results scores]|e].
  - split; [by eauto|]. intros E. congruence.
  - destruct H as [-> H]. split; [intros E; congruence|reflexivity].
Qed.

(** ** Monotonicity of the scorers *)

Section FloatOrder.

Implicit Types (a b c : pyfloat).

Ltac float_cases :=
  unfold float_leb, float_ltb, float_eqb;
  repeat match goal with
         | x : pyfloat |- _ => destruct x as [|[|]|?]
         end;
  cbn; rewrite ?orb_true_iff, ?orb_false_r, ?orb_false_l;
  rewrite ?Qlt_bool_iff, ?Qeq_bool_iff;
  intros; try discriminate; try reflexivity;
  repeat match goal with
         | H : _ \/ _ |- _ => destruct H
         | H : false = true |- _ => discriminate H
         | H : Qlt_bool _ _ = true |- _ => apply Qlt_bool_iff in H
         | H : Qeq_bool _ _ = true |- _ => apply Qeq_bool_iff in H
         end;
  try lra.

Lemma float_ltb_leb_trans a b c :
  float_ltb a b = true -> float_leb b c = true -> float_ltb a c = true.
Proof. revert a b c. intros a b c. float_cases. Qed.

Lemma float_leb_ltb_trans a b c :
  float_leb a b = true -> float_ltb b c = true -> float_ltb a c = true.
Proof. revert a b c. intros a b c. float_cases. Qed.

Lemma float_leb_trans a b c :
  float_leb a b = true -> float_leb b c = true -> float_leb a c = true.
Proof.
  revert a b c. intros a b c. float_cases;
    try (left; lra); try (right; lra).
  all: match goal with
       | |- (?x < ?y)%Q \/ _ =>
           destruct (Qlt_le_dec x y); [left; lra | right; lra]
       end.
Qed.

Lemma float_eqb_squeeze a b c :
  float_leb c b = true -> float_leb b a = true -> float_eqb a c = true ->
  float_eqb b c = true.
Proof. revert a b c. intros a b c. float_cases. Qed.

End FloatOrder.

Section Monotone.

Implicit Types (d : pydict) (v w : pyval).

Lemma num_le_inv v w :
  num_le v w = true ->
  exists x y, as_num v = Some x /\ as_num w = Some y /\ float_leb x y = true.
Proof.
  unfold num_le. destruct (as_num v) as [x|], (as_num w) as [y|];
    try discriminate. intros H. by exists x, y.
Qed.

Lemma py_eq_numeric v w x y :
  as_num v = Some x -> as_num w = Some y -> py_eq v w = float_eqb x y.
Proof. intros Hv Hw. unfold py_eq. by rewrite Hv, Hw. Qed.

(** Splits on the two sides of an implication between booleans. *)
Ltac case_pair H :=
  match type of H with
  | ?a = true -> ?b = true =>
      destruct a; [try rewrite (H eq_refl); clear H | clear H; destruct b]
  end.

Ltac close_scores :=
  cbn [rbind]; eexists _, _;
  split; [reflexivity|split; [reflexivity|lia]].

Lemma calculate_financial_score_mono d1 d2 :
  num_le (dict_get d1 "income" (VInt 500000))
         (dict_get d2 "income" (VInt 500000)) = true ->
  num_le (dict_get d2 "debt_to_income" (VFloat (Ffin 0.3)))
         (dict_get d1 "debt_to_income" (VFloat (Ffin 0.3))) = true ->
  exists s1 s2,
    calculate_financial_score d1 = Ok s1 /\
    calculate_financial_score d2 = Ok s2 /\ s1 <= s2.
Proof.
  unfold calculate_financial_score.
  generalize (dict_get d1 "income" (VInt 500000)) as i1.
  generalize (dict_get d2 "income" (VInt 500000)) as i2.
  generalize (dict_get d1 "debt_to_income" (VFloat (Ffin 0.3))) as t1.
  generalize (dict_get d2 "debt_to_income" (VFloat (Ffin 0.3))) as t2.
  intros t2 t1 i2 i1 Hi Ht.
  apply num_le_inv in Hi as (x1 & x2 & Hx1 & Hx2 & Hx).
  apply num_le_inv in Ht as (y2 & y1 & Hy2 & Hy1 & Hy).
  order_known Hx1; order_known Hx2; order_known Hy1; order_known Hy2.
  pose proof (fun c H => float_ltb_leb_trans c x1 x2 H Hx) as Hup.
  pose proof (fun c H => float_leb_ltb_trans x1 x2 c Hx H) as Hdown.
  pose proof (fun c H => float_ltb_leb_trans c y2 y1 H Hy) as Hup'.
  pose proof (fun c H => float_leb_ltb_trans y2 y1 c Hy H) as Hdown'.
  pose proof (Hup (Ffin (inject_Z 1000000))) as I1.
  pose proof (Hup (Ffin (inject_Z 750000))) as I2.
  pose proof (Hdown (Ffin (inject_Z 300000))) as I3.
  pose proof (Hdown' (Ffin 0.2)) as J1.
  pose proof (Hdown' (Ffin 0.35)) as J2.
  pose proof (Hup' (Ffin 0.5)) as J3.
  clear Hup Hdown Hup' Hdown'.
  case_pair I1; case_pair I2; case_pair I3; cbn [rbind];
    case_pair J1; case_pair J2; case_pair J3; close_scores.
Qed.

Lemma calculate_behavioral_score_mono d1 d2 :
  num_le (VInt 0) (dict_get d2 "late_payments_90d" (VInt 0)) = true ->
  num_le (dict_get d2 "late_payments_90d" (VInt 0))
         (dict_get d1 "late_payments_90d" (VInt 0)) = true ->
  num_le (dict_get d2 "credit_utilization" (VFloat (Ffin 0.4)))
         (dict_get d1 "credit_utilization" (VFloat (Ffin 0.4))) = true ->
  exists s1 s2,
    calculate_behavioral_score d1 = Ok s1 /\
    calculate_behavioral_score d2 = Ok s2 /\ s1 <= s2.
Proof.
  unfold calculate_behavioral_score.
  generalize (dict_get d1 "late_payments_90d" (VInt 0)) as l1.
  generalize (dict_get d2 "late_payments_90d" (VInt 0)) as l2.
  generalize (dict_get d1 "credit_utilization" (VFloat (Ffin 0.4))) as u1.
  generalize (dict_get d2 "credit_utilization" (VFloat (Ffin 0.4))) as u2.
  intros u2 u1 l2 l1 H0 Hl Hu.
  apply num_le_inv in Hl as (x2 & x1 & Hx2 & Hx1 & Hx).
  apply num_le_inv in H0 as (z & x2' & Hz & Hx2' & H0).
  rewrite Hx2 in Hx2'. injection Hx2' as <-. cbn in Hz. injection Hz as <-.
  apply num_le_inv in Hu as (y2 & y1 & Hy2 & Hy1 & Hy).
  rewrite (py_eq_numeric l1 (VInt 0) x1 _ Hx1 eq_refl).
  rewrite (py_eq_numeric l2 (VInt 0) x2 _ Hx2 eq_refl).
  order_known Hx1; order_known Hx2; order_known Hy1; order_known Hy2.
  pose proof (float_eqb_squeeze x1 x2 _ H0 Hx) as I1.
  pose proof (fun H => float_leb_trans x2 x1 (Ffin (inject_Z 2)) Hx H) as I2.
  pose proof (fun H => float_ltb_leb_trans (Ffin (inject_Z 5)) x2 x1 H Hx)
    as I3.
  pose proof (fun H => float_leb_ltb_trans y2 y1 (Ffin 0.2) Hy H) as J1.
  pose proof (fun H => float_leb_ltb_trans y2 y1 (Ffin 0.4) Hy H) as J2.
  pose proof (fun H => float_ltb_leb_trans (Ffin 0.8) y2 y1 H Hy) as J3.
  case_pair I1; case_pair I2; case_pair I3; cbn [rbind];
    case_pair J1; case_pair J2; case_pair J3; close_scores.
Qed.

Lemma calculate_stability_score_mono d1 d2 :
  num_le (dict_get d1 "employment_length" (VInt 5))
         (dict_get d2 "employment_length" (VInt 5)) = true ->
  (py_eq (dict_get d1 "property_ownership" (VStr "Owned")) (VStr "Owned")
     = true ->
   py_eq (dict_get d2 "property_ownership" (VStr "Owned")) (VStr "Owned")
     = true) ->
  exists s1 s2,
    calculate_stability_score d1 = Ok s1 /\
    calculate_stability_score d2 = Ok s2 /\ s1 <= s2.
Proof.
  unfold calculate_stability_score.
  generalize (dict_get d1 "employment_length" (VInt 5)) as e1.
  generalize (dict_get d2 "employment_length" (VInt 5)) as e2.
  generalize (py_eq (dict_get d1 "property_ownership" (VStr "Owned"))
                    (VStr "Owned")) as o1.
  generalize (py_eq (dict_get d2 "property_ownership" (VStr "Owned"))
                    (VStr "Owned")) as o2.
  intros o2 o1 e2 e1 He Ho.
  apply num_le_inv in He as (x1 & x2 & Hx1 & Hx2 & Hx).
  order_known Hx1; order_known Hx2.
  pose proof (fun H => float_ltb_leb_trans (Ffin (inject_Z 10)) x1 x2 H Hx)
    as I1.
  pose proof (fun H => float_ltb_leb_trans (Ffin (inject_Z 5)) x1 x2 H Hx)
    as I2.
  pose proof (fun H => float_leb_ltb_trans x1 x2 (Ffin (inject_Z 2)) Hx H)
    as I3.
  case_pair I1; case_pair I2; case_pair I3; cbn [rbind];
    case_pair Ho; close_scores.
Qed.

End Monotone.

Section DecisionMonotone.

Implicit Types (d r : pydict).

Lemma Qtrunc_mono (x y : Q) :
  (0 <= x)%Q -> (x <= y)%Q -> Qtrunc x <= Qtrunc y.
Proof.
  intros H0 Hxy. apply Qtrunc_ge_iff; [lra|].
  eapply Qle_trans; [|exact Hxy]. by apply Qtrunc_ge_iff.
Qed.

(** The final score of a decision is the unclamped sum. *)
Lemma decision_of_final_value d b f s :
  550 <= b <= 730 -> 580 <= f <= 725 -> 615 <= s <= 715 ->
  let x := (inject_Z b * 0.4 + inject_Z f * 0.35 + inject_Z s * 0.25
            + inject_Z (risk_adjustment_of
                          (dict_get d "industry_risk" (VStr "Medium"))
                          (dict_get d "geographic_risk" (VStr "Medium"))))%Q in
  final_score (component_scores (decision_of d b f s)) = NFloat x /\
  credit_score (decision_of d b f s) = Qtrunc x /\
  (531.75 <= x)%Q.
Proof.
  intros Hb Hf Hs. cbn zeta. unfold decision_of.
  cbn [component_scores final_score credit_score ensemble_weights
       w_behavioral_score w_financial_score w_stability_score].
  set (adj := risk_adjustment_of _ _).
  pose proof (risk_adjustment_of_range
                (dict_get d "industry_risk" (VStr "Medium"))
                (dict_get d "geographic_risk" (VStr "Medium"))) as Hadj.
  fold adj in Hadj.
  set (x := (inject_Z b * 0.4 + inject_Z f * 0.35 + inject_Z s * 0.25
             + inject_Z adj)%Q).
  assert ((531.75 <= x)%Q /\ (x <= 749.5)%Q) as [Hlo Hhi].
  { apply inject_Z_between in Hb as [Hb1 Hb2], Hf as [Hf1 Hf2],
      Hs as [Hs1 Hs2], Hadj as [Ha1 Ha2].
    subst x. split; lra. }
  destruct (clamp_cases x) as [[_ H]|[[_ H]|[E _]]]; [lra|lra|].
  cbn zeta in E. rewrite E. auto.
Qed.

End DecisionMonotone.

(** X14. A better applicant never gets a lower score: if [r2] is no worse
    than [r1] on the five scored attributes and on home ownership, with the
    same risk labels, then [predict_credit_risk] returns a decision for
    both, and neither the final score nor the credit score of [r2] is below
    that of [r1]. *)
Theorem credit_score_monotone (r1 r2 : pydict) :
  no_worse r1 r2 ->
  exists res1 res2,
    fst (predict_credit_risk r1) = Ok res1 /\
    fst (predict_credit_risk r2) = Ok res2 /\
    (num_val (final_score (component_scores res1))
       <= num_val (final_score (component_scores res2)))%Q /\
    credit_score res1 <= credit_score res2.
Proof.
  intros (Hinc & Hdti & Hl0 & Hlp & Hut & Hel & Hpo & Hir & Hgr).
  destruct (calculate_behavioral_score_mono r1 r2 Hl0 Hlp Hut)
    as (b1 & b2 & Eb1 & Eb2 & Hb).
  destruct (calculate_financial_score_mono r1 r2 Hinc Hdti)
    as (f1 & f2 & Ef1 & Ef2 & Hf).
  destruct (calculate_stability_score_mono r1 r2 Hel Hpo)
    as (s1 & s2 & Es1 & Es2 & Hs).
  exists (decision_of r1 b1 f1 s1), (decision_of r2 b2 f2 s2).
  rewrite !predict_credit_risk_raw, Eb1, Ef1, Es1, Eb2, Ef2, Es2.
  cbn [rbind]. split; [reflexivity|]. split; [reflexivity|].
  destruct (decision_of_final_value r1 b1 f1 s1) as (-> & -> & Hlo1);
    [by eapply calculate_behavioral_score_tight
    |by eapply calculate_financial_score_tight
    |by eapply calculate_stability_score_tight|].
  destruct (decision_of_final_value r2 b2 f2 s2) as (-> & -> & Hlo2);
    [by eapply calculate_behavioral_score_tight
    |by eapply calculate_financial_score_tight
    |by eapply calculate_stability_score_tight|].
  rewrite <- Hir, <- Hgr in *. cbn [num_val].
  set (adj := inject_Z (risk_adjustment_of _ _)) in *.
  rewrite Zle_Qle in Hb, Hf, Hs.
  assert (inject_Z b1 * 0.4 + inject_Z f1 * 0.35 + inject_Z s1 * 0.25 + adj
          <= inject_Z b2 * 0.4 + inject_Z f2 * 0.35 + inject_Z s2 * 0.25 + adj)%Q
    as Hx by lra.
  split; [exact Hx|]. apply Qtrunc_mono; [lra|exact Hx].
Qed.

Lemma credit_score_monotone_witness :
  no_worse partial_record richer_record /\
  exists res1 res2,
    fst (predict_credit_risk partial_record) = Ok res1 /\
    fst (predict_credit_risk richer_record) = Ok res2 /\
    credit_score res1 <= credit_score res2.
Proof.
  assert (no_worse partial_record richer_record) as H.
  { unfold no_worse. split_and!; vm_compute; reflexivity. }
  split; [exact H|].
  destruct (credit_score_monotone partial_record richer_record H)
    as (res1 & res2 & H1 & H2 & _ & H3).
  exists res1, res2. split; [exact H1|]. split; [exact H2|exact H3].
Defined.

(** X15. Each scorer is monotone in what it reads: the financial score
    does not fall when income rises and the debt-to-income ratio falls; the
    behavioral score does not fall when late payments (not negative) and
    credit utilization fall; the stability score does not fall when the
    employment length rises and home ownership is kept. *)
Theorem component_scores_monotone (d1 d2 : pydict) :
  (num_le (dict_get d1 "income" (VInt 500000))
          (dict_get d2 "income" (VInt 500000)) = true ->
   num_le (dict_get d2 "debt_to_income" (VFloat (Ffin 0.3)))
          (dict_get d1 "debt_to_income" (VFloat (Ffin 0.3))) = true ->
   exists s1 s2,
     calculate_financial_score d1 = Ok s1 /\
     calculate_financial_score d2 = Ok s2 /\ s1 <= s2) /\
  (num_le (VInt 0) (dict_get d2 "late_payments_90d" (VInt 0)) = true ->
   num_le (dict_get d2 "late_payments_90d" (VInt 0))
          (dict_get d1 "late_payments_90d" (VInt 0)) = true ->
   num_le (dict_get d2 "credit_utilization" (VFloat (Ffin 0.4)))
          (dict_get d1 "credit_utilization" (VFloat (Ffin 0.4))) = true ->
   exists s1 s2,
     calculate_behavioral_score d1 = Ok s1 /\
     calculate_behavioral_score d2 = Ok s2 /\ s1 <= s2) /\
  (num_le (dict_get d1 "employment_length" (VInt 5))
          (dict_get d2 "employment_length" (VInt 5)) = true ->
   (py_eq (dict_get d1 "property_ownership" (VStr "Owned")) (VStr "Owned")
      = true ->
    py_eq (dict_get d2 "property_ownership" (VStr "Owned")) (VStr "Owned")
      = true) ->
   exists s1 s2,
     calculate_stability_score d1 = Ok s1 /\
     calculate_stability_score d2 = Ok s2 /\ s1 <= s2).
Proof.
  split; [apply calculate_financial_score_mono|].
  split; [apply calculate_behavioral_score_mono
         |apply calculate_stability_score_mono].
Qed.

(** ** Perfect separation *)

Section Separation.

Implicit Types (r : row) (rows : list row) (ys : list Z).

Lemma score_ge_trans : Transitive score_ge.
Proof. intros a b c H1 H2. unfold score_ge in *. lra. Qed.

(** The rows split at the last row of label 1. *)
Lemma last_positive_split rows :
  (exists r, In r rows /\ fst r = 1) ->
  exists l1 r l2,
    rows = (l1 ++ r :: l2)%list /\ fst r = 1 /\
    Forall (fun r' => fst r' <> 1) l2.
Proof.
  induction rows as [|a rest IH]; intros (r & Hin & Hr); [destruct Hin|].
  destruct (existsb (fun r' => Z.eqb (fst r') 1) rest) eqn:E.
  - apply existsb_exists in E as (r' & Hin' & Hr'). apply Z.eqb_eq in Hr'.
    destruct IH as (l1 & r0 & l2 & -> & H0 & Hl2); [by exists r'|].
    by exists (a :: l1), r0, l2.
  - assert (Forall (fun r' => fst r' <> 1) rest) as Hrest.
    { apply List.Forall_forall. intros x Hx Hfx.
      assert (existsb (fun r' => Z.eqb (fst r') 1) rest = true) as E'.
      { apply existsb_exists. exists x. split; [done|by apply Z.eqb_eq]. }
      congruence. }
    destruct Hin as [->|Hin].
    + by exists [], r, rest.
    + rewrite List.Forall_forall in Hrest. destruct (Hrest r Hin Hr).
Qed.

(** In a frame sorted by decreasing score every row before [r] scores at
    least as much as [r]. *)
Lemma sorted_prefix_ge l1 r l2 :
  Sorted score_ge (l1 ++ r :: l2) -> Forall (fun a => score_ge a r) l1.
Proof.
  intros Hs. apply (Sorted_StronglySorted score_ge_trans) in Hs.
  induction l1 as [|a l1 IH]; [constructor|].
  cbn in Hs. apply StronglySorted_inv in Hs as [Hs Ha].
  constructor; [|by apply IH].
  rewrite List.Forall_forall in Ha. apply Ha, in_elt.
Qed.

Lemma count_label_app (label : Z) ys ys' :
  count_label label (ys ++ ys') = count_label label ys + count_label label ys'.
Proof. unfold count_label. rewrite List.filter_app, length_app. lia. Qed.

Lemma count_label_none (label : Z) rows :
  Forall (fun r => fst r <> label) rows ->
  count_label label (map fst rows) = 0.
Proof.
  unfold count_label. induction 1 as [|r rest Hr _ IH]; [reflexivity|].
  cbn [map List.filter]. by destruct (Z.eqb_spec (fst r) label).
Qed.

Lemma count_label_one r : fst r = 1 -> count_label 1 [fst r] = 1.
Proof. intros ->. reflexivity. Qed.

(** At the rank of the last positive row, when no negative row comes
    before it, all positives and no negative have been seen. *)
Lemma gap_at_last_positive l1 r l2 :
  fst r = 1 ->
  Forall (fun r' => fst r' <> 1) l2 ->
  Forall (fun r' => fst r' <> 0) l1 ->
  (gap_at (map fst (l1 ++ r :: l2)) (length l1) == 1)%Q.
Proof.
  intros Hr Hl2 Hl1. unfold gap_at, cumulative_fraction.
  assert (take (S (length l1)) (map fst (l1 ++ r :: l2))
          = (map fst l1 ++ [fst r])%list) as ->.
  { rewrite map_app. cbn [map].
    change (fst r :: map fst l2) with ([fst r] ++ map fst l2)%list.
    rewrite app_assoc.
    apply take_app_length'.
    rewrite length_app, length_map. cbn [length]. apply eq_sym, Nat.add_1_r. }
  assert (map fst (l1 ++ r :: l2) = ((map fst l1 ++ [fst r]) ++ map fst l2)%list)
    as -> by (by rewrite map_app, <- app_assoc).
  rewrite !(count_label_app _ (_ ++ _)), (count_label_none 1 l2 Hl2), Z.add_0_r.
  rewrite (count_label_app 0), (count_label_none 0 l1 Hl1).
  rewrite (count_label_app 1), (count_label_one r Hr).
  assert (count_label 0 [fst r] = 0) as -> by (by rewrite Hr).
  assert (0 <= count_label 1 (map fst l1)) as Hc by (unfold count_label; lia).
  set (c := count_label 1 (map fst l1)) in *.
  replace (Z.max 1 (c + 1)) with (c + 1) by lia.
  assert (0 < inject_Z (c + 1))%Q as Hpos.
  { change 0%Q with (inject_Z 0). rewrite <- Zlt_Qlt. lia. }
  assert (inject_Z (c + 1) / inject_Z (c + 1) == 1)%Q as ->
    by (field; lra).
  assert (inject_Z (0 + 0) / inject_Z (Z.max 1 (0 + 0 + count_label 0 (map fst l2)))
          == 0)%Q as ->.
  { unfold Qdiv. change (inject_Z (0 + 0)) with 0%Q. apply Qmult_0_l. }
  reflexivity.
Qed.

Lemma nunique_two (a b : Z) ys :
  In a ys -> In b ys -> a <> b -> (2 <= nunique ys)%nat.
Proof.
  intros Ha Hb Hab. unfold nunique.
  apply list_elem_of_In, elem_of_remove_dups in Ha.
  apply list_elem_of_In, elem_of_remove_dups in Hb.
  destruct (remove_dups ys) as [|x [|x' l]]; cbn; [|exfalso|lia].
  - by apply elem_of_nil in Ha.
  - apply list_elem_of_singleton in Ha, Hb. congruence.
Qed.

Lemma in_labels_combine (y : Z) (y_true : list Z) (y_pred : list Q) :
  length y_true = length y_pred -> In y y_true ->
  exists p, In (y, p) (combine y_true y_pred).
Proof.
  intros Hlen Hy. rewrite <- (map_fst_combine y_true y_pred Hlen) in Hy.
  apply in_map_iff in Hy as ([y' p] & <- & Hin). by exists p.
Qed.

(** With two classes the value returned bounds every gap. *)
Lemma ks_statistic_max_gap (y_true : list Z) (y_pred : list Q) :
  length y_true = length y_pred -> (2 <= nunique y_true)%nat ->
  exists ks : Q,
    ks_statistic y_true y_pred = Ffin ks /\ (ks <= 1)%Q /\
    forall i,
      (i < length y_true)%nat ->
      (gap_at (map fst (sort_values_desc (combine y_true y_pred))) i <= ks)%Q.
Proof.
  intros Hlen Hge. unfold ks_statistic.
  rewrite (proj2 (Nat.eqb_eq _ _) Hlen). unfold ks_of_frame.
  set (y := map fst (sort_values_desc (combine y_true y_pred))).
  pose proof (sorted_labels_perm y_true y_pred Hlen) as Hperm. fold y in Hperm.
  rewrite (nunique_perm _ _ Hperm).
  destruct (Nat.ltb_spec (nunique y_true) 2) as [Hlt|_]; [lia|].
  rewrite gaps_ranks, (Permutation_length Hperm).
  pose proof (nunique_length y_true) as Hny.
  destruct (length y_true) as [|n]; [lia|].
  cbn [seq map series_max].
  set (gaps := map (gap_at y) (seq 1 n)).
  destruct (fold_max_spec gaps (gap_at y 0)) as [Hin Hub]. cbn zeta in Hin, Hub.
  set (ks := fold_left Qmax_py gaps (gap_at y 0)) in *.
  exists ks. split; [reflexivity|].
  change (gap_at y 0 :: gaps) with (map (gap_at y) (seq 0 (S n))) in Hin, Hub.
  split.
  - apply in_map_iff in Hin as (i & <- & _). apply gap_at_range.
  - intros i Hi. apply Hub, in_map_iff. exists i. split; [done|].
    apply in_seq. lia.
Qed.

End Separation.

(** X16. When every row of label 1 has a strictly higher score than every
    row of label 0, and both labels occur, [ks_statistic] is 1: ranked by
    decreasing score, all positives come before the first negative. *)
Theorem ks_statistic_perfect_separation (y_true : list Z) (y_pred : list Q) :
  length y_true = length y_pred ->
  In 1 y_true -> In 0 y_true ->
  (forall p1 p0 : Q,
     In (1, p1) (combine y_true y_pred) ->
     In (0, p0) (combine y_true y_pred) -> (p0 < p1)%Q) ->
  exists ks : Q, ks_statistic y_true y_pred = Ffin ks /\ (ks == 1)%Q.
Proof.
  intros Hlen H1 H0 Hsep.
  assert (2 <= nunique y_true)%nat as Hnu by (by apply (nunique_two 1 0)).
  destruct (ks_statistic_max_gap y_true y_pred Hlen Hnu) as (ks & Hks & Hle & Hub).
  exists ks. split; [exact Hks|].
  set (rows := sort_values_desc (combine y_true y_pred)) in *.
  pose proof (sort_values_desc_perm (combine y_true y_pred)) as Hperm.
  pose proof (sort_values_desc_sorted (combine y_true y_pred)) as Hsorted.
  fold rows in Hperm, Hsorted.
  destruct (in_labels_combine 1 y_true y_pred Hlen H1) as (p1 & Hp1).
  destruct (last_positive_split rows) as (l1 & r & l2 & Hrows & Hr & Hl2).
  { exists (1, p1). split; [|reflexivity].
    by apply (Permutation_in _ (Permutation_sym Hperm)). }
  assert (Forall (fun r' => fst r' <> 0) l1) as Hl1.
  { rewrite Hrows in Hsorted. apply sorted_prefix_ge in Hsorted.
    rewrite List.Forall_forall in Hsorted |- *. intros [ya pa] Ha Hya.
    cbn in Hya. subst ya. specialize (Hsorted _ Ha). unfold score_ge in Hsorted.
    destruct r as [yr pr]. cbn in Hr, Hsorted. subst yr.
    assert (pa < pr)%Q; [|lra].
    apply Hsep; apply (Permutation_in _ Hperm); rewrite Hrows;
      apply in_or_app; [right; by left | by left]. }
  pose proof (gap_at_last_positive l1 r l2 Hr Hl2 Hl1) as Hgap.
  rewrite <- Hrows in Hgap.
  assert (length l1 < length y_true)%nat as Hi.
  { rewrite <- (Permutation_length (sorted_labels_perm y_true y_pred Hlen)).
    fold rows. rewrite Hrows, length_map, length_app. cbn [length].
    unfold row. lia. }
  specialize (Hub _ Hi). lra.
Qed.

Lemma ks_statistic_perfect_separation_witness :
  exists ks : Q,
    ks_statistic [0; 1; 0; 1] [0.2; 0.9; 0.4; 0.7]%Q = Ffin ks /\ (ks == 1)%Q.
Proof.
  apply ks_statistic_perfect_separation.
  - reflexivity.
  - cbn. auto.
  - cbn. auto.
  - intros p1 p0 Hp1 Hp0. cbn in Hp1, Hp0.
    destruct Hp1 as [Hp1|[Hp1|[Hp1|[Hp1|[]]]]]; try discriminate Hp1;
      destruct Hp0 as [Hp0|[Hp0|[Hp0|[Hp0|[]]]]]; try discriminate Hp0;
      injection Hp1 as <-; injection Hp0 as <-; reflexivity.
Defined.

(** ** The report *)

Section Report.

(** The calls of [_add_strategic_recommendations], by risk level. *)
Lemma strategic_recommendations_of_level (credit_result : CreditDecision) :
  _add_strategic_recommendations credit_result =
    (_add_section_title "STRATEGIC RECOMMENDATIONS"
       ++ [set_font "Arial" "" 10]
       ++ map (fun txt => cell 0 6 txt 0 1 "" 0)
            (if str_in (risk_level credit_result) ["Excellent"; "Good"]
             then ["1. APPROVE: High profitability potential";
                   "2. Consider premium product offerings"]
             else if String.eqb (risk_level credit_result) "Medium"
             then ["1. CONDITIONAL APPROVAL: Additional verification recommended"]
             else ["1. DECLINE: High risk profile";
                   "2. Suggest secured credit alternatives"])
       ++ [ln 10])%list.
Proof.
  unfold _add_strategic_recommendations, recommendations_of.
  destruct (str_in _ _); [reflexivity|].
  destruct (String.eqb _ _); reflexivity.
Qed.

Lemma risk_level_category r res :
  fst (predict_credit_risk r) = Ok res ->
  risk_level res = risk_category (credit_score res).
Proof.
  intros Hres.
  destruct (predict_credit_risk_final_inv r res Hres)
    as (x & Hlo & Hhi & -> & ->).
  symmetry. apply risk_category_trunc. lra.
Qed.

End Report.

Ltac in_report := cbn [In]; repeat (first [left; reflexivity | right]).
Ltac not_in_report H :=
  cbn [In] in H; destruct_or!; (discriminate H || contradiction).

(** X17. The first numbered line of the strategic recommendations written
    for a decision of [predict_credit_risk] follows its credit score:
    APPROVE from 700, CONDITIONAL APPROVAL from 650 to 699, DECLINE below
    650.  An application the page approves gets APPROVE.  The
    recommendations do not look at the fraud assessment: for an application
    scoring 700 or more that is flagged as fraud, the executive summary
    reads Review Required and Fraud Detected: Yes, and the recommendations
    of the same report read APPROVE. *)
Theorem strategic_recommendations_by_score (r : pydict)
    (credit_result : CreditDecision) :
  fst (predict_credit_risk r) = Ok credit_result ->
  let line txt := cell 0 6 txt 0 1 "" 0 in
  let report := _add_strategic_recommendations credit_result in
  (In (line "1. APPROVE: High profitability potential") report
     <-> 700 <= credit_score credit_result) /\
  (In (line "1. CONDITIONAL APPROVAL: Additional verification recommended")
      report
     <-> 650 <= credit_score credit_result < 700) /\
  (In (line "1. DECLINE: High risk profile") report
     <-> credit_score credit_result < 650) /\
  (forall fraud_result : FraudAssessment,
     (application_decision credit_result fraud_result = "Approved" ->
        In (line "1. APPROVE: High profitability potential") report) /\
     (700 <= credit_score credit_result ->
      is_fraud fraud_result = true ->
        let summary :=
          _add_executive_summary credit_result fraud_result
            (application_decision credit_result fraud_result) in
        In (cell 0 8 "Credit Decision: Review Required" 0 1 "" 0) summary
        /\ In (line "Fraud Detected: Yes") summary
        /\ In (line "1. APPROVE: High profitability potential") report)).
Proof.
  intros Hres. cbv zeta.
  rewrite strategic_recommendations_of_level. unfold application_decision.
  rewrite (risk_level_category r credit_result Hres). unfold risk_category.
  set (cs := credit_score credit_result).
  destruct (Z.leb_spec 750 cs);
    [|destruct (Z.leb_spec 700 cs);
      [|destruct (Z.leb_spec 650 cs); [|destruct (Z.leb_spec 600 cs)]]];
    cbn [str_in existsb String.eqb Ascii.eqb Bool.eqb orb andb map app
         _add_section_title _add_executive_summary].
  all: do 3 (split; [split; [intros Hin; try lia; not_in_report Hin
                            |intros Hcs; try lia; in_report]|]).
  all: intros fraud_result; destruct (is_fraud fraud_result); cbn [negb].
  all: split; [intros Hd; try discriminate Hd; in_report|].
  all: intros Hcs Hf; try lia; try discriminate Hf.
  all: split; [in_report|split; in_report].
Qed.

Lemma strategic_recommendations_by_score_witness :
  exists credit_result fraud_result,
    fst (predict_credit_risk flagged_good_record) = Ok credit_result /\
    detect_advanced_fraud flagged_good_record 0.19 = Ok fraud_result /\
    In (cell 0 8 "Credit Decision: Review Required" 0 1 "" 0)
       (_add_executive_summary credit_result fraud_result
          (application_decision credit_result fraud_result)) /\
    In (cell 0 6 "1. APPROVE: High profitability potential" 0 1 "" 0)
       (_add_strategic_recommendations credit_result).
Proof.
  eexists _, _. split; [vm_compute; reflexivity|].
  split; [vm_compute; reflexivity|].
  match goal with
  | |- In _ (_add_executive_summary ?c ?f _) /\ _ =>
      assert (fst (predict_credit_risk flagged_good_record) = Ok c) as Hc
        by (vm_compute; reflexivity);
      assert (700 <= credit_score c) as Hcs
        by (vm_compute; intros E; discriminate E);
      assert (is_fraud f = true) as Hf by (vm_compute; reflexivity);
      destruct (proj2 (proj2 (proj2 (proj2
                 (strategic_recommendations_by_score
                    flagged_good_record c Hc))) f) Hcs Hf)
        as (H1 & _ & H3)
  end.
  split; [exact H1|exact H3].
Defined.
